(** * kernel_cleaner: selection and removal of the oldest unused kernel

    A shallow embedding of [kernel_cleaner.py] and the proofs of the
    properties its specification states.

    Text is a [string] whose characters are the code points 0..255; on
    that range Python's [\d] is exactly [0-9] and [str.isspace] is the
    set used by [is_space] below.  The message literals of the program
    are kept as they are written in the source file. *)

From Stdlib Require Import String Ascii List NArith ZArith Bool Lia.
From Stdlib Require Import Permutation Sorted DecimalString.
Import ListNotations.
Open Scope string_scope.

Set Implicit Arguments.

(** ** Python strings *)

Module PyStr.

Definition is_digit (c : ascii) : bool :=
  let n := N_of_ascii c in (48 <=? n)%N && (n <=? 57)%N.

(** [str.isspace] on the code points below 256. *)
Definition is_space (c : ascii) : bool :=
  let n := N_of_ascii c in
  ((9 <=? n)%N && (n <=? 13)%N) || ((28 <=? n)%N && (n <=? 32)%N)
  || (n =? 133)%N || (n =? 160)%N.

(** [str.lower] on one character: A-Z and the upper-case letters of the
    range 192..222 (215 is the multiplication sign). *)
Definition lower_char (c : ascii) : ascii :=
  let n := N_of_ascii c in
  if ((65 <=? n)%N && (n <=? 90)%N)
     || ((192 <=? n)%N && (n <=? 222)%N && negb (n =? 215)%N)
  then ascii_of_N (n + 32) else c.

Fixpoint lower (s : string) : string :=
  match s with
  | EmptyString => EmptyString
  | String c s' => String (lower_char c) (lower s')
  end.

Fixpoint lstrip (s : string) : string :=
  match s with
  | EmptyString => EmptyString
  | String c s' => if is_space c then lstrip s' else s
  end.

Fixpoint rstrip (s : string) : string :=
  match s with
  | EmptyString => EmptyString
  | String c s' =>
      match rstrip s' with
      | EmptyString => if is_space c then EmptyString else String c EmptyString
      | r => String c r
      end
  end.

(** [s.strip()] *)
Definition strip (s : string) : string := rstrip (lstrip s).

(** [s.startswith(p)] *)
Definition startswith (p s : string) : bool := prefix p s.

(** [sub in s] *)
Fixpoint contains (sub s : string) : bool :=
  prefix sub s ||
  match s with
  | EmptyString => false
  | String _ s' => contains sub s'
  end.

(** [s.split(c)] for a one-character separator: never empty, keeps the
    empty pieces. *)
Fixpoint split_on (c : ascii) (s : string) : list string :=
  match s with
  | EmptyString => [EmptyString]
  | String x s' =>
      if Ascii.eqb x c then EmptyString :: split_on c s'
      else match split_on c s' with
           | h :: t => String x h :: t
           | [] => [String x EmptyString]
           end
  end.

(** [s.split()]: the maximal runs of characters that are not white
    space; [w] is the run being read. *)
Fixpoint split_ws_from (w s : string) : list string :=
  match s with
  | EmptyString => match w with EmptyString => [] | _ => [w] end
  | String c s' =>
      if is_space c
      then match w with
           | EmptyString => split_ws_from EmptyString s'
           | _ => w :: split_ws_from EmptyString s'
           end
      else split_ws_from (w ++ String c EmptyString) s'
  end.

Definition split_ws (s : string) : list string := split_ws_from EmptyString s.

(** [sep.join(l)] *)
Fixpoint join (sep : string) (l : list string) : string :=
  match l with
  | [] => EmptyString
  | [x] => x
  | x :: l' => x ++ sep ++ join sep l'
  end.

(** [str(n)] for a length. *)
Definition str_of_nat (n : nat) : string :=
  NilEmpty.string_of_uint (Nat.to_uint n).

(** [sys.int_info.default_max_str_digits]: the number of digits past
    which [int] refuses a string, in CPython 3.11 and later. *)
Definition max_str_digits : N := 4300.

Definition too_long (s : string) : bool :=
  (max_str_digits <? N.of_nat (String.length s))%N.

(** [int(s)] on a string of decimal digits, which is all the program
    passes to it (the groups captured by [\d+]); [None] stands for
    ValueError, raised on a string of more than [max_str_digits]
    characters, leading zeros included. *)
Fixpoint int_from (acc : N) (s : string) : option N :=
  match s with
  | EmptyString => Some acc
  | String c s' =>
      if is_digit c
      then int_from (acc * 10 + (N_of_ascii c - 48)) s'
      else None
  end.

Definition int (s : string) : option N :=
  match s with
  | EmptyString => None
  | _ => if too_long s then None else int_from 0 s
  end.

(** [str(e)] of the ValueError that [int(s)] raises. *)
Definition int_error (s : string) : string :=
  if too_long s
  then "Exceeds the limit (4300 digits) for integer string conversion: value has "
       ++ str_of_nat (String.length s)
       ++ " digits; use sys.set_int_max_str_digits() to increase the limit"
  else "invalid literal for int() with base 10: '" ++ s ++ "'".

Fixpoint all_digits (s : string) : bool :=
  match s with
  | EmptyString => true
  | String c s' => is_digit c && all_digits s'
  end.

(** Comparison of tuples of integers: lexicographic, a proper prefix
    being smaller. *)
Fixpoint tuple_ltb (a b : list N) : bool :=
  match a, b with
  | [], [] => false
  | [], _ :: _ => true
  | _ :: _, [] => false
  | x :: a', y :: b' =>
      if (x <? y)%N then true
      else if (y <? x)%N then false
      else tuple_ltb a' b'
  end.

End PyStr.

(** ** The fragment of Python's [re] the program uses

    Literal text, [\d+] and capturing groups, in sequence.  [run r s]
    lists every way [r] matches a prefix of [s], as the groups captured
    and the text left, in the order the backtracking matcher tries them:
    [\d+] is greedy, so the longest run of digits comes first. *)

Module Re.

Inductive regex : Type :=
| Str (p : string)
| Digits
| Cat (r1 r2 : regex)
| Grp (r : regex).

(** What is left of [s] after its prefix [p]. *)
Fixpoint drop_prefix (p s : string) : option string :=
  match p, s with
  | EmptyString, _ => Some s
  | String a p', String b s' =>
      if Ascii.eqb a b then drop_prefix p' s' else None
  | String _ _, EmptyString => None
  end.

(** The texts left after one or more digits, longest match first. *)
Fixpoint digits_plus (s : string) : list string :=
  match s with
  | EmptyString => []
  | String c s' =>
      if PyStr.is_digit c then (digits_plus s' ++ [s'])%list else []
  end.

(** The text of [s] consumed when [rest] is left. *)
Definition consumed (s rest : string) : string :=
  substring 0 (String.length s - String.length rest) s.

Fixpoint run (r : regex) (s : string) : list (list string * string) :=
  match r with
  | Str p =>
      match drop_prefix p s with
      | Some rest => [([], rest)]
      | None => []
      end
  | Digits => map (fun rest => ([], rest)) (digits_plus s)
  | Cat r1 r2 =>
      flat_map (fun m1 =>
                  map (fun m2 => ((fst m1 ++ fst m2)%list, snd m2))
                      (run r2 (snd m1)))
               (run r1 s)
  | Grp r' =>
      map (fun m => (consumed s (snd m) :: fst m, snd m)) (run r' s)
  end.

(** [re.match(r, s)], as [groups()] of the match found. *)
Definition rmatch (r : regex) (s : string) : option (list string) :=
  match run r s with
  | m :: _ => Some (fst m)
  | [] => None
  end.

(** [re.search(r, s)]: the match at the leftmost position that has one. *)
Fixpoint search (r : regex) (s : string) : option (list string) :=
  match rmatch r s with
  | Some g => Some g
  | None =>
      match s with
      | EmptyString => None
      | String _ s' => search r s'
      end
  end.

(** The texts a pattern matches, with the groups it captures. *)
Inductive sem : regex -> string -> list string -> Prop :=
| sem_str p : sem (Str p) p []
| sem_digits m :
    m <> EmptyString -> PyStr.all_digits m = true -> sem Digits m []
| sem_cat r1 r2 m1 m2 g1 g2 :
    sem r1 m1 g1 -> sem r2 m2 g2 ->
    sem (Cat r1 r2) (m1 ++ m2) (g1 ++ g2)%list
| sem_grp r m g : sem r m g -> sem (Grp r) m (m :: g).

End Re.

(** ** Exceptions, the host and the effects of the program

    The program talks to its host through [subprocess.run], [input],
    [print], [os.geteuid] and the argument parser.  What the host
    answers is not fixed by the program: it is an [env], which gives
    the answer to the [n]-th blocking call.  A computation reads the
    [env], counts the blocking calls it has made, and yields a value or
    an exception together with the events it emitted, in order. *)

Module Py.

Inductive exn : Type :=
| CalledProcessError (text : string)
| RuntimeError (msg : string)
| ValueError (msg : string)
| KeyboardInterrupt
| SystemExit (code : Z)
| OtherException (text : string).

(** [isinstance(e, Exception)]: KeyboardInterrupt and SystemExit derive
    from BaseException only. *)
Definition is_Exception (e : exn) : bool :=
  match e with
  | KeyboardInterrupt | SystemExit _ => false
  | _ => true
  end.

(** [str(e)] for the exceptions the program prints. *)
Definition str_exn (e : exn) : string :=
  match e with
  | CalledProcessError t | RuntimeError t | ValueError t
  | OtherException t => t
  | KeyboardInterrupt => EmptyString
  | SystemExit c => EmptyString
  end.

Inductive res (A : Type) : Type :=
| Ok (a : A)
| Raise (e : exn).
Arguments Ok {A} a.
Arguments Raise {A} e.

Inductive event : Type :=
| EvRun (cmd : list string)
| EvPrint (line : string)
| EvInput (prompt : string).

(** The ways a blocking call can fail in the host: the user interrupts
    it, or it raises an error (OSError, EOFError and the like). *)
Inductive fault : Type :=
| Interrupt
| Failure (text : string).

Definition exn_of_fault (f : fault) : exn :=
  match f with
  | Interrupt => KeyboardInterrupt
  | Failure t => OtherException t
  end.

Inductive reply (A : Type) : Type :=
| Gives (a : A)
| Faults (f : fault).
Arguments Gives {A} a.
Arguments Faults {A} f.

Record CompletedProcess : Type := Completed {
  returncode : Z;
  stdout : string;
  stderr : string
}.

(** The [Namespace] built by the parser of [main]. *)
Record Namespace : Type := {
  arg_verbose : bool;
  arg_dry_run : bool;
  arg_status : bool
}.

(** What [parser.parse_args()] does: it returns the flags, or ends the
    process itself, with status 0 after [--help] and status 2 on a
    command line it rejects. *)
Inductive parse_reply : Type :=
| Parsed (ns : Namespace)
| HelpShown
| UsageError.

Record env : Type := {
  parse_args_reply : parse_reply;
  geteuid : Z;
  run_reply : nat -> list string -> reply CompletedProcess;
  input_reply : nat -> string -> reply string;
  (** [str()] of the CalledProcessError the library builds for a
      command and its status *)
  cpe_text : list string -> Z -> string
}.

Definition M (A : Type) : Type := env -> nat -> res A * list event * nat.

Definition ret {A} (a : A) : M A := fun _ n => (Ok a, [], n).

Definition raise {A} (e : exn) : M A := fun _ n => (Raise e, [], n).

Definition bind {A B} (m : M A) (f : A -> M B) : M B :=
  fun h n =>
    match m h n with
    | (Ok a, t1, n1) =>
        match f a h n1 with
        | (r, t2, n2) => (r, (t1 ++ t2)%list, n2)
        end
    | (Raise e, t1, n1) => (Raise e, t1, n1)
    end.

(** [try: m  except ...: handler e]; a handler re-raises what its
    [except] clauses do not name. *)
Definition try_except {A} (m : M A) (handler : exn -> M A) : M A :=
  fun h n =>
    match m h n with
    | (Ok a, t1, n1) => (Ok a, t1, n1)
    | (Raise e, t1, n1) =>
        match handler e h n1 with
        | (r, t2, n2) => (r, (t1 ++ t2)%list, n2)
        end
    end.

Definition print (line : string) : M unit :=
  fun _ n => (Ok tt, [EvPrint line], n).

(** [input(prompt)] *)
Definition input (prompt : string) : M string :=
  fun h n =>
    match input_reply h n prompt with
    | Gives s => (Ok s, [EvInput prompt], S n)
    | Faults f => (Raise (exn_of_fault f), [EvInput prompt], S n)
    end.

(** [subprocess.run(cmd, capture_output=True, text=True, check=check)] *)
Definition subprocess_run (cmd : list string) (check : bool)
  : M CompletedProcess :=
  fun h n =>
    match run_reply h n cmd with
    | Gives p =>
        if check && negb (returncode p =? 0)%Z
        then (Raise (CalledProcessError (cpe_text h cmd (returncode p))),
              [EvRun cmd], S n)
        else (Ok p, [EvRun cmd], S n)
    | Faults f => (Raise (exn_of_fault f), [EvRun cmd], S n)
    end.

Definition os_geteuid : M Z := fun h n => (Ok (geteuid h), [], n).

Definition parse_args : M Namespace :=
  fun h n =>
    match parse_args_reply h with
    | Parsed ns => (Ok ns, [], n)
    | HelpShown => (Raise (SystemExit 0), [], n)
    | UsageError => (Raise (SystemExit 2), [], n)
    end.

(** [for x in l: body x] *)
Fixpoint for_each {A} (l : list A) (body : A -> M unit) : M unit :=
  match l with
  | [] => ret tt
  | x :: l' => bind (body x) (fun _ => for_each l' body)
  end.

(** The result, the events and the exit status of a whole run. *)
Definition result_of {A} (o : res A * list event * nat) : res A :=
  fst (fst o).
Definition events_of {A} (o : res A * list event * nat) : list event :=
  snd (fst o).

Definition exit_status {A} (r : res A) : Z :=
  match r with
  | Ok _ => 0
  | Raise (SystemExit c) => c
  | Raise _ => 1
  end.

End Py.

Import Py.

Declare Scope py_scope.
Delimit Scope py_scope with py.
Notation "x <- m ;; k" := (bind m (fun x => k))
  (at level 61, m at next level, right associativity) : py_scope.
Notation "m ;;; k" := (bind m (fun _ => k))
  (at level 61, right associativity) : py_scope.

(** ** Sorting as Python does it *)

Module PySort.

(** [sorted(set(l))] on strings: the distinct elements in increasing
    order of code points. *)
Fixpoint insert_str (x : string) (l : list string) : list string :=
  match l with
  | [] => [x]
  | y :: l' =>
      match String.compare x y with
      | Lt => x :: l
      | Eq => l
      | Gt => y :: insert_str x l'
      end
  end.

Definition sorted_set (l : list string) : list string :=
  fold_right insert_str [] l.

Section ByKey.
Variable A : Type.

(** The keys are computed first, in the order of the list; the first
    key function that raises ends the sort. *)
Fixpoint with_keys (key : A -> res (list N)) (l : list A)
  : res (list (list N * A)) :=
  match l with
  | [] => Ok []
  | x :: l' =>
      match key x with
      | Raise e => Raise e
      | Ok k =>
          match with_keys key l' with
          | Raise e => Raise e
          | Ok kl => Ok ((k, x) :: kl)
          end
      end
  end.

(** The sort is stable: [x], which comes before the elements of [l],
    stays before those with the same key. *)
Fixpoint insert_key (x : list N * A) (l : list (list N * A))
  : list (list N * A) :=
  match l with
  | [] => [x]
  | y :: l' =>
      if PyStr.tuple_ltb (fst y) (fst x) then y :: insert_key x l'
      else x :: l
  end.

Definition stable_sort (l : list (list N * A)) : list (list N * A) :=
  fold_right insert_key [] l.

(** [l.sort(key=key)] and [sorted(l, key=key)] *)
Definition sort_by (key : A -> res (list N)) (l : list A) : res (list A) :=
  match with_keys key l with
  | Raise e => Raise e
  | Ok kl => Ok (map snd (stable_sort kl))
  end.

(** [sorted(l, key=key, reverse=True)]: the list is reversed, sorted
    and reversed again, which keeps equal keys in their first order. *)
Definition sort_by_reverse (key : A -> res (list N)) (l : list A)
  : res (list A) :=
  match with_keys key l with
  | Raise e => Raise e
  | Ok kl => Ok (map snd (rev (stable_sort (rev kl))))
  end.

End ByKey.

End PySort.

(** ** The program *)

Local Open Scope py_scope.

Definition nl : string := String "010" EmptyString.

Record KernelCleaner : Type := {
  current_kernel : string;
  verbose : bool
}.

Definition log (self : KernelCleaner) (message level : string) : M unit :=
  if verbose self || (level =? "ERROR")%string
  then print ("[" ++ level ++ "] " ++ message)
  else ret tt.

Definition get_current_kernel : M string :=
  try_except
    (result <- subprocess_run ["uname"; "-r"] true ;;
     ret (PyStr.strip (stdout result)))
    (fun e =>
       match e with
       | CalledProcessError _ =>
           raise (RuntimeError "Impossible de déterminer le noyau actuel")
       | _ => raise e
       end).

(** [KernelCleaner()] *)
Definition KernelCleaner_init : M KernelCleaner :=
  k <- get_current_kernel ;;
  ret {| current_kernel := k; verbose := false |}.

(** [linux-image-(\d+\.\d+\.\d+-\d+)] *)
Definition image_re : Re.regex :=
  Re.Cat (Re.Str "linux-image-")
    (Re.Grp
       (Re.Cat Re.Digits (Re.Cat (Re.Str ".")
       (Re.Cat Re.Digits (Re.Cat (Re.Str ".")
       (Re.Cat Re.Digits (Re.Cat (Re.Str "-") Re.Digits))))))).

(** [(\d+)\.(\d+)\.(\d+)-(\d+)] *)
Definition version_re : Re.regex :=
  Re.Cat (Re.Grp Re.Digits) (Re.Cat (Re.Str ".")
  (Re.Cat (Re.Grp Re.Digits) (Re.Cat (Re.Str ".")
  (Re.Cat (Re.Grp Re.Digits) (Re.Cat (Re.Str "-") (Re.Grp Re.Digits)))))).

(** The body of the loop of [get_installed_kernels]: what one line of
    the listing appends to [kernels]. *)
Definition kernel_of_line (line : string) : option string :=
  if PyStr.contains "linux-image-" line && PyStr.startswith "ii" line
  then
    let parts := PyStr.split_ws line in
    if (2 <=? List.length parts)%nat
    then
      let package := nth 1 parts EmptyString in
      match Re.search image_re package with
      | Some groups => Some (nth 0 groups EmptyString)
      | None => None
      end
    else None
  else None.

Fixpoint collect_kernels (kernels : list string) (lines : list string)
  : list string :=
  match lines with
  | [] => kernels
  | line :: lines' =>
      match kernel_of_line line with
      | Some kernel_version =>
          collect_kernels (kernels ++ [kernel_version])%list lines'
      | None => collect_kernels kernels lines'
      end
  end.

(** [get_installed_kernels] on the text printed by [dpkg -l]. *)
Definition installed_kernels_of (out : string) : list string :=
  PySort.sorted_set (collect_kernels [] (PyStr.split_on "010" out)).

Definition get_installed_kernels : M (list string) :=
  try_except
    (result <- subprocess_run ["dpkg"; "-l"] true ;;
     ret (installed_kernels_of (stdout result)))
    (fun e =>
       match e with
       | CalledProcessError _ =>
           raise (RuntimeError "Impossible de lister les noyaux installés")
       | _ => raise e
       end).

Fixpoint ints (groups : list string) : res (list N) :=
  match groups with
  | [] => Ok []
  | g :: groups' =>
      match PyStr.int g with
      | None => Raise (ValueError (PyStr.int_error g))
      | Some n =>
          match ints groups' with
          | Ok ns => Ok (n :: ns)
          | Raise e => Raise e
          end
      end
  end.

Definition parse_kernel_version (version : string) : res (list N) :=
  match Re.rmatch version_re version with
  | Some groups => ints groups
  | None => Raise (ValueError ("Format de version invalide: " ++ version))
  end.

(** [[k for k in installed_kernels if k != self.current_kernel]] *)
Definition removable_kernels (self : KernelCleaner)
  (installed_kernels : list string) : list string :=
  filter (fun k => negb (k =? current_kernel self)%string) installed_kernels.

Definition find_oldest_removable_kernel (self : KernelCleaner)
  : M (option string) :=
  installed_kernels <- get_installed_kernels ;;
  let removable := removable_kernels self installed_kernels in
  match removable with
  | [] => ret None
  | _ =>
      if (List.length removable <=? 1)%nat
      then
        log self
          "Seul le noyau actuel et un noyau de sauvegarde sont installés"
          "INFO" ;;;
        ret None
      else
        match PySort.sort_by parse_kernel_version removable with
        | Ok sorted => ret (Some (nth 0 sorted EmptyString))
        | Raise (ValueError msg) =>
            log self ("Erreur lors du tri des versions: " ++ msg) "ERROR" ;;;
            ret None
        | Raise e => raise e
        end
  end.

(** The body of the loop of [get_kernel_packages]. *)
Definition package_of_line (kernel_version line : string) : option string :=
  if PyStr.startswith "ii" line && PyStr.contains kernel_version line
  then
    let parts := PyStr.split_ws line in
    if (2 <=? List.length parts)%nat
    then
      let package := nth 1 parts EmptyString in
      if existsb (fun prefix => PyStr.contains prefix package)
           ["linux-image-"; "linux-headers-"; "linux-modules-"]
      then Some package
      else None
    else None
  else None.

Fixpoint collect_packages (kernel_version : string) (packages : list string)
  (lines : list string) : list string :=
  match lines with
  | [] => packages
  | line :: lines' =>
      match package_of_line kernel_version line with
      | Some package =>
          collect_packages kernel_version (packages ++ [package])%list lines'
      | None => collect_packages kernel_version packages lines'
      end
  end.

Definition kernel_packages_of (kernel_version out : string) : list string :=
  collect_packages kernel_version [] (PyStr.split_on "010" out).

Definition get_kernel_packages (kernel_version : string) : M (list string) :=
  try_except
    (result <- subprocess_run ["dpkg"; "-l"] true ;;
     ret (kernel_packages_of kernel_version (stdout result)))
    (fun e =>
       match e with
       | CalledProcessError _ =>
           raise (RuntimeError "Impossible de lister les packages du noyau")
       | _ => raise e
       end).

(** [response in ['oui', 'o', 'yes', 'y']] after [lower().strip()] *)
Definition affirmative (answer : string) : bool :=
  let response := PyStr.strip (PyStr.lower answer) in
  existsb (fun a => (response =? a)%string) ["oui"; "o"; "yes"; "y"].

Definition confirm_prompt : string :=
  nl ++ "Êtes-vous sûr de vouloir supprimer ce noyau? (oui/non): ".

Definition confirm_removal (self : KernelCleaner) (kernel_version : string)
  (packages : list string) : M bool :=
  print (nl ++ "⚠️  CONFIRMATION REQUISE ⚠️") ;;;
  print ("Noyau actuel: " ++ current_kernel self) ;;;
  print ("Noyau à supprimer: " ++ kernel_version) ;;;
  print ("Packages à supprimer: "
         ++ PyStr.str_of_nat (List.length packages)) ;;;
  for_each packages (fun pkg => print ("  - " ++ pkg)) ;;;
  answer <- input confirm_prompt ;;
  ret (affirmative answer).

Definition apt_remove_cmd (packages : list string) : list string :=
  (["sudo"; "apt-get"; "remove"; "--purge"; "-y"] ++ packages)%list.

Definition update_grub_cmd : list string := ["sudo"; "update-grub"].

Definition remove_kernel (self : KernelCleaner) (kernel_version : string)
  (dry_run : bool) : M bool :=
  packages <- get_kernel_packages kernel_version ;;
  match packages with
  | [] =>
      log self ("Aucun package trouvé pour le noyau " ++ kernel_version)
        "INFO" ;;;
      ret false
  | _ =>
      log self ("Packages à supprimer: " ++ PyStr.join ", " packages)
        "INFO" ;;;
      if dry_run
      then
        log self "Mode simulation - aucune suppression effectuée" "INFO" ;;;
        ret true
      else
        try_except
          (confirmed <- confirm_removal self kernel_version packages ;;
           if negb confirmed then ret false
           else
             let cmd := apt_remove_cmd packages in
             log self ("Exécution: " ++ PyStr.join " " cmd) "INFO" ;;;
             result <- subprocess_run cmd false ;;
             if (returncode result =? 0)%Z
             then
               log self ("Noyau " ++ kernel_version
                         ++ " supprimé avec succès") "INFO" ;;;
               log self "Mise à jour de GRUB..." "INFO" ;;;
               subprocess_run update_grub_cmd true ;;;
               ret true
             else
               log self ("Erreur lors de la suppression: " ++ stderr result)
                 "ERROR" ;;;
               ret false)
          (fun e =>
             match e with
             | CalledProcessError _ =>
                 log self ("Erreur lors de la suppression: " ++ str_exn e)
                   "ERROR" ;;;
                 ret false
             | _ => raise e
             end)
  end.

(** Truth value of an [Optional[str]]: [None] and the empty string are
    false. *)
Definition truthy (o : option string) : bool :=
  match o with
  | Some (String _ _) => true
  | _ => false
  end.

Definition status_line (self : KernelCleaner) (kernel : string) : string :=
  let status :=
    if (kernel =? current_kernel self)%string then " (ACTUEL)"
    else EmptyString in
  "  - " ++ kernel ++ status.

Definition show_status (self : KernelCleaner) : M unit :=
  print ("Noyau actuel: " ++ current_kernel self) ;;;
  print "Noyaux installés:" ;;;
  installed_kernels <- get_installed_kernels ;;
  match PySort.sort_by_reverse parse_kernel_version installed_kernels with
  | Raise e => raise e
  | Ok newest_first =>
      for_each newest_first
        (fun kernel => print (status_line self kernel)) ;;;
      oldest <- find_oldest_removable_kernel self ;;
      if truthy oldest
      then print (nl ++ "Plus ancien noyau supprimable: "
                  ++ match oldest with Some k => k | None => "None" end)
      else print (nl ++ "Aucun noyau supprimable trouvé")
  end.

Definition run (self : KernelCleaner) (dry_run show : bool) : M unit :=
  log self "Démarrage du nettoyage des noyaux Linux" "INFO" ;;;
  log self ("Noyau actuel: " ++ current_kernel self) "INFO" ;;;
  if show then show_status self
  else
    oldest_kernel <- find_oldest_removable_kernel self ;;
    if negb (truthy oldest_kernel)
    then print "Aucun noyau ancien à supprimer."
    else
      let oldest := match oldest_kernel with Some k => k | None => "None" end in
      print ("Plus ancien noyau trouvé: " ++ oldest) ;;;
      removed <- remove_kernel self oldest dry_run ;;
      if removed
      then
        if negb dry_run
        then
          print "✅ Noyau supprimé avec succès!" ;;;
          print "🔄 Redémarrage recommandé pour finaliser les changements."
        else ret tt
      else print "❌ Échec de la suppression du noyau.".

(** The body of the [try] statement of [main]. *)
Definition main_body (args : Namespace) : M unit :=
  cleaner <- KernelCleaner_init ;;
  let cleaner := {| current_kernel := current_kernel cleaner;
                    verbose := arg_verbose args |} in
  run cleaner (arg_dry_run args) (arg_status args).

(** [not args.dry_run and not args.status and os.geteuid() != 0] *)
Definition lacks_privileges (args : Namespace) (euid : Z) : bool :=
  negb (arg_dry_run args) && negb (arg_status args) && negb (euid =? 0)%Z.

Definition main : M unit :=
  args <- parse_args ;;
  euid <- os_geteuid ;;
  if lacks_privileges args euid
  then
    print "⚠️  Ce script nécessite les privilèges root pour supprimer les noyaux." ;;;
    print "Exécutez avec: sudo python3 kernel_cleaner.py" ;;;
    raise (SystemExit 1)
  else
    try_except (main_body args)
      (fun e =>
         match e with
         | KeyboardInterrupt =>
             print (nl ++ nl ++ "Interruption par l'utilisateur.") ;;;
             raise (SystemExit 1)
         | _ =>
             if is_Exception e
             then print ("Erreur: " ++ str_exn e) ;;; raise (SystemExit 1)
             else raise e
         end).

(** Events that change the system: the purge of packages and the
    regeneration of the boot loader's configuration. *)
Definition is_purge (cmd : list string) : bool :=
  match cmd with
  | a :: b :: c :: _ =>
      (a =? "sudo")%string && (b =? "apt-get")%string
      && (c =? "remove")%string
  | _ => false
  end.

Definition is_update_grub (cmd : list string) : bool :=
  match cmd with
  | [a; b] => (a =? "sudo")%string && (b =? "update-grub")%string
  | _ => false
  end.

Definition mutating (ev : event) : bool :=
  match ev with
  | EvRun cmd => is_purge cmd || is_update_grub cmd
  | _ => false
  end.

(** The commands a trace runs, in order. *)
Fixpoint commands_run (t : list event) : list (list string) :=
  match t with
  | [] => []
  | EvRun cmd :: t' => cmd :: commands_run t'
  | _ :: t' => commands_run t'
  end.

(** The lines a trace prints, in order. *)
Fixpoint lines_printed (t : list event) : list string :=
  match t with
  | [] => []
  | EvPrint line :: t' => line :: lines_printed t'
  | _ :: t' => lines_printed t'
  end.

(** ** Notions used to state the properties *)

(** A non-empty string of decimal digits. *)
Definition digit_string (s : string) : Prop :=
  s <> EmptyString /\ PyStr.all_digits s = true.

(** The text [major.minor.patch-revision]. *)
Definition version_text (major minor patch revision : string) : string :=
  major ++ "." ++ minor ++ "." ++ patch ++ "-" ++ revision.

(** The number a string of digits denotes in base ten, whatever its
    length. *)
Fixpoint decimal (acc : N) (s : string) : N :=
  match s with
  | EmptyString => acc
  | String c s' => decimal (acc * 10 + (N_of_ascii c - 48)) s'
  end.

Definition number (s : string) : N := decimal 0 s.

(** A string short enough for [int]: at most 4300 characters. *)
Definition int_accepts (s : string) : Prop :=
  (N.of_nat (String.length s) <= 4300)%N.

(** The order on versions that [parse_kernel_version] induces as a sort
    key. *)
Definition version_ltb (v1 v2 : string) : bool :=
  match parse_kernel_version v1, parse_kernel_version v2 with
  | Ok k1, Ok k2 => PyStr.tuple_ltb k1 k2
  | _, _ => false
  end.

(** Numeric precedence of (major, minor, patch, revision). *)
Definition precedes (a b : N * N * N * N) : Prop :=
  let '(a1, a2, a3, a4) := a in
  let '(b1, b2, b3, b4) := b in
  (a1 < b1 \/
   (a1 = b1 /\ (a2 < b2 \/
   (a2 = b2 /\ (a3 < b3 \/
   (a3 = b3 /\ a4 < b4))))))%N.

(** [v] is the text major.minor.patch-revision of the four numbers
    [t]. *)
Definition is_version (v : string) (t : N * N * N * N) : Prop :=
  exists s1 s2 s3 s4,
    digit_string s1 /\ digit_string s2 /\ digit_string s3 /\ digit_string s4
    /\ v = version_text s1 s2 s3 s4
    /\ t = (number s1, number s2, number s3, number s4).

(** [v] is a version and [int] accepts each of its four fields. *)
Definition fields_accepted (v : string) : Prop :=
  exists s1 s2 s3 s4,
    digit_string s1 /\ digit_string s2 /\ digit_string s3 /\ digit_string s4
    /\ v = version_text s1 s2 s3 s4
    /\ int_accepts s1 /\ int_accepts s2 /\ int_accepts s3 /\ int_accepts s4.

(** The version [a] is numerically [b] or before it. *)
Definition not_after (a b : string) : Prop :=
  exists ta tb, is_version a ta /\ is_version b tb /\ (precedes ta tb \/ ta = tb).

(** [k] is installed and is not the running kernel [current]. *)
Definition other_kernel (current : string) (installed : list string)
  (k : string) : Prop :=
  In k installed /\ k <> current.

(** The line the selection logs when a single version is installed
    besides the running kernel. *)
Definition backup_note : string :=
  "[INFO] Seul le noyau actuel et un noyau de sauvegarde sont installés".

(** The four numbers of a version as a sort key. *)
Definition key_of (t : N * N * N * N) : list N :=
  let '(a, b, c, d) := t in [a; b; c; d].

(** The order of a list sorted by key: [a] may come before [b]. *)
Definition key_le {A : Type} (a b : list N * A) : Prop :=
  PyStr.tuple_ltb (fst b) (fst a) = false.

(** A text of the form [major.minor.patch-revision]. *)
Definition well_formed_version (v : string) : Prop :=
  exists s1 s2 s3 s4,
    digit_string s1 /\ digit_string s2 /\ digit_string s3 /\ digit_string s4
    /\ v = version_text s1 s2 s3 s4.

(** [line] is a line of an installed package ([ii]) that mentions
    [linux-image-] and whose second field is [package]. *)
Definition image_line (line package : string) : Prop :=
  PyStr.startswith "ii" line = true
  /\ PyStr.contains "linux-image-" line = true
  /\ nth_error (PyStr.split_ws line) 1 = Some package.

Definition is_print (ev : event) : bool :=
  match ev with
  | EvPrint _ => true
  | _ => false
  end.

(** Every exception but SystemExit. *)
Definition not_exit (e : exn) : bool :=
  match e with
  | SystemExit _ => false
  | _ => true
  end.

(** A computation that never raises SystemExit. *)
Definition no_exit {A : Type} (m : M A) : Prop :=
  forall h n e, result_of (m h n) = Raise e -> not_exit e = true.

(** The line of the error branch of [find_oldest_removable_kernel]. *)
Definition is_sort_error (ev : event) : bool :=
  match ev with
  | EvPrint line => prefix "[ERROR] Erreur lors du tri des versions: " line
  | _ => false
  end.

(** *** A host for the examples

    [dpkg -l] prints [listing], [uname -r] prints [uname], the user
    answers [answer], and every other command succeeds silently. *)
Definition example_env (listing uname answer : string) (uid : Z)
  (flags : Namespace) : env :=
  {| parse_args_reply := Parsed flags;
     geteuid := uid;
     run_reply := fun _ cmd =>
       match cmd with
       | ["uname"; _] => Gives (Completed 0 uname EmptyString)
       | ["dpkg"; _] => Gives (Completed 0 listing EmptyString)
       | _ => Gives (Completed 0 EmptyString EmptyString)
       end;
     input_reply := fun _ _ => Gives answer;
     cpe_text := fun _ _ => "non-zero exit status" |}.

(** The installed set 5.4.0-1, 5.8.0-2, 5.10.0-3. *)
Definition three_kernels : string :=
  "ii  linux-image-5.10.0-3-amd64  5.10.0-3.1  amd64  Linux 5.10" ++ nl ++
  "ii  linux-image-5.4.0-1-amd64   5.4.0-1.1   amd64  Linux 5.4" ++ nl ++
  "ii  linux-headers-5.4.0-1-amd64 5.4.0-1.1   amd64  Headers" ++ nl ++
  "ii  linux-image-5.8.0-2-amd64   5.8.0-2.1   amd64  Linux 5.8" ++ nl ++
  "rc  linux-image-4.19.0-9-amd64  4.19.0-9.1  amd64  Linux 4.19" ++ nl ++
  "ii  linux-image-amd64           5.10.0-3.1  amd64  Linux (meta)" ++ nl.

(** Only the running kernel and one other. *)
Definition two_kernels : string :=
  "ii  linux-image-5.10.0-3-amd64  5.10.0-3.1  amd64  Linux 5.10" ++ nl ++
  "ii  linux-image-5.8.0-2-amd64   5.8.0-2.1   amd64  Linux 5.8" ++ nl.

(** A revision of 4301 digits, one more than [int] accepts. *)
Definition long_revision : string :=
  string_of_list_ascii (List.repeat "1"%char 4301).

(** The installed set 5.4.0-1, 5.8.0-[long_revision], 5.10.0-3. *)
Definition long_listing : string :=
  "ii  linux-image-5.10.0-3-amd64  5.10.0-3.1  amd64  Linux 5.10" ++ nl ++
  "ii  linux-image-5.4.0-1-amd64   5.4.0-1.1   amd64  Linux 5.4" ++ nl ++
  "ii  linux-image-5.8.0-" ++ long_revision
    ++ "-amd64  5.8.0  amd64  Linux 5.8" ++ nl.

(** [str(e)] of the ValueError of [int(long_revision)]. *)
Definition long_revision_error : string :=
  "Exceeds the limit (4300 digits) for integer string conversion: "
  ++ "value has 4301 digits; use sys.set_int_max_str_digits() "
  ++ "to increase the limit".

Definition cleaner_5_10 : KernelCleaner :=
  {| current_kernel := "5.10.0-3"; verbose := false |}.

Definition no_flags : Namespace :=
  {| arg_verbose := false; arg_dry_run := false; arg_status := false |}.

(** A root user who confirms, on a host where [uname -r] prints
    5.4.0-1-amd64: the kernel that runs is the one of the package
    linux-image-5.4.0-1-amd64. *)
Definition flavoured_host : env :=
  example_env three_kernels ("5.4.0-1-amd64" ++ nl) "oui" 0 no_flags.

(** The last line of [show_status] for a candidate. *)
Definition candidate_line (candidate : option string) : string :=
  match candidate with
  | Some k => nl ++ "Plus ancien noyau supprimable: " ++ k
  | None => nl ++ "Aucun noyau supprimable trouvé"
  end.

(** A host whose argument parser rejects the command line. *)
Definition rejected_command_line : env :=
  {| parse_args_reply := UsageError;
     geteuid := 0;
     run_reply := fun _ _ => Gives (Completed 0 EmptyString EmptyString);
     input_reply := fun _ _ => Gives EmptyString;
     cpe_text := fun _ _ => EmptyString |}.

(** A root user who interrupts the program at the confirmation. *)
Definition interrupted_at_confirmation : env :=
  {| parse_args_reply := Parsed no_flags;
     geteuid := 0;
     run_reply := run_reply
                    (example_env three_kernels "5.10.0-3" "" 0 no_flags);
     input_reply := fun _ _ => Faults Interrupt;
     cpe_text := fun _ _ => EmptyString |}.

(** A root user who confirms, and a purge that fails with status 100. *)
Definition purge_fails : env :=
  {| parse_args_reply := Parsed no_flags;
     geteuid := 0;
     run_reply := fun n cmd =>
       if is_purge cmd
       then Gives (Completed 100 EmptyString "E: Could not get lock")
       else run_reply (example_env three_kernels "5.10.0-3" "" 0 no_flags)
              n cmd;
     input_reply := fun _ _ => Gives "oui";
     cpe_text := fun _ _ => EmptyString |}.

(** Code-point order on strings, the order of [sorted] on [str]. *)
Definition string_lt (a b : string) : Prop := String.compare a b = Lt.

(** [rest] is empty or begins with a character that is not a digit. *)
Definition no_digit_ahead (rest : string) : bool :=
  match rest with
  | EmptyString => true
  | String c _ => negb (PyStr.is_digit c)
  end.

(** [v] begins with a text of the form [major.minor.patch-revision]. *)
Definition begins_with_version (v : string) : Prop :=
  exists s1 s2 s3 s4 rest,
    digit_string s1 /\ digit_string s2 /\ digit_string s3 /\ digit_string s4
    /\ v = version_text s1 s2 s3 s4 ++ rest.


(** [str(e)] of the ValueError that [int] raises on a string of
    [digits] characters, more than it accepts. *)
Definition limit_message (digits : nat) : string :=
  "Exceeds the limit (4300 digits) for integer string conversion: value has "
  ++ PyStr.str_of_nat digits
  ++ " digits; use sys.set_int_max_str_digits() to increase the limit".

(** [line] is a line of an installed package ([ii]) that mentions
    [kernel_version] and whose second field [package] names an image, a
    headers or a modules package. *)
Definition kernel_package_line (kernel_version line package : string)
  : Prop :=
  PyStr.startswith "ii" line = true
  /\ PyStr.contains kernel_version line = true
  /\ nth_error (PyStr.split_ws line) 1 = Some package
  /\ (PyStr.contains "linux-image-" package = true
      \/ PyStr.contains "linux-headers-" package = true
      \/ PyStr.contains "linux-modules-" package = true).

(** Revisions 1 and 10 of the same kernel, 10 running. *)
Definition overlapping_kernels : string :=
  "ii  linux-image-5.4.0-1-amd64    5.4.0-1.1   amd64  Linux 5.4" ++ nl ++
  "ii  linux-image-5.4.0-10-amd64   5.4.0-10.1  amd64  Linux 5.4" ++ nl ++
  "ii  linux-headers-5.4.0-10-amd64 5.4.0-10.1  amd64  Headers" ++ nl ++
  "ii  linux-image-5.4.0-9-amd64    5.4.0-9.1   amd64  Linux 5.4" ++ nl.

(** The error line of [remove_kernel], printed whatever the verbosity. *)
Definition removal_error_line (detail : string) : string :=
  "[ERROR] Erreur lors de la suppression: " ++ detail.

(** A root user who confirms; the purge succeeds and the update of the
    boot loader fails with status 1. *)
Definition grub_fails : env :=
  {| parse_args_reply := Parsed no_flags;
     geteuid := 0;
     run_reply := fun n cmd =>
       if is_update_grub cmd
       then Gives (Completed 1 EmptyString EmptyString)
       else run_reply (example_env three_kernels "5.10.0-3" "" 0 no_flags)
              n cmd;
     input_reply := fun _ _ => Gives "oui";
     cpe_text := fun _ _ => "Command returned non-zero exit status 1." |}.

Definition is_prompt (ev : event) : bool :=
  match ev with
  | EvInput _ => true
  | _ => false
  end.

(** A host on which [uname -r] ends with status [status]. *)
Definition uname_fails (status : Z) : env :=
  {| parse_args_reply := Parsed no_flags;
     geteuid := 0;
     run_reply := fun _ _ => Gives (Completed status EmptyString EmptyString);
     input_reply := fun _ _ => Gives EmptyString;
     cpe_text := fun _ _ => EmptyString |}.

(** A host on which [uname -r] succeeds and every other command ends
    with status 2. *)
Definition listing_fails (flags : Namespace) : env :=
  {| parse_args_reply := Parsed flags;
     geteuid := 0;
     run_reply := fun _ cmd =>
       match cmd with
       | ["uname"; _] => Gives (Completed 0 "5.10.0-3" EmptyString)
       | _ => Gives (Completed 2 EmptyString EmptyString)
       end;
     input_reply := fun _ _ => Gives EmptyString;
     cpe_text := fun _ _ => EmptyString |}.

(** A text made of white space only. *)
Fixpoint all_space (s : string) : bool :=
  match s with
  | EmptyString => true
  | String c s' => PyStr.is_space c && all_space s'
  end.

(** Two names of the same version, and the running kernel. *)
Definition tied_kernels : string :=
  "ii  linux-image-5.4.0-1-amd64   5.4.0-1.1   amd64  Linux 5.4" ++ nl ++
  "ii  linux-image-5.04.0-1-amd64  5.04.0-1.1  amd64  Linux 5.4" ++ nl ++
  "ii  linux-image-5.10.0-3-amd64  5.10.0-3.1  amd64  Linux 5.10" ++ nl.

(** The order of the names in a list of (key, name). *)
Definition name_lt (p q : list N * string) : Prop :=
  string_lt (snd p) (snd q).

(** What the last line of [main] is when the confirmation fails. *)
Definition fault_line (f : fault) : string :=
  match f with
  | Interrupt => nl ++ nl ++ "Interruption par l'utilisateur."
  | Failure text => "Erreur: " ++ text
  end.

(** * Properties *)

(** ** Strings *)

Lemma append_nil_r (s : string) : s ++ "" = s.
Proof. induction s; simpl; congruence. Qed.

Lemma append_assoc (a b c : string) : (a ++ b) ++ c = a ++ b ++ c.
Proof. induction a; simpl; congruence. Qed.

Lemma length_append (a b : string) :
  String.length (a ++ b) = String.length a + String.length b.
Proof. induction a; simpl; congruence. Qed.

Lemma substring_append (m rest : string) :
  substring 0 (String.length m) (m ++ rest) = m.
Proof. induction m; simpl; [destruct rest; reflexivity | congruence]. Qed.

Lemma append_cancel_l (a b c : string) : a ++ b = a ++ c -> b = c.
Proof. induction a; simpl; intros H; [assumption | inversion H; auto]. Qed.

Lemma all_digits_append (a b : string) :
  PyStr.all_digits (a ++ b) = PyStr.all_digits a && PyStr.all_digits b.
Proof.
  induction a; simpl; [reflexivity|].
  rewrite IHa. apply andb_assoc.
Qed.

(** ** The matcher agrees with the meaning of patterns *)

Module ReFacts.
Import Re.

Lemma drop_prefix_append (p rest : string) :
  drop_prefix p (p ++ rest) = Some rest.
Proof.
  induction p; simpl; [reflexivity|].
  rewrite Ascii.eqb_refl. assumption.
Qed.

Lemma drop_prefix_inv (p s rest : string) :
  drop_prefix p s = Some rest -> s = p ++ rest.
Proof.
  revert s. induction p as [|a p IH]; simpl; intros s H.
  - congruence.
  - destruct s as [|b s]; [discriminate|].
    destruct (Ascii.eqb_spec a b); [|discriminate].
    subst. f_equal. auto.
Qed.

Lemma digits_plus_inv (s rest : string) :
  In rest (digits_plus s) ->
  exists m, digit_string m /\ s = m ++ rest.
Proof.
  induction s as [|c s IH]; simpl; [tauto|].
  destruct (PyStr.is_digit c) eqn:Hc; [|simpl; tauto].
  rewrite in_app_iff. simpl. intros [H | [H | []]].
  - destruct (IH H) as (m & [_ Hm] & ->).
    exists (String c m). split; [split|]; simpl; try congruence.
    now rewrite Hc.
  - subst. exists (String c ""). split; [split|]; simpl; try congruence.
    now rewrite Hc.
Qed.

Lemma digits_plus_append (m rest : string) :
  digit_string m -> In rest (digits_plus (m ++ rest)).
Proof.
  intros [Hne Hd]. induction m as [|c m IH]; [congruence|].
  simpl in *. apply andb_prop in Hd as [Hc Hd]. rewrite Hc.
  apply in_or_app. destruct m; simpl in *.
  - right. now left.
  - left. apply IH; [discriminate | assumption].
Qed.

Lemma consumed_append (m rest : string) : consumed (m ++ rest) rest = m.
Proof.
  unfold consumed. rewrite length_append.
  replace (String.length m + String.length rest - String.length rest)
    with (String.length m) by lia.
  apply substring_append.
Qed.

Lemma run_sound (r : regex) :
  forall s g rest,
    In (g, rest) (run r s) -> exists m, s = m ++ rest /\ sem r m g.
Proof.
  induction r as [p| |r1 IH1 r2 IH2|r IH]; simpl; intros s g rest H.
  - destruct (drop_prefix p s) eqn:E; simpl in H; [|tauto].
    destruct H as [H|[]]. inversion H; subst.
    exists p. split; [now apply drop_prefix_inv | constructor].
  - apply in_map_iff in H as (x & Hx & Hin). inversion Hx; subst.
    destruct (digits_plus_inv _ _ Hin) as (m & [Hne Hd] & ->).
    exists m. split; [reflexivity | now constructor].
  - apply in_flat_map in H as ([g1 s1] & H1 & H).
    apply in_map_iff in H as ([g2 s2] & Hx & H2). simpl in Hx, H2.
    inversion Hx; subst.
    destruct (IH1 _ _ _ H1) as (m1 & -> & S1).
    destruct (IH2 _ _ _ H2) as (m2 & -> & S2).
    exists (m1 ++ m2). split; [now rewrite append_assoc | now constructor].
  - apply in_map_iff in H as ([g1 s1] & Hx & H1). simpl in Hx.
    inversion Hx; subst.
    destruct (IH _ _ _ H1) as (m & -> & S1).
    exists m. split; [reflexivity|].
    rewrite consumed_append. now constructor.
Qed.

Lemma run_complete (r : regex) (m : string) (g : list string) :
  sem r m g -> forall rest, In (g, rest) (run r (m ++ rest)).
Proof.
  induction 1 as [p|m Hne Hd|r1 r2 m1 m2 g1 g2 _ IH1 _ IH2|r m g _ IH];
    intros rest; simpl.
  - rewrite drop_prefix_append. now left.
  - apply in_map_iff. exists rest. split; [reflexivity|].
    apply digits_plus_append. now split.
  - apply in_flat_map. exists (g1, m2 ++ rest). split.
    + rewrite append_assoc. apply IH1.
    + apply in_map_iff. exists (g2, rest). split; [reflexivity | apply IH2].
  - apply in_map_iff. exists (g, rest). split; [|apply IH].
    simpl. now rewrite consumed_append.
Qed.

(** A match found by [rmatch] is one of those [run] lists. *)
Lemma rmatch_sound (r : regex) (s : string) (g : list string) :
  rmatch r s = Some g -> exists m rest, s = m ++ rest /\ sem r m g.
Proof.
  unfold rmatch. destruct (run r s) as [|[g' rest] l] eqn:E; [discriminate|].
  intros H. inversion H; subst. simpl.
  destruct (run_sound r s g rest) as (m & Hs & Hm).
  - rewrite E. now left.
  - now exists m, rest.
Qed.

Lemma rmatch_complete (r : regex) (m rest : string) (g : list string) :
  sem r m g -> exists g', rmatch r (m ++ rest) = Some g'.
Proof.
  intros H. pose proof (run_complete H rest) as Hin.
  unfold rmatch. destruct (run r (m ++ rest)) as [|x l]; [destruct Hin|].
  now exists (fst x).
Qed.

Lemma search_sound (r : regex) (s : string) (g : list string) :
  search r s = Some g ->
  exists pre m rest, s = pre ++ m ++ rest /\ sem r m g.
Proof.
  induction s as [|c s IH]; simpl.
  - destruct (rmatch r "") eqn:E; [|discriminate].
    intros H. inversion H; subst.
    destruct (rmatch_sound _ _ E) as (m & rest & Hs & Hm).
    now exists "", m, rest.
  - destruct (rmatch r (String c s)) eqn:E.
    + intros H. inversion H; subst.
      destruct (rmatch_sound _ _ E) as (m & rest & Hs & Hm).
      now exists "", m, rest.
    + intros H. destruct (IH H) as (pre & m & rest & -> & Hm).
      now exists (String c pre), m, rest.
Qed.

End ReFacts.

(** ** The two patterns of the program *)

Module VersionFacts.
Import Re ReFacts.

Lemma sem_digits_inv (m : string) (g : list string) :
  sem Digits m g -> digit_string m /\ g = [].
Proof. inversion 1; subst. now repeat split. Qed.

Lemma sem_str_inv (p m : string) (g : list string) :
  sem (Str p) m g -> m = p /\ g = [].
Proof. inversion 1; subst. now split. Qed.

Lemma sem_version_re (s1 s2 s3 s4 : string) :
  digit_string s1 -> digit_string s2 -> digit_string s3 -> digit_string s4 ->
  sem version_re (version_text s1 s2 s3 s4) [s1; s2; s3; s4].
Proof.
  intros [N1 D1] [N2 D2] [N3 D3] [N4 D4]. unfold version_re, version_text.
  change [s1; s2; s3; s4]
    with ([s1] ++ [] ++ [s2] ++ [] ++ [s3] ++ [] ++ [s4])%list.
  repeat (apply sem_cat || apply sem_grp || apply sem_str
          || (apply sem_digits; assumption)).
Qed.

Lemma sem_version_re_inv (m : string) (g : list string) :
  sem version_re m g ->
  exists s1 s2 s3 s4,
    digit_string s1 /\ digit_string s2 /\ digit_string s3 /\ digit_string s4
    /\ m = version_text s1 s2 s3 s4 /\ g = [s1; s2; s3; s4].
Proof.
  unfold version_re. intros H.
  repeat match goal with
         | H : sem (Cat _ _) _ _ |- _ => inversion H; subst; clear H
         | H : sem (Grp _) _ _ |- _ => inversion H; subst; clear H
         | H : sem (Str _) _ _ |- _ =>
             apply sem_str_inv in H; destruct H as [? ?]; subst
         | H : sem Digits _ _ |- _ =>
             apply sem_digits_inv in H; destruct H as [? ?]; subst
         end.
  do 4 eexists.
  split; [|split; [|split; [|split; [|split; reflexivity]]]]; assumption.
Qed.

(** The group of [image_re] is a text that [version_re] matches. *)
Lemma sem_image_re_inv (m : string) (g : list string) :
  sem image_re m g ->
  exists s1 s2 s3 s4,
    digit_string s1 /\ digit_string s2 /\ digit_string s3 /\ digit_string s4
    /\ m = "linux-image-" ++ version_text s1 s2 s3 s4
    /\ g = [version_text s1 s2 s3 s4].
Proof.
  unfold image_re. intros H.
  repeat match goal with
         | H : sem (Cat _ _) _ _ |- _ => inversion H; subst; clear H
         | H : sem (Grp _) _ _ |- _ => inversion H; subst; clear H
         | H : sem (Str _) _ _ |- _ =>
             apply sem_str_inv in H; destruct H as [? ?]; subst
         | H : sem Digits _ _ |- _ =>
             apply sem_digits_inv in H; destruct H as [? ?]; subst
         end.
  do 4 eexists.
  split; [|split; [|split; [|split; [|split; reflexivity]]]]; assumption.
Qed.

Lemma sem_image_re (s1 s2 s3 s4 : string) :
  digit_string s1 -> digit_string s2 -> digit_string s3 -> digit_string s4 ->
  sem image_re ("linux-image-" ++ version_text s1 s2 s3 s4)
    [version_text s1 s2 s3 s4].
Proof.
  intros [N1 D1] [N2 D2] [N3 D3] [N4 D4]. unfold image_re.
  apply (sem_cat (g1 := []) (g2 := [_])); [apply sem_str|].
  apply sem_grp. unfold version_text.
  change (@nil string) with (@nil string ++ [] ++ [] ++ [] ++ [] ++ [] ++ [])%list.
  repeat (apply sem_cat || apply sem_str || (apply sem_digits; assumption)).
Qed.

Lemma int_from_decimal (s : string) :
  PyStr.all_digits s = true ->
  forall acc, PyStr.int_from acc s = Some (decimal acc s).
Proof.
  induction s as [|c s IH]; simpl; intros H acc; [reflexivity|].
  apply andb_prop in H as [Hc Hs]. rewrite Hc. auto.
Qed.

Lemma too_long_accepts (s : string) :
  PyStr.too_long s = false <-> int_accepts s.
Proof. unfold PyStr.too_long, int_accepts, PyStr.max_str_digits. apply N.ltb_ge. Qed.

Lemma too_long_refused (s : string) :
  PyStr.too_long s = true <-> ~ int_accepts s.
Proof.
  unfold PyStr.too_long, int_accepts, PyStr.max_str_digits.
  rewrite N.ltb_lt. lia.
Qed.

(** [int] gives the number of a digit string of at most 4300 digits. *)
Lemma int_digit_string (s : string) :
  digit_string s -> int_accepts s -> PyStr.int s = Some (number s).
Proof.
  intros [Hne Hd] Ha. unfold number.
  destruct s as [|c s]; [congruence|].
  unfold PyStr.int. apply too_long_accepts in Ha. rewrite Ha.
  now apply int_from_decimal.
Qed.

(** [int] refuses a string of more than 4300 characters. *)
Lemma int_too_long (s : string) :
  PyStr.too_long s = true -> PyStr.int s = None.
Proof. intros H. unfold PyStr.int. destruct s; [reflexivity|]. now rewrite H. Qed.

Lemma ints_version (s1 s2 s3 s4 : string) :
  digit_string s1 -> digit_string s2 -> digit_string s3 -> digit_string s4 ->
  int_accepts s1 -> int_accepts s2 -> int_accepts s3 -> int_accepts s4 ->
  ints [s1; s2; s3; s4] = Ok [number s1; number s2; number s3; number s4].
Proof.
  intros H1 H2 H3 H4 A1 A2 A3 A4. simpl.
  now rewrite !int_digit_string by assumption.
Qed.

(** The conversion of captured groups: all four numbers, or the error
    of the first field that is too long. *)
Lemma ints_digit_groups (groups : list string) :
  Forall digit_string groups ->
  (Forall int_accepts groups /\ ints groups = Ok (map number groups))
  \/ (exists g, In g groups /\ PyStr.too_long g = true
                /\ ints groups = Raise (ValueError (PyStr.int_error g))).
Proof.
  induction 1 as [|g groups Hg _ IH]; simpl;
    [left; split; [constructor | reflexivity]|].
  destruct (PyStr.too_long g) eqn:Hl.
  - right. exists g. rewrite (int_too_long _ Hl). auto.
  - apply too_long_accepts in Hl. rewrite (int_digit_string Hg Hl).
    destruct IH as [[Ha ->] | (g' & Hin & Hl' & ->)].
    + left. split; [constructor; assumption | reflexivity].
    + right. exists g'. auto.
Qed.

(** *** The greedy match *)

Lemma hd_digits_plus (m rest : string) :
  digit_string m -> digits_plus rest = [] ->
  hd_error (digits_plus (m ++ rest)) = Some rest.
Proof.
  intros [Hne Hd] Hrest. induction m as [|c m IH]; [congruence|].
  simpl in *. apply andb_prop in Hd as [Hc Hd]. rewrite Hc.
  destruct m as [|c' m].
  - simpl. now rewrite Hrest.
  - specialize (IH ltac:(discriminate) Hd).
    destruct (digits_plus (String c' m ++ rest)); [discriminate|].
    exact IH.
Qed.

Lemma hd_run_str (p rest : string) :
  hd_error (run (Str p) (p ++ rest)) = Some ([], rest).
Proof. simpl. now rewrite drop_prefix_append. Qed.

Lemma hd_run_group_digits (m rest : string) :
  digit_string m -> digits_plus rest = [] ->
  hd_error (run (Grp Digits) (m ++ rest)) = Some ([m], rest).
Proof.
  intros Hm Hrest. simpl. pose proof (@hd_digits_plus m rest Hm Hrest) as H.
  destruct (digits_plus (m ++ rest)); [discriminate|].
  simpl in *. inversion H; subst. now rewrite consumed_append.
Qed.

Lemma hd_run_cat (r1 r2 : regex) (s s1 s2 : string) (g1 g2 : list string) :
  hd_error (run r1 s) = Some (g1, s1) ->
  hd_error (run r2 s1) = Some (g2, s2) ->
  hd_error (run (Cat r1 r2) s) = Some ((g1 ++ g2)%list, s2).
Proof.
  simpl. destruct (run r1 s) as [|x l1]; [discriminate|].
  simpl. intros H1. inversion H1; subst. simpl.
  destruct (run r2 s1) as [|y l2]; [discriminate|].
  simpl. intros H2. now inversion H2; subst.
Qed.

Lemma hd_run_version_re (s1 s2 s3 s4 rest : string) :
  digit_string s1 -> digit_string s2 -> digit_string s3 -> digit_string s4 ->
  digits_plus rest = [] ->
  hd_error (run version_re (version_text s1 s2 s3 s4 ++ rest))
  = Some ([s1; s2; s3; s4], rest).
Proof.
  intros H1 H2 H3 H4 Hrest. unfold version_re, version_text.
  rewrite !append_assoc.
  change [s1; s2; s3; s4]
    with ([s1] ++ [] ++ [s2] ++ [] ++ [s3] ++ [] ++ [s4])%list.
  repeat (eapply hd_run_cat;
          [ first [ apply hd_run_str
                  | apply hd_run_group_digits; [assumption | reflexivity] ]
          | ]).
  now apply hd_run_group_digits.
Qed.

(** The groups of a version are its four fields. *)
Lemma parse_version_groups (s1 s2 s3 s4 : string) :
  digit_string s1 -> digit_string s2 -> digit_string s3 -> digit_string s4 ->
  parse_kernel_version (version_text s1 s2 s3 s4) = ints [s1; s2; s3; s4].
Proof.
  intros H1 H2 H3 H4. unfold parse_kernel_version, rmatch.
  pose proof (@hd_run_version_re s1 s2 s3 s4 "" H1 H2 H3 H4 eq_refl) as H.
  rewrite append_nil_r in H.
  destruct (run version_re (version_text s1 s2 s3 s4)); [discriminate|].
  simpl in H. inversion H; subst. reflexivity.
Qed.

(** A version whose fields [int] accepts is parsed into the numbers of
    its four fields. *)
Lemma parse_version_text (s1 s2 s3 s4 : string) :
  digit_string s1 -> digit_string s2 -> digit_string s3 -> digit_string s4 ->
  int_accepts s1 -> int_accepts s2 -> int_accepts s3 -> int_accepts s4 ->
  parse_kernel_version (version_text s1 s2 s3 s4)
  = Ok [number s1; number s2; number s3; number s4].
Proof.
  intros H1 H2 H3 H4 A1 A2 A3 A4.
  rewrite parse_version_groups by assumption.
  now apply ints_version.
Qed.

(** The key of a version whose fields [int] accepts is the four numbers
    it denotes. *)
Lemma accepted_parse (v : string) :
  fields_accepted v ->
  exists t, is_version v t /\ parse_kernel_version v = Ok (key_of t).
Proof.
  intros (s1 & s2 & s3 & s4 & H1 & H2 & H3 & H4 & -> & A1 & A2 & A3 & A4).
  exists (number s1, number s2, number s3, number s4). split.
  - now exists s1, s2, s3, s4.
  - now apply parse_version_text.
Qed.

Lemma fields_accepted_well_formed (v : string) :
  fields_accepted v -> well_formed_version v.
Proof.
  intros (s1 & s2 & s3 & s4 & H1 & H2 & H3 & H4 & -> & _).
  now exists s1, s2, s3, s4.
Qed.

Lemma precedes_total (a b : N * N * N * N) :
  precedes a b \/ a = b \/ precedes b a.
Proof.
  destruct a as [[[a1 a2] a3] a4], b as [[[b1 b2] b3] b4]. unfold precedes.
  destruct (N.lt_trichotomy a1 b1) as [?|[->|?]]; [tauto| |tauto].
  destruct (N.lt_trichotomy a2 b2) as [?|[->|?]]; [tauto| |tauto].
  destruct (N.lt_trichotomy a3 b3) as [?|[->|?]]; [tauto| |tauto].
  destruct (N.lt_trichotomy a4 b4) as [?|[->|?]]; tauto.
Qed.

Lemma tuple_ltb_precedes (a1 a2 a3 a4 b1 b2 b3 b4 : N) :
  PyStr.tuple_ltb [a1; a2; a3; a4] [b1; b2; b3; b4] = true
  <-> precedes (a1, a2, a3, a4) (b1, b2, b3, b4).
Proof.
  unfold precedes. simpl.
  repeat match goal with
         | |- context [(?x <? ?y)%N] => destruct (N.ltb_spec x y)
         end;
    split; intros; try discriminate; try reflexivity; lia.
Qed.

(** A key that is not smaller belongs to a version that is not
    earlier. *)
Lemma key_not_less (ta tb : N * N * N * N) :
  PyStr.tuple_ltb (key_of ta) (key_of tb) = false ->
  precedes tb ta \/ tb = ta.
Proof.
  intros H. destruct (precedes_total ta tb) as [Hp | [-> | Hp]]; auto.
  destruct ta as [[[a1 a2] a3] a4], tb as [[[b1 b2] b3] b4].
  apply tuple_ltb_precedes in Hp. simpl key_of in H. congruence.
Qed.

(** From the order of keys to the order of the versions they are
    keys of. *)
Lemma key_order_not_after (a b : string) (ka kb : list N) :
  fields_accepted a -> fields_accepted b ->
  parse_kernel_version a = Ok ka -> parse_kernel_version b = Ok kb ->
  PyStr.tuple_ltb ka kb = false ->
  not_after b a.
Proof.
  intros Ha Hb Ka Kb Hlt.
  destruct (accepted_parse Ha) as (ta & Va & Pa).
  destruct (accepted_parse Hb) as (tb & Vb & Pb).
  rewrite Pa in Ka. rewrite Pb in Kb. inversion Ka; inversion Kb; subst.
  exists tb, ta. split; [assumption|]. split; [assumption|].
  now apply key_not_less.
Qed.

(** The version pattern matches a version, capturing its fields. *)
Lemma rmatch_version_text (s1 s2 s3 s4 : string) :
  digit_string s1 -> digit_string s2 -> digit_string s3 -> digit_string s4 ->
  rmatch version_re (version_text s1 s2 s3 s4) = Some [s1; s2; s3; s4].
Proof.
  intros H1 H2 H3 H4. unfold rmatch.
  pose proof (@hd_run_version_re s1 s2 s3 s4 "" H1 H2 H3 H4 eq_refl) as H.
  rewrite append_nil_r in H.
  destruct (run version_re (version_text s1 s2 s3 s4)); [discriminate|].
  simpl in H. inversion H; subst. reflexivity.
Qed.

(** The numbers of a version are those of its key. *)
Lemma is_version_key (v : string) (t : N * N * N * N) :
  fields_accepted v -> is_version v t ->
  parse_kernel_version v = Ok (key_of t).
Proof.
  intros (s1 & s2 & s3 & s4 & H1 & H2 & H3 & H4 & -> & A1 & A2 & A3 & A4)
         (u1 & u2 & u3 & u4 & U1 & U2 & U3 & U4 & E & ->).
  pose proof (rmatch_version_text H1 H2 H3 H4) as Hs.
  pose proof (rmatch_version_text U1 U2 U3 U4) as Hu.
  assert (Hg : Some [s1; s2; s3; s4] = Some [u1; u2; u3; u4])
    by congruence.
  inversion Hg; subst. now apply parse_version_text.
Qed.

End VersionFacts.

(** ** Discovery of the installed kernels *)

Module DiscoveryFacts.
Import Re ReFacts VersionFacts.

Lemma In_insert_str (v x : string) (l : list string) :
  In v (PySort.insert_str x l) <-> v = x \/ In v l.
Proof.
  induction l as [|y l IH]; simpl; [intuition congruence|].
  destruct (String.compare x y) eqn:E; simpl.
  - apply String.compare_eq_iff in E. subst. intuition congruence.
  - intuition congruence.
  - rewrite IH. intuition congruence.
Qed.

Lemma In_sorted_set (v : string) (l : list string) :
  In v (PySort.sorted_set l) <-> In v l.
Proof.
  induction l as [|x l IH]; simpl; [tauto|].
  rewrite In_insert_str, IH. intuition congruence.
Qed.

Lemma In_collect_kernels (v : string) (lines kernels : list string) :
  In v (collect_kernels kernels lines)
  <-> In v kernels \/ exists line, In line lines /\ kernel_of_line line = Some v.
Proof.
  revert kernels. induction lines as [|line lines IH]; simpl; intros kernels.
  - split; [tauto | intros [H | (l & [] & _)]; exact H].
  - destruct (kernel_of_line line) as [k|] eqn:E; rewrite IH.
    + rewrite in_app_iff. simpl. split.
      * intros [[H | [H | []]] | (l & Hl & Hk)]; eauto.
        subst. right. eauto.
      * intros [H | (l & [Hl | Hl] & Hk)]; eauto.
        subst. rewrite E in Hk. inversion Hk; subst. auto.
    + split.
      * intros [H | (l & Hl & Hk)]; eauto.
      * intros [H | (l & [Hl | Hl] & Hk)]; eauto.
        subst. congruence.
Qed.

Lemma nth_error_nth_default (l : list string) (i : nat) :
  (i < List.length l)%nat -> nth_error l i = Some (nth i l EmptyString).
Proof.
  revert i. induction l as [|x l IH]; simpl; intros i H; [lia|].
  destruct i; simpl; [reflexivity | apply IH; lia].
Qed.

(** What a line must look like to contribute a version. *)
Lemma kernel_of_line_inv (line v : string) :
  kernel_of_line line = Some v ->
  exists package pre post,
    image_line line package
    /\ well_formed_version v
    /\ package = pre ++ "linux-image-" ++ v ++ post.
Proof.
  unfold kernel_of_line.
  destruct (PyStr.contains "linux-image-" line) eqn:Hc; [|discriminate].
  destruct (PyStr.startswith "ii" line) eqn:Hs; [|discriminate].
  simpl andb. cbv iota.
  destruct (2 <=? List.length (PyStr.split_ws line))%nat eqn:Hl;
    [|discriminate].
  apply Nat.leb_le in Hl.
  destruct (search image_re (nth 1 (PyStr.split_ws line) "")) as [g|] eqn:Hg;
    [|discriminate].
  intros H. inversion H; subst; clear H.
  apply search_sound in Hg as (pre & m & post & Hp & Hm).
  apply sem_image_re_inv in Hm
    as (s1 & s2 & s3 & s4 & H1 & H2 & H3 & H4 & -> & ->).
  exists (nth 1 (PyStr.split_ws line) ""), pre, post. simpl nth.
  split; [|split].
  - repeat split; try assumption. apply nth_error_nth_default. lia.
  - now exists s1, s2, s3, s4.
  - rewrite Hp. now rewrite !append_assoc.
Qed.

Lemma installed_kernels_inv (out v : string) :
  In v (installed_kernels_of out) ->
  exists line package pre post,
    In line (PyStr.split_on "010" out)
    /\ image_line line package
    /\ well_formed_version v
    /\ package = pre ++ "linux-image-" ++ v ++ post.
Proof.
  unfold installed_kernels_of. rewrite In_sorted_set, In_collect_kernels.
  intros [[] | (line & Hl & Hk)].
  apply kernel_of_line_inv in Hk as (package & pre & post & H1 & H2 & H3).
  now exists line, package, pre, post.
Qed.

Lemma installed_kernels_well_formed (out v : string) :
  In v (installed_kernels_of out) -> well_formed_version v.
Proof.
  intros H. apply installed_kernels_inv in H
    as (line & package & pre & post & _ & _ & Hv & _).
  exact Hv.
Qed.

End DiscoveryFacts.

(** ** Sorting *)

Module SortFacts.
Import PySort.

Lemma tuple_ltb_irrefl (a : list N) : PyStr.tuple_ltb a a = false.
Proof. induction a; simpl; [reflexivity|]. now rewrite N.ltb_irrefl. Qed.

Lemma tuple_ltb_trans (a : list N) :
  forall b c,
    PyStr.tuple_ltb a b = true -> PyStr.tuple_ltb b c = true ->
    PyStr.tuple_ltb a c = true.
Proof.
  induction a as [|x a IH]; intros [|y b] [|z c]; simpl; try congruence.
  destruct (N.ltb_spec x y), (N.ltb_spec y x), (N.ltb_spec y z),
    (N.ltb_spec z y), (N.ltb_spec x z), (N.ltb_spec z x);
    try congruence; try lia.
  apply IH.
Qed.

Lemma tuple_ltb_total (a : list N) :
  forall b,
    PyStr.tuple_ltb a b = false -> PyStr.tuple_ltb b a = false -> a = b.
Proof.
  induction a as [|x a IH]; intros [|y b]; simpl; try congruence.
  destruct (N.ltb_spec x y), (N.ltb_spec y x); try congruence; try lia.
  intros H1 H2. f_equal; [lia | now apply IH].
Qed.

Lemma tuple_ltb_asym (a b : list N) :
  PyStr.tuple_ltb a b = true -> PyStr.tuple_ltb b a = false.
Proof.
  intros H. destruct (PyStr.tuple_ltb b a) eqn:E; [|reflexivity].
  pose proof (tuple_ltb_trans _ _ _ H E) as T.
  now rewrite tuple_ltb_irrefl in T.
Qed.

Section ByKey.
Variable A : Type.
Implicit Types (x y z : list N * A) (l : list (list N * A)).

Lemma key_le_refl x : key_le x x.
Proof. apply tuple_ltb_irrefl. Qed.

Lemma key_le_trans x y z : key_le x y -> key_le y z -> key_le x z.
Proof.
  unfold key_le. intros Hxy Hyz.
  destruct (PyStr.tuple_ltb (fst z) (fst x)) eqn:E; [|reflexivity].
  destruct (PyStr.tuple_ltb (fst x) (fst y)) eqn:F.
  - rewrite (tuple_ltb_trans _ _ _ E F) in Hyz. discriminate.
  - rewrite (tuple_ltb_total _ _ F Hxy) in E. congruence.
Qed.

Lemma insert_key_perm x l : Permutation (insert_key x l) (x :: l).
Proof.
  induction l as [|y l IH]; simpl; [reflexivity|].
  destruct (PyStr.tuple_ltb (fst y) (fst x)); [|reflexivity].
  rewrite IH. apply perm_swap.
Qed.

Lemma stable_sort_perm l : Permutation (stable_sort l) l.
Proof.
  induction l as [|x l IH]; simpl; [reflexivity|].
  now rewrite insert_key_perm, IH.
Qed.

Lemma insert_key_sorted x l :
  StronglySorted key_le l -> StronglySorted key_le (insert_key x l).
Proof.
  induction 1 as [|y l Hs IH Hy]; simpl.
  - constructor; constructor.
  - destruct (PyStr.tuple_ltb (fst y) (fst x)) eqn:E.
    + constructor; [assumption|].
      apply Forall_forall. intros z Hz.
      apply (Permutation_in _ (insert_key_perm x l)) in Hz.
      destruct Hz as [<- | Hz].
      * now apply tuple_ltb_asym.
      * rewrite Forall_forall in Hy. auto.
    + constructor; [now constructor|].
      constructor; [exact E|].
      eapply Forall_impl; [|exact Hy].
      intros z Hz. now apply key_le_trans with y.
Qed.

Lemma stable_sort_sorted l : StronglySorted key_le (stable_sort l).
Proof.
  induction l as [|x l IH]; simpl; [constructor|].
  now apply insert_key_sorted.
Qed.

Lemma with_keys_spec (key : A -> res (list N)) (l : list A) kl :
  with_keys key l = Ok kl ->
  map snd kl = l /\ Forall (fun p => key (snd p) = Ok (fst p)) kl.
Proof.
  revert kl. induction l as [|a l IH]; simpl; intros kl H.
  - inversion H; subst. split; constructor.
  - destruct (key a) as [k|] eqn:Ek; [|discriminate].
    destruct (with_keys key l) as [kl'|]; [|discriminate].
    inversion H; subst. destruct (IH _ eq_refl) as [Hm Hf].
    simpl. split; [congruence | now constructor].
Qed.

Lemma with_keys_total (key : A -> res (list N)) (l : list A) :
  (forall a, In a l -> exists k, key a = Ok k) ->
  exists kl, with_keys key l = Ok kl.
Proof.
  induction l as [|a l IH]; simpl; intros H; [eauto|].
  destruct (H a (or_introl eq_refl)) as [k ->].
  destruct IH as [kl ->]; eauto.
Qed.

Lemma sort_by_perm (key : A -> res (list N)) (l sorted : list A) :
  sort_by key l = Ok sorted -> Permutation sorted l.
Proof.
  unfold sort_by. destruct (with_keys key l) as [kl|] eqn:E; [|discriminate].
  intros H. inversion H; subst.
  destruct (with_keys_spec _ _ E) as [<- _].
  apply Permutation_map, stable_sort_perm.
Qed.

(** The first element of a sorted list has the least key. *)
Lemma sort_by_least (key : A -> res (list N)) (l sorted : list A) (d : A) :
  sort_by key l = Ok sorted -> l <> [] ->
  In (nth 0 sorted d) l /\
  forall a, In a l ->
    exists k ka,
      key (nth 0 sorted d) = Ok k /\ key a = Ok ka
      /\ PyStr.tuple_ltb ka k = false.
Proof.
  unfold sort_by. destruct (with_keys key l) as [kl|] eqn:E; [|discriminate].
  intros H Hne. inversion H; subst; clear H.
  destruct (with_keys_spec _ _ E) as [Hm Hf].
  pose proof (stable_sort_perm kl) as Hp.
  pose proof (stable_sort_sorted kl) as Hs.
  assert (Hf' : Forall (fun p => key (snd p) = Ok (fst p)) (stable_sort kl)).
  { apply Forall_forall. intros p Hin. rewrite Forall_forall in Hf.
    apply Hf. now apply (Permutation_in _ Hp). }
  destruct (stable_sort kl) as [|p sl].
  - apply Permutation_nil in Hp. subst. simpl in Hne. congruence.
  - simpl. split.
    + rewrite <- Hm. apply in_map. apply (Permutation_in _ Hp). now left.
    + intros a Ha. rewrite <- Hm in Ha. apply in_map_iff in Ha as (q & <- & Hq).
      apply (Permutation_in _ (Permutation_sym Hp)) in Hq.
      inversion Hf' as [|? ? Hkp Hrest]; subst.
      exists (fst p), (fst q). split; [assumption|].
      rewrite Forall_forall in Hf'. split; [now apply Hf'|].
      destruct Hq as [<- | Hq]; [apply tuple_ltb_irrefl|].
      inversion Hs as [|? ? _ Hall]; subst.
      rewrite Forall_forall in Hall. now apply Hall.
Qed.

Lemma strongly_sorted_snoc (R : list N * A -> list N * A -> Prop) l x :
  StronglySorted R l -> Forall (fun y => R y x) l ->
  StronglySorted R (l ++ [x]).
Proof.
  induction 1 as [|y l Hs IH Hy]; simpl; intros Hx.
  - constructor; constructor.
  - inversion Hx; subst. constructor; [now apply IH|].
    apply Forall_app. split; [assumption | now constructor].
Qed.

Lemma strongly_sorted_rev (R : list N * A -> list N * A -> Prop) l :
  StronglySorted R l -> StronglySorted (fun a b => R b a) (rev l).
Proof.
  induction 1 as [|y l Hs IH Hy]; simpl; [constructor|].
  apply strongly_sorted_snoc; [assumption|].
  apply Forall_forall. intros z Hz. apply in_rev in Hz.
  rewrite Forall_forall in Hy. auto.
Qed.

Lemma with_keys_sorted_map (key : A -> res (list N)) l :
  StronglySorted (fun p q => PyStr.tuple_ltb (fst p) (fst q) = false) l ->
  Forall (fun p => key (snd p) = Ok (fst p)) l ->
  StronglySorted
    (fun a b => exists ka kb,
         key a = Ok ka /\ key b = Ok kb /\ PyStr.tuple_ltb ka kb = false)
    (map snd l).
Proof.
  induction 1 as [|p l Hs IH Hp]; simpl; intros Hk; [constructor|].
  inversion Hk as [|? ? Hkp Hkl]; subst.
  constructor; [now apply IH|].
  apply Forall_forall. intros b Hb. apply in_map_iff in Hb as (q & <- & Hq).
  rewrite Forall_forall in Hp, Hkl.
  exists (fst p), (fst q). auto.
Qed.

(** A sort with [reverse=True] puts the greatest keys first. *)
Lemma sort_by_reverse_spec (key : A -> res (list N)) (l : list A) :
  (forall a, In a l -> exists k, key a = Ok k) ->
  exists sorted,
    sort_by_reverse key l = Ok sorted
    /\ Permutation sorted l
    /\ StronglySorted
         (fun a b => exists ka kb,
              key a = Ok ka /\ key b = Ok kb /\ PyStr.tuple_ltb ka kb = false)
         sorted.
Proof.
  intros Hall. destruct (with_keys_total key l Hall) as [kl Hkl].
  unfold sort_by_reverse. rewrite Hkl. eexists. split; [reflexivity|].
  destruct (with_keys_spec _ _ Hkl) as [Hm Hf].
  assert (Hp : Permutation (rev (stable_sort (rev kl))) kl).
  { rewrite <- Permutation_rev, stable_sort_perm. apply Permutation_sym.
    apply Permutation_rev. }
  split.
  - rewrite <- Hm. now apply Permutation_map.
  - apply with_keys_sorted_map.
    + apply (strongly_sorted_rev (R := @key_le A)).
      apply stable_sort_sorted.
    + apply Forall_forall. intros p Hin. rewrite Forall_forall in Hf.
      apply Hf. now apply (Permutation_in _ Hp).
Qed.

End ByKey.

End SortFacts.

(** ** Selection of the oldest removable kernel *)

Module SelectionFacts.
Import DiscoveryFacts SortFacts.

Lemma get_installed_kernels_ok (h : env) (n : nat) (out err : string) :
  run_reply h n ["dpkg"; "-l"] = Gives (Completed 0 out err) ->
  get_installed_kernels h n
  = (Ok (installed_kernels_of out), [EvRun ["dpkg"; "-l"]], S n).
Proof.
  intros H. unfold get_installed_kernels, try_except, bind, subprocess_run.
  rewrite H. reflexivity.
Qed.

(** Discovery makes one call, and what it returns is read from a
    listing. *)
Lemma get_installed_kernels_run (h : env) (n : nat) :
  exists r,
    get_installed_kernels h n = (r, [EvRun ["dpkg"; "-l"]], S n)
    /\ forall ks, r = Ok ks -> exists out, ks = installed_kernels_of out.
Proof.
  unfold get_installed_kernels, try_except, bind, subprocess_run.
  destruct (run_reply h n ["dpkg"; "-l"]) as [p|f].
  - destruct (returncode p =? 0)%Z; simpl.
    + eexists. split; [reflexivity|]. intros ks H. inversion H. eauto.
    + eexists. split; [reflexivity|]. discriminate.
  - destruct f; simpl; eexists; (split; [reflexivity | discriminate]).
Qed.

Lemma removable_kernels_spec (self : KernelCleaner) (installed : list string)
  (k : string) :
  In k (removable_kernels self installed)
  <-> In k installed /\ k <> current_kernel self.
Proof.
  unfold removable_kernels. rewrite filter_In, negb_true_iff.
  now rewrite String.eqb_neq.
Qed.

Lemma ints_raises_value_error (groups : list string) (e : exn) :
  ints groups = Raise e -> exists msg, e = ValueError msg.
Proof.
  induction groups as [|g groups IH]; simpl; [discriminate|].
  destruct (PyStr.int g); [|intros H; inversion H; eauto].
  destruct (ints groups); [discriminate|].
  intros H. inversion H; subst. now apply IH.
Qed.

Lemma parse_raises_value_error (version : string) (e : exn) :
  parse_kernel_version version = Raise e -> exists msg, e = ValueError msg.
Proof.
  unfold parse_kernel_version.
  destruct (Re.rmatch version_re version).
  - apply ints_raises_value_error.
  - intros H. inversion H. eauto.
Qed.

Lemma with_keys_raises_value_error (l : list string) (e : exn) :
  PySort.with_keys parse_kernel_version l = Raise e ->
  exists msg, e = ValueError msg.
Proof.
  induction l as [|x l IH]; simpl; [discriminate|].
  destruct (parse_kernel_version x) eqn:E.
  - destruct (PySort.with_keys parse_kernel_version l); [discriminate|].
    intros H. inversion H; subst. now apply IH.
  - intros H. inversion H; subst. now apply parse_raises_value_error in E.
Qed.

Lemma sort_by_raises_value_error (l : list string) (e : exn) :
  PySort.sort_by parse_kernel_version l = Raise e ->
  exists msg, e = ValueError msg.
Proof.
  unfold PySort.sort_by.
  destruct (PySort.with_keys parse_kernel_version l) eqn:E; [discriminate|].
  intros H. inversion H; subst. now apply with_keys_raises_value_error in E.
Qed.

(** Versions whose fields [int] accepts all have a key, so that their
    sort succeeds. *)
Lemma accepted_sort (l : list string) :
  (forall k, In k l -> fields_accepted k) ->
  exists sorted, PySort.sort_by parse_kernel_version l = Ok sorted.
Proof.
  intros Hacc.
  destruct (@with_keys_total _ parse_kernel_version l) as [kl Hkl].
  - intros k Hk. destruct (VersionFacts.accepted_parse (Hacc k Hk))
      as (t & _ & ->). eauto.
  - unfold PySort.sort_by. rewrite Hkl. eauto.
Qed.

Lemma two_distinct_length (A : Type) (l : list A) (a b : A) :
  a <> b -> In a l -> In b l -> (2 <= List.length l)%nat.
Proof.
  intros Hne Ha Hb. destruct l as [|x [|y l]]; simpl in *; try lia.
  destruct Ha as [<-|[]], Hb as [<-|[]]. congruence.
Qed.

Lemma two_others_length (self : KernelCleaner) (installed : list string) :
  (exists k1 k2, k1 <> k2
     /\ other_kernel (current_kernel self) installed k1
     /\ other_kernel (current_kernel self) installed k2) ->
  (2 <= List.length (removable_kernels self installed))%nat.
Proof.
  intros (k1 & k2 & Hne & H1 & H2).
  apply (@two_distinct_length _ _ k1 k2 Hne);
    now apply removable_kernels_spec.
Qed.

(** The first of the sorted candidates is one of them, and none of
    them comes numerically before it. *)
Lemma sorted_first_is_oldest (self : KernelCleaner) (installed : list string)
  (sorted : list string) :
  (forall k, other_kernel (current_kernel self) installed k ->
             fields_accepted k) ->
  (2 <= List.length (removable_kernels self installed))%nat ->
  PySort.sort_by parse_kernel_version (removable_kernels self installed)
  = Ok sorted ->
  other_kernel (current_kernel self) installed (nth 0 sorted EmptyString)
  /\ forall k', other_kernel (current_kernel self) installed k' ->
                not_after (nth 0 sorted EmptyString) k'.
Proof.
  intros Hacc Hlen Hs.
  destruct (@sort_by_least _ _ _ _ "" Hs) as [Hin Hleast].
  { intros E. rewrite E in Hlen. simpl in Hlen. lia. }
  apply removable_kernels_spec in Hin. split; [exact Hin|].
  intros k' Hk'.
  destruct (Hleast k' (proj2 (removable_kernels_spec _ _ _) Hk'))
    as (key & key' & H1 & H2 & H3).
  apply (@VersionFacts.key_order_not_after k' (nth 0 sorted "") key' key);
    auto.
Qed.

(** The ways the selection ends once the listing is read. *)
Lemma find_oldest_of_listing (self : KernelCleaner) (h : env) (n : nat)
  (out err : string) :
  run_reply h n ["dpkg"; "-l"] = Gives (Completed 0 out err) ->
  let removable := removable_kernels self (installed_kernels_of out) in
  exists r t,
    find_oldest_removable_kernel self h n
    = (Ok r, (EvRun ["dpkg"; "-l"] :: t)%list, S n)
    /\ forallb is_print t = true
    /\ ((forall k, In k removable -> fields_accepted k) ->
        t = if verbose self && (List.length removable =? 1)%nat
            then [EvPrint backup_note] else [])
    /\ ((List.length removable < 2)%nat -> r = None)
    /\ ((forall k, In k removable -> fields_accepted k) ->
        (2 <= List.length removable)%nat ->
        exists sorted,
          PySort.sort_by parse_kernel_version removable = Ok sorted
          /\ r = Some (nth 0 sorted EmptyString))
    /\ (forall k, r = Some k ->
         (2 <= List.length removable)%nat
         /\ exists sorted,
              PySort.sort_by parse_kernel_version removable = Ok sorted
              /\ k = nth 0 sorted EmptyString).
Proof.
  intros H removable.
  unfold find_oldest_removable_kernel, bind.
  rewrite (get_installed_kernels_ok _ _ H). fold removable.
  destruct removable as [|k1 [|k2 l]] eqn:E.
  - simpl. exists None, [].
    repeat split; simpl; try reflexivity; try lia; try discriminate.
    now rewrite andb_false_r.
  - simpl. unfold log. destruct (verbose self); simpl;
      eexists None, _; (split; [reflexivity|]);
      repeat split; simpl; try reflexivity; try lia; discriminate.
  - cbv zeta. change (List.length (k1 :: k2 :: l) <=? 1)%nat with false.
    cbv iota.
    destruct (PySort.sort_by parse_kernel_version (k1 :: k2 :: l))
      as [sorted|e] eqn:Hs.
    + simpl. exists (Some (nth 0 sorted "")), [].
      split; [reflexivity|]. split; [reflexivity|].
      split; [intros _; now rewrite andb_false_r|].
      split; [lia|]. split; [intros _ _; eauto|].
      intros k Hk. inversion Hk; subst. split; [lia | eauto].
    + destruct (sort_by_raises_value_error _ Hs) as [msg ->].
      unfold log. rewrite orb_true_r. simpl.
      eexists None, _. split; [reflexivity|].
      split; [reflexivity|].
      assert (Hno : ~ (forall k, In k (k1 :: k2 :: l) -> fields_accepted k)).
      { intros Hacc. destruct (accepted_sort _ Hacc) as [sorted Hs'].
        congruence. }
      split; [tauto|]. split; [lia|]. split; [tauto | discriminate].
Qed.

(** Whatever the host answers, the selection runs the listing once and
    otherwise only prints. *)
Lemma find_oldest_events (self : KernelCleaner) (h : env) (n : nat) :
  exists r t,
    find_oldest_removable_kernel self h n
    = (r, (EvRun ["dpkg"; "-l"] :: t)%list, S n)
    /\ forallb is_print t = true.
Proof.
  unfold find_oldest_removable_kernel, bind.
  destruct (get_installed_kernels_run h n) as (r & -> & Hr).
  destruct r as [ks|e]; [|now exists (Raise e), []].
  destruct (Hr ks eq_refl) as [out ->].
  destruct (removable_kernels self (installed_kernels_of out))
    as [|k1 [|k2 l]] eqn:E.
  - now exists (Ok None), [].
  - simpl. unfold log. destruct (verbose self); simpl;
      eexists (Ok None), _; (split; [reflexivity|]); reflexivity.
  - cbv zeta.
    change (List.length (k1 :: k2 :: l) <=? 1)%nat with false.
    cbv iota.
    destruct (PySort.sort_by parse_kernel_version (k1 :: k2 :: l))
      as [sorted|e] eqn:Hs.
    + now exists (Ok (Some (nth 0 sorted ""))), [].
    + destruct (sort_by_raises_value_error _ Hs) as [msg ->].
      unfold log. rewrite orb_true_r. simpl.
      eexists (Ok None), _. split; reflexivity.
Qed.

End SelectionFacts.

(** ** The events of the program *)

Module EffectFacts.

Lemma prints_run_nothing (t : list event) :
  forallb is_print t = true ->
  commands_run t = [] /\ existsb mutating t = false.
Proof.
  induction t as [|ev t IH]; simpl; [auto|].
  destruct ev; simpl; try discriminate. exact IH.
Qed.

Lemma commands_run_app (t1 t2 : list event) :
  commands_run (t1 ++ t2) = (commands_run t1 ++ commands_run t2)%list.
Proof.
  induction t1 as [|ev t1 IH]; simpl; [reflexivity|].
  destruct ev; simpl; now rewrite IH.
Qed.

Lemma lines_printed_app (t1 t2 : list event) :
  lines_printed (t1 ++ t2) = (lines_printed t1 ++ lines_printed t2)%list.
Proof.
  induction t1 as [|ev t1 IH]; simpl; [reflexivity|].
  destruct ev; simpl; now rewrite IH.
Qed.

Lemma log_run (self : KernelCleaner) (message level : string) (h : env)
  (n : nat) :
  exists t, log self message level h n = (Ok tt, t, n)
            /\ forallb is_print t = true.
Proof.
  unfold log. destruct (verbose self || (level =? "ERROR")%string).
  - now exists [EvPrint ("[" ++ level ++ "] " ++ message)].
  - now exists [].
Qed.

Lemma for_each_print (A : Type) (f : A -> string) (l : list A) (h : env)
  (n : nat) :
  for_each l (fun x => print (f x)) h n
  = (Ok tt, map (fun x => EvPrint (f x)) l, n).
Proof.
  induction l as [|x l IH]; simpl; [reflexivity|].
  unfold bind. simpl. now rewrite IH.
Qed.

Lemma forallb_is_print_map (A : Type) (f : A -> string) (l : list A) :
  forallb is_print (map (fun x => EvPrint (f x)) l) = true.
Proof. induction l; simpl; auto. Qed.

Lemma get_kernel_packages_ok (kernel_version : string) (h : env) (n : nat)
  (out err : string) :
  run_reply h n ["dpkg"; "-l"] = Gives (Completed 0 out err) ->
  get_kernel_packages kernel_version h n
  = (Ok (kernel_packages_of kernel_version out), [EvRun ["dpkg"; "-l"]], S n).
Proof.
  intros H. unfold get_kernel_packages, try_except, bind, subprocess_run.
  rewrite H. reflexivity.
Qed.

(** The confirmation prints, asks once, and returns whether the answer
    is affirmative. *)
Lemma confirm_removal_answer (self : KernelCleaner) (kernel_version : string)
  (packages : list string) (h : env) (n : nat) (answer : string) :
  input_reply h n confirm_prompt = Gives answer ->
  exists t,
    confirm_removal self kernel_version packages h n
    = (Ok (affirmative answer), (t ++ [EvInput confirm_prompt])%list, S n)
    /\ forallb is_print t = true.
Proof.
  intros H. unfold confirm_removal, bind. simpl.
  rewrite for_each_print. unfold input, ret. rewrite H.
  eexists (_ :: _ :: _ :: _ :: map _ packages). split.
  - rewrite app_nil_r. reflexivity.
  - simpl. apply forallb_is_print_map.
Qed.

(** A dry run reads the listing, prints, and stops. *)
Lemma remove_kernel_dry_run (self : KernelCleaner) (kernel_version : string)
  (h : env) (n : nat) (out err : string) :
  run_reply h n ["dpkg"; "-l"] = Gives (Completed 0 out err) ->
  exists t,
    remove_kernel self kernel_version true h n
    = (Ok (match kernel_packages_of kernel_version out with
           | [] => false
           | _ => true
           end),
       (EvRun ["dpkg"; "-l"] :: t)%list, S n)
    /\ forallb is_print t = true.
Proof.
  intros H. unfold remove_kernel, bind.
  rewrite (get_kernel_packages_ok _ _ _ H).
  destruct (kernel_packages_of kernel_version out) as [|p ps];
    unfold log; destruct (verbose self); simpl;
    eexists; (split; [reflexivity | reflexivity]).
Qed.

(** A removal that is not confirmed reads the listing, prints, asks,
    and stops. *)
Lemma remove_kernel_declined (self : KernelCleaner) (kernel_version : string)
  (h : env) (n : nat) (out err answer : string) :
  run_reply h n ["dpkg"; "-l"] = Gives (Completed 0 out err) ->
  kernel_packages_of kernel_version out <> [] ->
  input_reply h (S n) confirm_prompt = Gives answer ->
  affirmative answer = false ->
  exists t,
    remove_kernel self kernel_version false h n
    = (Ok false,
       (EvRun ["dpkg"; "-l"] :: t ++ [EvInput confirm_prompt])%list,
       S (S n))
    /\ forallb is_print t = true.
Proof.
  intros H Hne Hin Hno. unfold remove_kernel, bind.
  rewrite (get_kernel_packages_ok _ _ _ H).
  destruct (kernel_packages_of kernel_version out) as [|p ps];
    [congruence|].
  destruct (log_run self ("Packages à supprimer: "
                          ++ PyStr.join ", " (p :: ps)) "INFO" h (S n))
    as (t0 & -> & Ht0).
  unfold try_except, bind.
  destruct (confirm_removal_answer self kernel_version (p :: ps) _ _ Hin)
    as (t1 & -> & Ht1).
  rewrite Hno. simpl.
  exists (t0 ++ t1)%list. split.
  - now rewrite app_nil_r, <- app_assoc.
  - rewrite forallb_app, Ht0, Ht1. reflexivity.
Qed.

Lemma get_kernel_packages_run (kernel_version : string) (h : env) (n : nat) :
  exists r,
    get_kernel_packages kernel_version h n = (r, [EvRun ["dpkg"; "-l"]], S n).
Proof.
  unfold get_kernel_packages, try_except, bind, subprocess_run.
  destruct (run_reply h n ["dpkg"; "-l"]) as [p|f].
  - destruct (returncode p =? 0)%Z; simpl; eexists; reflexivity.
  - destruct f; simpl; eexists; reflexivity.
Qed.

(** Whatever the host answers, a dry run runs the listing once and
    otherwise only prints. *)
Lemma remove_kernel_dry_events (self : KernelCleaner)
  (kernel_version : string) (h : env) (n : nat) :
  exists r t,
    remove_kernel self kernel_version true h n
    = (r, (EvRun ["dpkg"; "-l"] :: t)%list, S n)
    /\ forallb is_print t = true.
Proof.
  unfold remove_kernel, bind.
  destruct (get_kernel_packages_run kernel_version h n) as (r & ->).
  destruct r as [[|p ps]|e]; [| |now exists (Raise e), []];
    unfold log; destruct (verbose self); simpl;
    eexists _, _; (split; [reflexivity | reflexivity]).
Qed.

End EffectFacts.

(** ** No part of the program but [main] ends the process *)

Module ExitFacts.

Lemma no_exit_ret (A : Type) (a : A) : no_exit (ret a).
Proof. intros h n e. discriminate. Qed.

Lemma no_exit_raise (A : Type) (e : exn) :
  not_exit e = true -> no_exit (@raise A e).
Proof. intros He h n e' H. inversion H; subst. exact He. Qed.

Lemma no_exit_print (line : string) : no_exit (print line).
Proof. intros h n e. discriminate. Qed.

Lemma no_exit_input (prompt : string) : no_exit (input prompt).
Proof.
  intros h n e. unfold input, result_of.
  destruct (input_reply h n prompt) as [s|[|t]]; simpl; intros H;
    inversion H; reflexivity.
Qed.

Lemma no_exit_subprocess_run (cmd : list string) (check : bool) :
  no_exit (subprocess_run cmd check).
Proof.
  intros h n e. unfold subprocess_run, result_of.
  destruct (run_reply h n cmd) as [p|[|t]]; simpl.
  - destruct (check && negb (returncode p =? 0)%Z); simpl; intros H;
      inversion H; reflexivity.
  - intros H; inversion H; reflexivity.
  - intros H; inversion H; reflexivity.
Qed.

Lemma no_exit_bind (A B : Type) (m : M A) (f : A -> M B) :
  no_exit m -> (forall a, no_exit (f a)) -> no_exit (bind m f).
Proof.
  intros Hm Hf h n e. unfold bind, result_of.
  destruct (m h n) as [[r t1] n1] eqn:E. destruct r as [a|e1].
  - destruct (f a h n1) as [[r2 t2] n2] eqn:F. simpl. intros ->.
    apply (Hf a h n1). now rewrite F.
  - simpl. intros H. inversion H; subst.
    apply (Hm h n). now rewrite E.
Qed.

Lemma no_exit_try_except (A : Type) (m : M A) (handler : exn -> M A) :
  no_exit m ->
  (forall e, not_exit e = true -> no_exit (handler e)) ->
  no_exit (try_except m handler).
Proof.
  intros Hm Hh h n e. unfold try_except, result_of.
  destruct (m h n) as [[r t1] n1] eqn:E. destruct r as [a|e1].
  - discriminate.
  - assert (He1 : not_exit e1 = true) by (apply (Hm h n); now rewrite E).
    destruct (handler e1 h n1) as [[r2 t2] n2] eqn:F. simpl. intros ->.
    apply (Hh e1 He1 h n1). now rewrite F.
Qed.

Lemma no_exit_for_each (A : Type) (l : list A) (body : A -> M unit) :
  (forall a, no_exit (body a)) -> no_exit (for_each l body).
Proof.
  intros H. induction l as [|x l IH]; simpl.
  - apply no_exit_ret.
  - apply no_exit_bind; auto.
Qed.

Lemma no_exit_log (self : KernelCleaner) (message level : string) :
  no_exit (log self message level).
Proof.
  unfold log. destruct (verbose self || (level =? "ERROR")%string).
  - apply no_exit_print.
  - apply no_exit_ret.
Qed.

Ltac no_exit_step :=
  match goal with
  | |- no_exit (bind _ _) => apply no_exit_bind; [|intros]
  | |- no_exit (ret _) => apply no_exit_ret
  | |- no_exit (print _) => apply no_exit_print
  | |- no_exit (log _ _ _) => apply no_exit_log
  | |- no_exit (input _) => apply no_exit_input
  | |- no_exit (subprocess_run _ _) => apply no_exit_subprocess_run
  | |- no_exit (for_each _ _) => apply no_exit_for_each; intros
  | |- no_exit (raise _) => apply no_exit_raise; (assumption || reflexivity)
  | |- no_exit (if ?b then _ else _) => destruct b
  end.

(** The handlers that turn a failed command into a RuntimeError. *)
Lemma no_exit_as_runtime_error (A : Type) (m : M A) (msg : string) :
  no_exit m ->
  no_exit (try_except m
             (fun e =>
                match e with
                | CalledProcessError _ => raise (RuntimeError msg)
                | _ => raise e
                end)).
Proof.
  intros Hm. apply no_exit_try_except; [assumption|].
  intros e He. destruct e; try discriminate; now apply no_exit_raise.
Qed.

Lemma no_exit_get_current_kernel : no_exit get_current_kernel.
Proof.
  apply no_exit_as_runtime_error. repeat no_exit_step.
Qed.

Lemma no_exit_get_installed_kernels : no_exit get_installed_kernels.
Proof.
  apply no_exit_as_runtime_error. repeat no_exit_step.
Qed.

Lemma no_exit_get_kernel_packages (kernel_version : string) :
  no_exit (get_kernel_packages kernel_version).
Proof.
  apply no_exit_as_runtime_error. repeat no_exit_step.
Qed.

Lemma ints_raises (groups : list string) (e : exn) :
  ints groups = Raise e -> not_exit e = true.
Proof.
  induction groups as [|g groups IH]; simpl; [discriminate|].
  destruct (PyStr.int g); [|intros H; inversion H; reflexivity].
  destruct (ints groups); [discriminate|].
  intros H. inversion H; subst. now apply IH.
Qed.

Lemma parse_kernel_version_raises (version : string) (e : exn) :
  parse_kernel_version version = Raise e -> not_exit e = true.
Proof.
  unfold parse_kernel_version.
  destruct (Re.rmatch version_re version).
  - apply ints_raises.
  - intros H. inversion H. reflexivity.
Qed.

Lemma with_keys_raises (l : list string) (e : exn) :
  PySort.with_keys parse_kernel_version l = Raise e -> not_exit e = true.
Proof.
  induction l as [|x l IH]; simpl; [discriminate|].
  destruct (parse_kernel_version x) eqn:E.
  - destruct (PySort.with_keys parse_kernel_version l); [discriminate|].
    intros H. inversion H; subst. now apply IH.
  - intros H. inversion H; subst. now apply parse_kernel_version_raises in E.
Qed.

Lemma no_exit_find_oldest (self : KernelCleaner) :
  no_exit (find_oldest_removable_kernel self).
Proof.
  unfold find_oldest_removable_kernel.
  apply no_exit_bind; [apply no_exit_get_installed_kernels|].
  intros ks. cbv zeta.
  destruct (removable_kernels self ks) as [|k l]; [apply no_exit_ret|].
  destruct (List.length (k :: l) <=? 1)%nat; [repeat no_exit_step|].
  unfold PySort.sort_by.
  destruct (PySort.with_keys parse_kernel_version (k :: l)) eqn:E.
  - apply no_exit_ret.
  - apply with_keys_raises in E.
    destruct e; try discriminate; repeat no_exit_step.
Qed.

Lemma no_exit_confirm_removal (self : KernelCleaner) (kernel_version : string)
  (packages : list string) :
  no_exit (confirm_removal self kernel_version packages).
Proof. unfold confirm_removal. repeat no_exit_step. Qed.

Lemma no_exit_remove_kernel (self : KernelCleaner) (kernel_version : string)
  (dry_run : bool) :
  no_exit (remove_kernel self kernel_version dry_run).
Proof.
  unfold remove_kernel.
  apply no_exit_bind; [apply no_exit_get_kernel_packages|].
  intros [|p ps]; [repeat no_exit_step|].
  apply no_exit_bind; [apply no_exit_log|]. intros _.
  destruct dry_run; [repeat no_exit_step|].
  apply no_exit_try_except.
  - apply no_exit_bind; [apply no_exit_confirm_removal|].
    intros confirmed. repeat no_exit_step.
  - intros e He. destruct e; try discriminate; repeat no_exit_step.
Qed.

Lemma no_exit_show_status (self : KernelCleaner) : no_exit (show_status self).
Proof.
  unfold show_status. do 2 (apply no_exit_bind; [apply no_exit_print|intros _]).
  apply no_exit_bind; [apply no_exit_get_installed_kernels|]. intros ks.
  unfold PySort.sort_by_reverse.
  destruct (PySort.with_keys parse_kernel_version ks) eqn:E.
  - apply no_exit_bind; [repeat no_exit_step|]. intros _.
    apply no_exit_bind; [apply no_exit_find_oldest|]. intros oldest.
    repeat no_exit_step.
  - apply with_keys_raises in E. now apply no_exit_raise.
Qed.

Lemma no_exit_run (self : KernelCleaner) (dry_run show : bool) :
  no_exit (run self dry_run show).
Proof.
  unfold run. do 2 (apply no_exit_bind; [apply no_exit_log|intros _]).
  destruct show; [apply no_exit_show_status|].
  apply no_exit_bind; [apply no_exit_find_oldest|]. intros oldest.
  destruct (negb (truthy oldest)); [apply no_exit_print|].
  cbv zeta. apply no_exit_bind; [apply no_exit_print|]. intros _.
  apply no_exit_bind; [apply no_exit_remove_kernel|]. intros removed.
  repeat no_exit_step.
Qed.

Lemma no_exit_main_body (args : Namespace) : no_exit (main_body args).
Proof.
  unfold main_body, KernelCleaner_init.
  apply no_exit_bind.
  - apply no_exit_bind; [apply no_exit_get_current_kernel|].
    intros k. apply no_exit_ret.
  - intros cleaner. apply no_exit_run.
Qed.

(** The exit status of [main] once the command line is parsed. *)
Lemma main_parsed (h : env) (args : Namespace) :
  parse_args_reply h = Parsed args ->
  exit_status (result_of (main h 0))
  = if lacks_privileges args (geteuid h) then 1%Z
    else match result_of (main_body args h 0) with
         | Ok _ => 0%Z
         | Raise _ => 1%Z
         end.
Proof.
  intros H. unfold main, bind, parse_args, os_geteuid. rewrite H.
  destruct (lacks_privileges args (geteuid h)); [reflexivity|].
  unfold try_except. pose proof (@no_exit_main_body args h 0) as Hne.
  destruct (main_body args h 0) as [[r t] n1]. unfold result_of in *.
  simpl in *. destruct r as [[]|e]; [reflexivity|].
  specialize (Hne e eq_refl).
  destruct e; try discriminate; reflexivity.
Qed.

End ExitFacts.

(** ** The status report *)

Module StatusFacts.
Import DiscoveryFacts SortFacts SelectionFacts EffectFacts.

Lemma well_formed_truthy (k : string) :
  well_formed_version k -> truthy (Some k) = true.
Proof.
  intros (s1 & s2 & s3 & s4 & [H1 _] & _ & _ & _ & ->).
  destruct s1; [congruence | reflexivity].
Qed.

(** A candidate read from a listing is a version, so it is reported. *)
Lemma candidate_truthy (self : KernelCleaner) (out : string)
  (sorted : list string) :
  PySort.sort_by parse_kernel_version
    (removable_kernels self (installed_kernels_of out)) = Ok sorted ->
  (2 <= List.length (removable_kernels self (installed_kernels_of out)))%nat ->
  truthy (Some (nth 0 sorted EmptyString)) = true.
Proof.
  intros Hs Hlen.
  destruct (@sort_by_least _ _ _ _ "" Hs) as [Hin _].
  { intros E. rewrite E in Hlen. simpl in Hlen. lia. }
  apply removable_kernels_spec in Hin as [Hin _].
  apply installed_kernels_inv in Hin as (_ & _ & _ & _ & _ & _ & Hw & _).
  now apply well_formed_truthy.
Qed.

Lemma show_status_run (self : KernelCleaner) (h : env) (n : nat)
  (out1 err1 out2 err2 : string) :
  run_reply h n ["dpkg"; "-l"] = Gives (Completed 0 out1 err1) ->
  run_reply h (S n) ["dpkg"; "-l"] = Gives (Completed 0 out2 err2) ->
  (forall k, In k (installed_kernels_of out1) -> fields_accepted k) ->
  exists newest_first candidate t,
    PySort.sort_by_reverse parse_kernel_version (installed_kernels_of out1)
    = Ok newest_first
    /\ find_oldest_removable_kernel self h (S n)
       = (Ok candidate, (EvRun ["dpkg"; "-l"] :: t)%list, S (S n))
    /\ forallb is_print t = true
    /\ show_status self h n
       = (Ok tt,
          ([EvPrint ("Noyau actuel: " ++ current_kernel self);
            EvPrint "Noyaux installés:";
            EvRun ["dpkg"; "-l"]]
           ++ map (fun k => EvPrint (status_line self k)) newest_first
           ++ (EvRun ["dpkg"; "-l"] :: t)
           ++ [EvPrint (candidate_line candidate)])%list,
          S (S n)).
Proof.
  intros H1 H2 Hacc.
  destruct (@sort_by_reverse_spec _ parse_kernel_version
              (installed_kernels_of out1)) as (newest & Hnew & _ & _).
  { intros k Hk. destruct (VersionFacts.accepted_parse (Hacc k Hk))
      as (t & _ & ->). eauto. }
  destruct (find_oldest_of_listing self _ _ H2)
    as (r & t & Hrun & Hprints & _ & _ & _ & Hsome).
  exists newest, r, t. repeat (split; [assumption|]).
  unfold show_status, bind. simpl.
  rewrite (get_installed_kernels_ok _ _ H1), Hnew, for_each_print, Hrun.
  assert (Ht : truthy r = match r with Some _ => true | None => false end).
  { destruct r as [k|]; [|reflexivity].
    destruct (Hsome k eq_refl) as (Hl & sorted & Hs & ->).
    now apply candidate_truthy with self out2. }
  rewrite Ht. destruct r as [k|]; simpl; rewrite ?app_nil_r; reflexivity.
Qed.

(** Whatever the host answers, the status report runs nothing but the
    listing. *)
Lemma show_status_events (self : KernelCleaner) (h : env) (n : nat) :
  Forall (eq ["dpkg"; "-l"]) (commands_run (events_of (show_status self h n)))
  /\ existsb mutating (events_of (show_status self h n)) = false.
Proof.
  unfold show_status, bind. simpl.
  destruct (get_installed_kernels_run h n) as (r & -> & Hr).
  destruct r as [ks|e]; [|simpl; auto].
  destruct (Hr ks eq_refl) as [out ->].
  destruct (PySort.sort_by_reverse parse_kernel_version
              (installed_kernels_of out)) as [newest|e];
    [|unfold events_of; simpl; auto].
  rewrite for_each_print.
  destruct (find_oldest_events self h (S n)) as (r & t & -> & Ht).
  destruct (prints_run_nothing _ Ht) as [Hc Hm].
  assert (Hmap : forall l,
             commands_run (map (fun k => EvPrint (status_line self k)) l) = []
             /\ existsb mutating
                  (map (fun k => EvPrint (status_line self k)) l) = false).
  { induction l; simpl; auto. }
  destruct (Hmap newest) as [Hc' Hm'].
  destruct r as [candidate|e]; unfold events_of; simpl.
  - destruct (truthy candidate); simpl;
      rewrite !commands_run_app, !existsb_app, Hc', Hm'; simpl;
      rewrite ?commands_run_app, ?existsb_app, Hc, Hm; simpl; auto.
  - rewrite !commands_run_app, !existsb_app, Hc', Hm'. simpl.
    rewrite Hc, Hm. auto.
Qed.

End StatusFacts.

(** Whatever the host answers, a selected kernel is a removable one. *)
Lemma find_oldest_selects_removable (self : KernelCleaner) (h : env) (n : nat)
  (k : string) :
  result_of (find_oldest_removable_kernel self h n) = Ok (Some k) ->
  exists installed, In k (removable_kernels self installed).
Proof.
  unfold find_oldest_removable_kernel, bind.
  destruct (SelectionFacts.get_installed_kernels_run h n) as (r & -> & Hr).
  destruct r as [ks|e]; [|discriminate].
  exists ks. revert H.
  destruct (removable_kernels self ks) as [|k1 [|k2 l]] eqn:E.
  - discriminate.
  - simpl. unfold log. destruct (verbose self); discriminate.
  - cbv zeta. change (List.length (k1 :: k2 :: l) <=? 1)%nat with false.
    cbv iota.
    destruct (PySort.sort_by parse_kernel_version (k1 :: k2 :: l))
      as [sorted|e] eqn:Hs.
    + simpl. unfold result_of. simpl. intros H. inversion H; subst.
      apply (@SortFacts.sort_by_least _ _ _ _ "" Hs). discriminate.
    + destruct e; unfold log, result_of; destruct (verbose self); simpl;
        discriminate.
Qed.

(** * The properties of the specification *)

(** Tactics for the examples: a version given by its four fields. *)
Ltac digits := split; [discriminate | reflexivity].
Ltac accepted := unfold int_accepts; vm_compute; discriminate.
Ltac accept_fields s1 s2 s3 s4 :=
  exists s1, s2, s3, s4;
  split; [digits|]; split; [digits|]; split; [digits|]; split; [digits|];
  split; [reflexivity|];
  split; [accepted|]; split; [accepted|]; split; [accepted | accepted].

(** C1, as the program has it: when at least two versions are left
    besides the running kernel, and [int] accepts the fields of each
    (at most 4300 digits), [find_oldest_removable_kernel] returns one
    of them that none of them precedes in the order of the numbers
    (major, minor, patch, revision). *)
Theorem oldest_removable_is_minimum (self : KernelCleaner) (h : env) (n : nat)
  (out err : string) :
  run_reply h n ["dpkg"; "-l"] = Gives (Completed 0 out err) ->
  (exists k1 k2,
      k1 <> k2
      /\ other_kernel (current_kernel self) (installed_kernels_of out) k1
      /\ other_kernel (current_kernel self) (installed_kernels_of out) k2) ->
  (forall k, other_kernel (current_kernel self) (installed_kernels_of out) k ->
             fields_accepted k) ->
  exists k,
    result_of (find_oldest_removable_kernel self h n) = Ok (Some k)
    /\ other_kernel (current_kernel self) (installed_kernels_of out) k
    /\ forall k',
         other_kernel (current_kernel self) (installed_kernels_of out) k' ->
         not_after k k'.
Proof.
  intros H Htwo Hacc.
  pose proof (@SelectionFacts.two_others_length self _ Htwo) as Hlen.
  destruct (SelectionFacts.find_oldest_of_listing self _ _ H)
    as (r & t & Hrun & _ & _ & _ & Hsel & _).
  destruct Hsel as (sorted & Hs & ->); [|exact Hlen|].
  { intros k Hk. apply Hacc.
    now apply SelectionFacts.removable_kernels_spec. }
  exists (nth 0 sorted ""). rewrite Hrun. split; [reflexivity|].
  now apply SelectionFacts.sorted_first_is_oldest.
Qed.

(** With 5.4.0-1, 5.8.0-2 and 5.10.0-3 installed and 5.10.0-3 running,
    the kernel selected is 5.4.0-1, and it is not after 5.8.0-2. *)
Lemma oldest_removable_is_minimum_witness :
  result_of (find_oldest_removable_kernel cleaner_5_10
               (example_env three_kernels "5.10.0-3" "non" 0 no_flags) 0)
  = Ok (Some "5.4.0-1")
  /\ not_after "5.4.0-1" "5.8.0-2".
Proof.
  destruct (@oldest_removable_is_minimum cleaner_5_10
              (example_env three_kernels "5.10.0-3" "non" 0 no_flags) 0
              three_kernels "" eq_refl) as (k & Hk & _ & Hmin).
  - exists "5.4.0-1", "5.8.0-2". split; [discriminate|].
    split; (split; [vm_compute; tauto | discriminate]).
  - intros k [Hin Hne]. vm_compute in Hin.
    destruct Hin as [<- | [<- | [<- | []]]].
    + accept_fields "5" "10" "0" "3".
    + accept_fields "5" "4" "0" "1".
    + accept_fields "5" "8" "0" "2".
  - assert (E : result_of (find_oldest_removable_kernel cleaner_5_10
                   (example_env three_kernels "5.10.0-3" "non" 0 no_flags) 0)
                = Ok (Some "5.4.0-1")) by (vm_compute; reflexivity).
    rewrite E in Hk. injection Hk as <-. split; [reflexivity|].
    apply Hmin. split; [vm_compute; tauto | discriminate].
Defined.

(** With 5.4.0-1 and 5.8.0-[long_revision] installed besides the
    running 5.10.0-3, two versions are left, the conversion of the
    revision of 4301 digits raises ValueError in the sort, and the
    result is None. *)
Lemma long_field_selects_nothing :
  installed_kernels_of long_listing
  = ["5.10.0-3"; "5.4.0-1"; "5.8.0-" ++ long_revision]
  /\ current_kernel cleaner_5_10 = "5.10.0-3"
  /\ parse_kernel_version ("5.8.0-" ++ long_revision)
     = Raise (ValueError long_revision_error)
  /\ result_of (find_oldest_removable_kernel cleaner_5_10
                  (example_env long_listing "5.10.0-3" "non" 0 no_flags) 0)
     = Ok None.
Proof. repeat split; vm_compute; reflexivity. Qed.

(** What the filter of [find_oldest_removable_kernel] guarantees: the
    candidates, and so the version selected, differ as strings from
    [current_kernel]. *)
Lemma current_kernel_string_never_selected (self : KernelCleaner)
  (installed : list string) (h : env) (n : nat) :
  ~ In (current_kernel self) (removable_kernels self installed)
  /\ result_of (find_oldest_removable_kernel self h n)
     <> Ok (Some (current_kernel self)).
Proof.
  split.
  - rewrite SelectionFacts.removable_kernels_spec. tauto.
  - intros H. apply find_oldest_selects_removable in H as [ks H].
    apply SelectionFacts.removable_kernels_spec in H. tauto.
Qed.

(** C2 fails on a release name with a flavour: with 5.4.0-1-amd64
    running, [current_kernel] is the string 5.4.0-1-amd64, which
    equals no discovered version, so the filter sets nothing aside;
    the version selected is 5.4.0-1, the running kernel, and the
    program purges its image. *)
Theorem flavoured_release_purges_running_kernel :
  result_of (KernelCleaner_init flavoured_host 0)
  = Ok {| current_kernel := "5.4.0-1-amd64"; verbose := false |}
  /\ removable_kernels
       {| current_kernel := "5.4.0-1-amd64"; verbose := false |}
       (installed_kernels_of three_kernels)
     = ["5.10.0-3"; "5.4.0-1"; "5.8.0-2"]
  /\ result_of
       (find_oldest_removable_kernel
          {| current_kernel := "5.4.0-1-amd64"; verbose := false |}
          flavoured_host 1)
     = Ok (Some "5.4.0-1")
  /\ commands_run (events_of (main flavoured_host 0))
     = [["uname"; "-r"]; ["dpkg"; "-l"]; ["dpkg"; "-l"];
        ["sudo"; "apt-get"; "remove"; "--purge"; "-y";
         "linux-image-5.4.0-1-amd64"; "linux-headers-5.4.0-1-amd64"];
        ["sudo"; "update-grub"]]
  /\ exit_status (result_of (main flavoured_host 0)) = 0%Z.
Proof. repeat split; vm_compute; reflexivity. Qed.

(** C3: when fewer than two versions remain once the running kernel is
    set aside, [find_oldest_removable_kernel] returns None. *)
Theorem no_candidate_without_spare (self : KernelCleaner) (h : env) (n : nat)
  (out err : string) :
  run_reply h n ["dpkg"; "-l"] = Gives (Completed 0 out err) ->
  (List.length (removable_kernels self (installed_kernels_of out)) < 2)%nat ->
  result_of (find_oldest_removable_kernel self h n) = Ok None.
Proof.
  intros H Hlen.
  destruct (SelectionFacts.find_oldest_of_listing self _ _ H)
    as (r & t & Hrun & _ & _ & Hnone & _).
  rewrite Hrun, (Hnone Hlen). reflexivity.
Qed.

(** Only the running kernel and one other kernel are installed. *)
Lemma no_candidate_without_spare_witness :
  removable_kernels cleaner_5_10 (installed_kernels_of two_kernels)
  = ["5.8.0-2"]
  /\ result_of (find_oldest_removable_kernel cleaner_5_10
                  (example_env two_kernels "5.10.0-3" "non" 0 no_flags) 0)
     = Ok None.
Proof.
  split; [vm_compute; reflexivity|].
  apply (@no_candidate_without_spare cleaner_5_10
           (example_env two_kernels "5.10.0-3" "non" 0 no_flags) 0
           two_kernels "" eq_refl).
  vm_compute. lia.
Defined.

(** C4, as the program has it: two versions of the form
    major.minor.patch-revision whose fields [int] accepts (at most 4300
    digits each) have as keys the numbers of their fields, and are
    ordered by these numbers, major first, then minor, patch and
    revision. *)
Theorem version_order_is_numeric (s1 s2 s3 s4 t1 t2 t3 t4 : string) :
  digit_string s1 -> digit_string s2 -> digit_string s3 -> digit_string s4 ->
  digit_string t1 -> digit_string t2 -> digit_string t3 -> digit_string t4 ->
  int_accepts s1 -> int_accepts s2 -> int_accepts s3 -> int_accepts s4 ->
  int_accepts t1 -> int_accepts t2 -> int_accepts t3 -> int_accepts t4 ->
  parse_kernel_version (version_text s1 s2 s3 s4)
  = Ok [number s1; number s2; number s3; number s4]
  /\ parse_kernel_version (version_text t1 t2 t3 t4)
     = Ok [number t1; number t2; number t3; number t4]
  /\ (version_ltb (version_text s1 s2 s3 s4) (version_text t1 t2 t3 t4) = true
      <-> precedes (number s1, number s2, number s3, number s4)
                   (number t1, number t2, number t3, number t4)).
Proof.
  intros S1 S2 S3 S4 T1 T2 T3 T4 A1 A2 A3 A4 B1 B2 B3 B4.
  unfold version_ltb.
  rewrite !VersionFacts.parse_version_text by assumption.
  split; [reflexivity|]. split; [reflexivity|].
  apply VersionFacts.tuple_ltb_precedes.
Qed.

(** "5.9.0-1" comes before "5.10.0-1", although it is the larger
    string. *)
Lemma version_order_is_numeric_witness :
  version_ltb "5.9.0-1" "5.10.0-1" = true
  /\ ("5.10.0-1" <? "5.9.0-1")%string = true.
Proof.
  split; [|reflexivity].
  apply (@version_order_is_numeric "5" "9" "0" "1" "5" "10" "0" "1");
    try digits; try accepted.
  vm_compute. right. split; [reflexivity|]. left. reflexivity.
Defined.

(** 5.9.0-1 precedes 5.10.0-[long_revision] by its numbers, yet
    [parse_kernel_version] raises ValueError on the second, whose
    revision has 4301 digits, and the two are not compared. *)
Lemma long_field_is_not_ordered :
  digit_string long_revision
  /\ (number "9" < number "10")%N
  /\ parse_kernel_version (version_text "5" "10" "0" long_revision)
     = Raise (ValueError long_revision_error)
  /\ version_ltb (version_text "5" "9" "0" "1")
       (version_text "5" "10" "0" long_revision) = false.
Proof.
  split; [split; [discriminate | vm_compute; reflexivity]|].
  repeat split; vm_compute; reflexivity.
Qed.

(** C8: [get_installed_kernels] does not raise on any listing, and a
    version is in its result only if it has the form
    major.minor.patch-revision and follows [linux-image-] in the name of
    the package of an installed [linux-image-] line; every other entry
    is passed over. *)
Theorem installed_kernels_match_pattern (h : env) (n : nat) (out err : string) :
  run_reply h n ["dpkg"; "-l"] = Gives (Completed 0 out err) ->
  exists ks,
    result_of (get_installed_kernels h n) = Ok ks
    /\ forall v, In v ks ->
         exists line package pre post,
           In line (PyStr.split_on "010" out)
           /\ image_line line package
           /\ well_formed_version v
           /\ package = pre ++ "linux-image-" ++ v ++ post.
Proof.
  intros H. exists (installed_kernels_of out).
  rewrite (SelectionFacts.get_installed_kernels_ok _ _ H).
  split; [reflexivity|].
  intros v Hv. now apply DiscoveryFacts.installed_kernels_inv.
Qed.

(** The removed package (rc) and the package without a version are not
    listed. *)
Lemma installed_kernels_match_pattern_witness :
  result_of (get_installed_kernels
               (example_env three_kernels "5.10.0-3" "non" 0 no_flags) 0)
  = Ok ["5.10.0-3"; "5.4.0-1"; "5.8.0-2"]
  /\ exists line package pre post,
       In line (PyStr.split_on "010" three_kernels)
       /\ image_line line package
       /\ well_formed_version "5.8.0-2"
       /\ package = pre ++ "linux-image-" ++ "5.8.0-2" ++ post.
Proof.
  destruct (@installed_kernels_match_pattern
              (example_env three_kernels "5.10.0-3" "non" 0 no_flags) 0
              three_kernels "" eq_refl) as (ks & Hks & Hall).
  assert (E : result_of (get_installed_kernels
                (example_env three_kernels "5.10.0-3" "non" 0 no_flags) 0)
              = Ok ["5.10.0-3"; "5.4.0-1"; "5.8.0-2"])
    by (vm_compute; reflexivity).
  split; [exact E|].
  rewrite E in Hks. injection Hks as <-.
  apply Hall. simpl. tauto.
Defined.

(** C10, as the program has it: the version pattern of
    [parse_kernel_version] matches every version that discovery
    produces, capturing four fields of digits; when [int] accepts the
    fields of the versions left besides the running kernel (at most
    4300 digits each), each of them has its four numbers as key, the
    sort of the candidates succeeds and [find_oldest_removable_kernel]
    does not print the line of its error branch. *)
Theorem discovered_versions_always_sort (self : KernelCleaner) (h : env)
  (n : nat) (out err : string) :
  run_reply h n ["dpkg"; "-l"] = Gives (Completed 0 out err) ->
  (forall v, In v (installed_kernels_of out) ->
     exists s1 s2 s3 s4,
       digit_string s1 /\ digit_string s2 /\ digit_string s3
       /\ digit_string s4
       /\ Re.rmatch version_re v = Some [s1; s2; s3; s4])
  /\ ((forall v,
         other_kernel (current_kernel self) (installed_kernels_of out) v ->
         fields_accepted v) ->
      (forall v,
         other_kernel (current_kernel self) (installed_kernels_of out) v ->
         exists t, is_version v t /\ parse_kernel_version v = Ok (key_of t))
      /\ (exists sorted,
            PySort.sort_by parse_kernel_version
              (removable_kernels self (installed_kernels_of out)) = Ok sorted)
      /\ existsb is_sort_error
           (events_of (find_oldest_removable_kernel self h n)) = false).
Proof.
  intros H. split.
  - intros v Hv. apply DiscoveryFacts.installed_kernels_well_formed in Hv
      as (s1 & s2 & s3 & s4 & H1 & H2 & H3 & H4 & ->).
    exists s1, s2, s3, s4. repeat (split; [assumption|]).
    now apply VersionFacts.rmatch_version_text.
  - intros Hacc.
    assert (Hacc' : forall k,
               In k (removable_kernels self (installed_kernels_of out)) ->
               fields_accepted k).
    { intros k Hk. apply Hacc.
      now apply SelectionFacts.removable_kernels_spec. }
    split; [|split].
    + intros v Hv. now apply VersionFacts.accepted_parse, Hacc.
    + now apply SelectionFacts.accepted_sort.
    + destruct (SelectionFacts.find_oldest_of_listing self _ _ H)
        as (r & t & Hrun & _ & Ht & _).
      rewrite Hrun, (Ht Hacc'). unfold events_of. simpl.
      destruct (verbose self && _); reflexivity.
Qed.

Lemma discovered_versions_always_sort_witness :
  parse_kernel_version "5.4.0-1" = Ok [5; 4; 0; 1]%N
  /\ existsb is_sort_error
       (events_of (find_oldest_removable_kernel cleaner_5_10
                     (example_env three_kernels "5.10.0-3" "non" 0 no_flags)
                     0)) = false.
Proof.
  destruct (@discovered_versions_always_sort cleaner_5_10
              (example_env three_kernels "5.10.0-3" "non" 0 no_flags) 0
              three_kernels "" eq_refl) as (_ & Hsort).
  destruct Hsort as (_ & _ & H).
  - intros k [Hin Hne]. vm_compute in Hin.
    destruct Hin as [<- | [<- | [<- | []]]].
    + accept_fields "5" "10" "0" "3".
    + accept_fields "5" "4" "0" "1".
    + accept_fields "5" "8" "0" "2".
  - split; [reflexivity | exact H].
Defined.

(** The version 5.8.0-[long_revision] is discovered and the version
    pattern matches it, yet the conversion of its revision raises
    ValueError: the sort of the candidates fails and
    [find_oldest_removable_kernel] prints the line of its error
    branch. *)
Lemma long_field_reaches_sort_error :
  In ("5.8.0-" ++ long_revision) (installed_kernels_of long_listing)
  /\ Re.rmatch version_re ("5.8.0-" ++ long_revision)
     = Some ["5"; "8"; "0"; long_revision]
  /\ PySort.sort_by parse_kernel_version
       (removable_kernels cleaner_5_10 (installed_kernels_of long_listing))
     = Raise (ValueError long_revision_error)
  /\ events_of (find_oldest_removable_kernel cleaner_5_10
                  (example_env long_listing "5.10.0-3" "non" 0 no_flags) 0)
     = [EvRun ["dpkg"; "-l"];
        EvPrint ("[ERROR] Erreur lors du tri des versions: "
                 ++ long_revision_error)].
Proof.
  split; [vm_compute; tauto|]. repeat split; vm_compute; reflexivity.
Qed.

(** C5, as the program has it: whatever the host answers, a dry run of
    [remove_kernel] runs no command but the listing of packages, so
    neither the purge nor the update of the boot loader; once the
    listing is read it returns success when the listing has packages of
    the kernel, and failure when it has none; what it found is reported
    in verbose mode only, where it prints the packages and the notice
    of the simulation, or that no package was found, and a quiet dry
    run prints nothing. *)
Theorem dry_run_never_mutates (self : KernelCleaner) (kernel_version : string)
  (h : env) (n : nat) :
  commands_run (events_of (remove_kernel self kernel_version true h n))
  = [["dpkg"; "-l"]]
  /\ existsb mutating (events_of (remove_kernel self kernel_version true h n))
     = false
  /\ forall out err,
       run_reply h n ["dpkg"; "-l"] = Gives (Completed 0 out err) ->
       result_of (remove_kernel self kernel_version true h n)
       = Ok (match kernel_packages_of kernel_version out with
             | [] => false
             | _ => true
             end)
       /\ lines_printed (events_of (remove_kernel self kernel_version true h n))
          = if verbose self
            then match kernel_packages_of kernel_version out with
                 | [] =>
                     ["[INFO] Aucun package trouvé pour le noyau "
                      ++ kernel_version]
                 | packages =>
                     ["[INFO] Packages à supprimer: "
                      ++ PyStr.join ", " packages;
                      "[INFO] Mode simulation - aucune suppression effectuée"]
                 end
            else [].
Proof.
  split; [|split].
  - destruct (EffectFacts.remove_kernel_dry_events self kernel_version h n)
      as (r & t & -> & Ht).
    destruct (EffectFacts.prints_run_nothing _ Ht) as [Hc _].
    unfold events_of. simpl. now rewrite Hc.
  - destruct (EffectFacts.remove_kernel_dry_events self kernel_version h n)
      as (r & t & -> & Ht).
    destruct (EffectFacts.prints_run_nothing _ Ht) as [_ Hm].
    unfold events_of. simpl. exact Hm.
  - intros out err H.
    unfold remove_kernel, bind.
    rewrite (EffectFacts.get_kernel_packages_ok _ _ _ H).
    destruct (kernel_packages_of kernel_version out) as [|p ps];
      unfold log; destruct (verbose self); simpl; split; reflexivity.
Qed.

Lemma dry_run_never_mutates_witness :
  kernel_packages_of "5.4.0-1" three_kernels
  = ["linux-image-5.4.0-1-amd64"; "linux-headers-5.4.0-1-amd64"]
  /\ commands_run
       (events_of (remove_kernel cleaner_5_10 "5.4.0-1" true
                     (example_env three_kernels "5.10.0-3" "non" 0 no_flags)
                     0))
     = [["dpkg"; "-l"]]
  /\ result_of (remove_kernel cleaner_5_10 "5.4.0-1" true
                  (example_env three_kernels "5.10.0-3" "non" 0 no_flags) 0)
     = Ok true.
Proof.
  destruct (@dry_run_never_mutates cleaner_5_10 "5.4.0-1"
              (example_env three_kernels "5.10.0-3" "non" 0 no_flags) 0)
    as (Hc & _ & Hr).
  split; [vm_compute; reflexivity|]. split; [exact Hc|].
  rewrite (proj1 (Hr three_kernels "" eq_refl)). vm_compute. reflexivity.
Defined.

(** A dry run for a version that has no installed package returns
    failure, and a dry run that is not verbose returns success having
    printed nothing: the package list is not reported. *)
Lemma dry_run_without_packages_fails :
  kernel_packages_of "4.19.0-9" three_kernels = []
  /\ result_of (remove_kernel cleaner_5_10 "4.19.0-9" true
                  (example_env three_kernels "5.10.0-3" "non" 0 no_flags) 0)
     = Ok false
  /\ verbose cleaner_5_10 = false
  /\ remove_kernel cleaner_5_10 "5.4.0-1" true
       (example_env three_kernels "5.10.0-3" "non" 0 no_flags) 0
     = (Ok true, [EvRun ["dpkg"; "-l"]], 1%nat).
Proof. repeat split; vm_compute; reflexivity. Qed.

(** C6: in a removal that is not a dry run, with at least one package
    to remove, an answer that is not affirmative makes [remove_kernel]
    return failure having run no command but the listing of packages. *)
Theorem declined_removal_does_nothing (self : KernelCleaner)
  (kernel_version : string) (h : env) (n : nat) (out err answer : string) :
  run_reply h n ["dpkg"; "-l"] = Gives (Completed 0 out err) ->
  kernel_packages_of kernel_version out <> [] ->
  input_reply h (S n) confirm_prompt = Gives answer ->
  affirmative answer = false ->
  result_of (remove_kernel self kernel_version false h n) = Ok false
  /\ commands_run (events_of (remove_kernel self kernel_version false h n))
     = [["dpkg"; "-l"]]
  /\ existsb mutating (events_of (remove_kernel self kernel_version false h n))
     = false.
Proof.
  intros H Hne Hin Hno.
  destruct (EffectFacts.remove_kernel_declined self kernel_version _ _ H Hne
              Hin Hno) as (t & -> & Ht).
  destruct (EffectFacts.prints_run_nothing _ Ht) as [Hc Hm].
  unfold events_of, result_of. simpl.
  rewrite EffectFacts.commands_run_app, existsb_app, Hc, Hm. auto.
Qed.

Lemma declined_removal_does_nothing_witness :
  affirmative "non" = false
  /\ result_of (remove_kernel cleaner_5_10 "5.4.0-1" false
                  (example_env three_kernels "5.10.0-3" "non" 0 no_flags) 0)
     = Ok false
  /\ existsb mutating
       (events_of (remove_kernel cleaner_5_10 "5.4.0-1" false
                     (example_env three_kernels "5.10.0-3" "non" 0 no_flags)
                     0))
     = false.
Proof.
  destruct (@declined_removal_does_nothing cleaner_5_10 "5.4.0-1"
              (example_env three_kernels "5.10.0-3" "non" 0 no_flags) 0
              three_kernels "" "non" eq_refl) as (Hr & _ & Hm).
  - vm_compute. discriminate.
  - reflexivity.
  - reflexivity.
  - split; [reflexivity|]. split; [exact Hr | exact Hm].
Defined.

(** C7, as the program has it: once the argument parser has accepted
    the command line, the exit status is 0 or 1, and it is 1 exactly
    when the run would change the system without being root, or the
    user interrupts it, or an error reaches [main]. *)
Theorem main_exit_status (h : env) (args : Namespace) :
  parse_args_reply h = Parsed args ->
  (exit_status (result_of (main h 0)) = 1%Z
   <-> lacks_privileges args (geteuid h) = true
       \/ result_of (main_body args h 0) = Raise KeyboardInterrupt
       \/ exists e, result_of (main_body args h 0) = Raise e
                    /\ is_Exception e = true)
  /\ (exit_status (result_of (main h 0)) = 0%Z
      \/ exit_status (result_of (main h 0)) = 1%Z).
Proof.
  intros H. rewrite (ExitFacts.main_parsed _ H).
  pose proof (@ExitFacts.no_exit_main_body args h 0) as Hne.
  destruct (lacks_privileges args (geteuid h)).
  - split; [|now right]. split; auto.
  - destruct (result_of (main_body args h 0)) as [[]|e].
    + split; [|now left]. split; [discriminate|].
      intros [F | [F | (e & F & _)]]; discriminate.
    + split; [|now right]. split; [|reflexivity]. intros _.
      specialize (Hne e eq_refl). right.
      destruct e; try discriminate; eauto.
Qed.

(** A run that would remove a kernel, by a user who is not root. *)
Lemma main_exit_status_witness :
  exit_status
    (result_of (main (example_env three_kernels "5.10.0-3" "oui" 1000
                        no_flags) 0))
  = 1%Z.
Proof.
  apply (proj1 (@main_exit_status
                  (example_env three_kernels "5.10.0-3" "oui" 1000 no_flags)
                  no_flags eq_refl)).
  left. reflexivity.
Defined.

(** A command line that the argument parser rejects ends with status 2. *)
Lemma usage_error_exit_status :
  exit_status (result_of (main rejected_command_line 0)) = 2%Z.
Proof. reflexivity. Qed.

(** An interruption at the confirmation ends with status 1 and nothing
    removed; a purge that fails is reported and ends with status 0. *)
Lemma interrupted_and_failed_runs :
  exit_status (result_of (main interrupted_at_confirmation 0)) = 1%Z
  /\ existsb mutating (events_of (main interrupted_at_confirmation 0)) = false
  /\ exit_status (result_of (main purge_fails 0)) = 0%Z
  /\ commands_run (events_of (main purge_fails 0))
     = [["uname"; "-r"]; ["dpkg"; "-l"]; ["dpkg"; "-l"];
        apt_remove_cmd ["linux-image-5.4.0-1-amd64";
                        "linux-headers-5.4.0-1-amd64"]].
Proof. repeat split; vm_compute; reflexivity. Qed.


(** * Further properties of the program *)

(** ** The order of strings *)

Module OrderFacts.

Lemma string_lt_trans (a : string) :
  forall b c, string_lt a b -> string_lt b c -> string_lt a c.
Proof.
  unfold string_lt.
  induction a as [|x a IH]; intros [|y b] [|z c]; simpl; try congruence.
  unfold Ascii.compare.
  destruct (N.compare_spec (N_of_ascii x) (N_of_ascii y)) as [E1|L1|G1];
    destruct (N.compare_spec (N_of_ascii y) (N_of_ascii z)) as [E2|L2|G2];
    destruct (N.compare_spec (N_of_ascii x) (N_of_ascii z)) as [E3|L3|G3];
    try congruence; try lia.
  apply IH.
Qed.

Lemma string_gt_lt (a b : string) : String.compare a b = Gt -> string_lt b a.
Proof.
  intros H. unfold string_lt. rewrite String.compare_antisym, H. reflexivity.
Qed.

Lemma string_compare_refl (a : string) : String.compare a a = Eq.
Proof.
  induction a as [|x a IH]; simpl; [reflexivity|].
  unfold Ascii.compare. now rewrite N.compare_refl.
Qed.

Lemma insert_str_sorted (x : string) (l : list string) :
  StronglySorted string_lt l ->
  StronglySorted string_lt (PySort.insert_str x l).
Proof.
  induction 1 as [|y l Hs IH Hy]; simpl.
  - constructor; constructor.
  - destruct (String.compare x y) eqn:E.
    + now constructor.
    + constructor; [now constructor|]. constructor; [exact E|].
      eapply Forall_impl; [|exact Hy]. intros z Hz.
      now apply string_lt_trans with y.
    + constructor; [exact IH|].
      apply Forall_forall. intros z Hz.
      apply DiscoveryFacts.In_insert_str in Hz as [-> | Hz].
      * now apply string_gt_lt.
      * rewrite Forall_forall in Hy. auto.
Qed.

Lemma sorted_set_sorted (l : list string) :
  StronglySorted string_lt (PySort.sorted_set l).
Proof.
  induction l as [|x l IH]; simpl; [constructor|].
  now apply insert_str_sorted.
Qed.

Lemma strictly_sorted_nodup (l : list string) :
  StronglySorted string_lt l -> NoDup l.
Proof.
  induction 1 as [|y l Hs IH Hy]; constructor; [|assumption].
  intros Hin. rewrite Forall_forall in Hy. specialize (Hy y Hin).
  unfold string_lt in Hy. rewrite string_compare_refl in Hy. discriminate.
Qed.

End OrderFacts.

(** ** Prefixes and substrings *)

Module SubstringFacts.

Lemma prefix_spec (p s : string) :
  prefix p s = true <-> exists post, s = p ++ post.
Proof.
  revert s. induction p as [|a p IH]; intros s; simpl.
  - split; [intros _; now exists s | intros _; now destruct s].
  - destruct s as [|b s]; simpl.
    + split; [discriminate | intros [post H]; discriminate].
    + destruct (ascii_dec a b) as [->|Hne].
      * rewrite IH. split; intros [post H]; exists post.
        -- now subst.
        -- now inversion H.
      * split; [discriminate|]. intros [post H]. inversion H. congruence.
Qed.

Lemma contains_spec (sub s : string) :
  PyStr.contains sub s = true <-> exists pre post, s = pre ++ sub ++ post.
Proof.
  induction s as [|c s IH]; cbn [PyStr.contains].
  - rewrite orb_false_r, prefix_spec. split.
    + intros [post H]. now exists "", post.
    + intros (pre & post & H). destruct pre; simpl in H; [eauto|discriminate].
  - rewrite orb_true_iff, prefix_spec, IH. split.
    + intros [[post H] | (pre & post & H)].
      * now exists "", post.
      * exists (String c pre), post. simpl. now subst.
    + intros (pre & post & H). destruct pre as [|d pre]; simpl in H.
      * left. eauto.
      * right. inversion H. eauto.
Qed.

Lemma contains_trans (a b c : string) :
  PyStr.contains a b = true -> PyStr.contains b c = true ->
  PyStr.contains a c = true.
Proof.
  rewrite !contains_spec. intros (p1 & q1 & ->) (p2 & q2 & ->).
  exists (p2 ++ p1), (q1 ++ q2). now rewrite !append_assoc.
Qed.

End SubstringFacts.

(** ** More on the two patterns *)

Module PatternFacts.
Import Re ReFacts VersionFacts.

Lemma no_digit_ahead_spec (rest : string) :
  no_digit_ahead rest = true -> digits_plus rest = [].
Proof.
  destruct rest as [|c rest]; simpl; [reflexivity|].
  destruct (PyStr.is_digit c); [discriminate | reflexivity].
Qed.

(** The digits at the head of a text. *)
Lemma leading_digits (rest : string) :
  exists d r,
    rest = d ++ r /\ PyStr.all_digits d = true /\ no_digit_ahead r = true.
Proof.
  induction rest as [|c rest (d & r & -> & Hd & Hr)].
  - now exists "", "".
  - destruct (PyStr.is_digit c) eqn:Hc.
    + exists (String c d), r. simpl. now rewrite Hc.
    + exists "", (String c (d ++ r)). simpl. now rewrite Hc.
Qed.

Lemma digit_string_append (s d : string) :
  digit_string s -> PyStr.all_digits d = true -> digit_string (s ++ d).
Proof.
  intros [Hne Hs] Hd. split.
  - destruct s; [congruence | discriminate].
  - now rewrite all_digits_append, Hs, Hd.
Qed.

Lemma version_text_append (s1 s2 s3 s4 d r : string) :
  version_text s1 s2 s3 s4 ++ d ++ r = version_text s1 s2 s3 (s4 ++ d) ++ r.
Proof. unfold version_text. now rewrite !append_assoc. Qed.

(** Before a text that does not begin with a digit, the groups of a
    version are its four fields. *)
Lemma parse_version_prefix_groups (s1 s2 s3 s4 rest : string) :
  digit_string s1 -> digit_string s2 -> digit_string s3 -> digit_string s4 ->
  no_digit_ahead rest = true ->
  parse_kernel_version (version_text s1 s2 s3 s4 ++ rest)
  = ints [s1; s2; s3; s4].
Proof.
  intros H1 H2 H3 H4 Hr. unfold parse_kernel_version, rmatch.
  pose proof (@hd_run_version_re s1 s2 s3 s4 rest H1 H2 H3 H4
                (no_digit_ahead_spec _ Hr)) as H.
  destruct (run version_re (version_text s1 s2 s3 s4 ++ rest));
    [discriminate|].
  simpl in H. inversion H; subst. reflexivity.
Qed.

Lemma parse_version_prefix (s1 s2 s3 s4 rest : string) :
  digit_string s1 -> digit_string s2 -> digit_string s3 -> digit_string s4 ->
  int_accepts s1 -> int_accepts s2 -> int_accepts s3 -> int_accepts s4 ->
  no_digit_ahead rest = true ->
  parse_kernel_version (version_text s1 s2 s3 s4 ++ rest)
  = Ok [number s1; number s2; number s3; number s4].
Proof.
  intros H1 H2 H3 H4 A1 A2 A3 A4 Hr.
  rewrite parse_version_prefix_groups by assumption.
  now apply ints_version.
Qed.

Lemma hd_run_digits (m rest : string) :
  digit_string m -> digits_plus rest = [] ->
  hd_error (run Digits (m ++ rest)) = Some ([], rest).
Proof.
  intros Hm Hrest. simpl. pose proof (@hd_digits_plus m rest Hm Hrest) as H.
  destruct (digits_plus (m ++ rest)); [discriminate|].
  simpl in *. now inversion H.
Qed.

Lemma rmatch_of_hd (r : regex) (s rest : string) (g : list string) :
  hd_error (run r s) = Some (g, rest) -> rmatch r s = Some g.
Proof.
  unfold rmatch. destruct (run r s) as [|x l]; [discriminate|].
  simpl. intros H. now inversion H.
Qed.

(** On a name that begins with [linux-image-] and a version, the
    pattern of discovery captures that version. *)
Lemma rmatch_image_re (s1 s2 s3 s4 post : string) :
  digit_string s1 -> digit_string s2 -> digit_string s3 -> digit_string s4 ->
  no_digit_ahead post = true ->
  rmatch image_re ("linux-image-" ++ version_text s1 s2 s3 s4 ++ post)
  = Some [version_text s1 s2 s3 s4].
Proof.
  intros H1 H2 H3 H4 Hp. apply no_digit_ahead_spec in Hp.
  assert (Hin : hd_error
                  (run (Cat Digits (Cat (Str ".") (Cat Digits (Cat (Str ".")
                       (Cat Digits (Cat (Str "-") Digits))))))
                       (version_text s1 s2 s3 s4 ++ post))
                = Some ([], post)).
  { unfold version_text. rewrite !append_assoc.
    change (@nil string)
      with (@nil string ++ [] ++ [] ++ [] ++ [] ++ [] ++ [])%list at 1.
    repeat (eapply hd_run_cat;
            [ first [ apply hd_run_str
                    | apply hd_run_digits; [assumption | reflexivity] ]
            | ]).
    now apply hd_run_digits. }
  assert (H : hd_error
                (run (Cat (Str "linux-image-")
                        (Grp (Cat Digits (Cat (Str ".") (Cat Digits
                             (Cat (Str ".") (Cat Digits
                             (Cat (Str "-") Digits))))))))
                     ("linux-image-" ++ version_text s1 s2 s3 s4 ++ post))
              = Some ([version_text s1 s2 s3 s4], post)).
  { change [version_text s1 s2 s3 s4]
      with ([] ++ [version_text s1 s2 s3 s4])%list.
    eapply hd_run_cat; [apply hd_run_str|].
    remember (Cat Digits _) as inner. simpl.
    destruct (run inner (version_text s1 s2 s3 s4 ++ post)) as [|x l];
      [discriminate|].
    simpl in *. inversion Hin; subst x. simpl.
    now rewrite consumed_append. }
  now apply rmatch_of_hd with post.
Qed.

End PatternFacts.

(** ** Discovery, parsing and the packages of a kernel *)

Module PackageFacts.

Lemma In_collect_packages (kernel_version p : string)
  (lines packages : list string) :
  In p (collect_packages kernel_version packages lines)
  <-> In p packages
      \/ exists line, In line lines
                      /\ package_of_line kernel_version line = Some p.
Proof.
  revert packages. induction lines as [|line lines IH]; simpl; intros packages.
  - split; [tauto | intros [H | (l & [] & _)]; exact H].
  - destruct (package_of_line kernel_version line) as [q|] eqn:E; rewrite IH.
    + rewrite in_app_iff. simpl. split.
      * intros [[H | [H | []]] | (l & Hl & Hk)]; eauto.
        subst. right. eauto.
      * intros [H | (l & [Hl | Hl] & Hk)]; eauto.
        subst. rewrite E in Hk. inversion Hk; subst. auto.
    + split.
      * intros [H | (l & Hl & Hk)]; eauto.
      * intros [H | (l & [Hl | Hl] & Hk)]; eauto.
        subst. congruence.
Qed.

Lemma nth_error_second (parts : list string) (package : string) :
  nth_error parts 1 = Some package ->
  (2 <=? List.length parts)%nat = true /\ nth 1 parts EmptyString = package.
Proof.
  destruct parts as [|a [|b parts]]; simpl; try discriminate.
  intros H. now inversion H.
Qed.

Lemma package_of_line_spec (kernel_version line p : string) :
  package_of_line kernel_version line = Some p
  <-> kernel_package_line kernel_version line p.
Proof.
  unfold package_of_line, kernel_package_line. simpl existsb.
  rewrite orb_false_r. split.
  - destruct (PyStr.startswith "ii" line); [|discriminate].
    destruct (PyStr.contains kernel_version line); [|discriminate].
    simpl andb. cbv iota.
    destruct (2 <=? List.length (PyStr.split_ws line))%nat eqn:Hl;
      [|discriminate].
    apply Nat.leb_le in Hl.
    destruct (_ || _) eqn:Hp; [|discriminate].
    intros H. inversion H; subst; clear H.
    repeat split.
    + apply DiscoveryFacts.nth_error_nth_default. lia.
    + apply orb_true_iff in Hp as [Hp | Hp]; [auto|].
      apply orb_true_iff in Hp as [Hp | Hp]; auto.
  - intros (Hs & Hc & Hn & Hp). rewrite Hs, Hc. simpl andb. cbv iota.
    apply nth_error_second in Hn as [-> ->].
    destruct Hp as [-> | [-> | ->]]; rewrite ?orb_true_r; reflexivity.
Qed.

End PackageFacts.

(** X1: the list of installed kernels is strictly increasing in the
    order of strings, so no version occurs twice in it. *)
Theorem installed_kernels_sorted_distinct (out : string) :
  StronglySorted string_lt (installed_kernels_of out)
  /\ NoDup (installed_kernels_of out).
Proof.
  assert (H : StronglySorted string_lt (installed_kernels_of out))
    by apply OrderFacts.sorted_set_sorted.
  split; [exact H | now apply OrderFacts.strictly_sorted_nodup].
Qed.

(** X2: an installed package whose name is [linux-image-], a version
    and a remainder that does not begin with a digit is discovered, with
    that version. *)
Theorem installed_image_is_discovered (out line package : string)
  (s1 s2 s3 s4 post : string) :
  In line (PyStr.split_on "010" out) ->
  image_line line package ->
  package = "linux-image-" ++ version_text s1 s2 s3 s4 ++ post ->
  digit_string s1 -> digit_string s2 -> digit_string s3 -> digit_string s4 ->
  no_digit_ahead post = true ->
  In (version_text s1 s2 s3 s4) (installed_kernels_of out).
Proof.
  intros Hline (Hs & Hc & Hn) Hp H1 H2 H3 H4 Hpost.
  unfold installed_kernels_of.
  rewrite DiscoveryFacts.In_sorted_set, DiscoveryFacts.In_collect_kernels.
  right. exists line. split; [exact Hline|].
  unfold kernel_of_line. rewrite Hc, Hs. simpl andb. cbv iota.
  apply PackageFacts.nth_error_second in Hn as [-> ->].
  assert (Hm : Re.search image_re package
               = Some [version_text s1 s2 s3 s4]).
  { subst package.
    pose proof (@PatternFacts.rmatch_image_re s1 s2 s3 s4 post H1 H2 H3 H4
                  Hpost) as Hm.
    change ("linux-image-" ++ version_text s1 s2 s3 s4 ++ post)
      with (String "l" ("inux-image-" ++ version_text s1 s2 s3 s4 ++ post))
      in *.
    cbn [Re.search]. now rewrite Hm. }
  now rewrite Hm.
Qed.

Lemma installed_image_is_discovered_witness :
  In "5.8.0-2" (installed_kernels_of three_kernels).
Proof.
  apply (@installed_image_is_discovered three_kernels
           "ii  linux-image-5.8.0-2-amd64   5.8.0-2.1   amd64  Linux 5.8"
           "linux-image-5.8.0-2-amd64" "5" "8" "0" "2" "-amd64");
    try (split; [discriminate | reflexivity]); try reflexivity.
  - vm_compute. tauto.
  - repeat split.
Defined.

(** X3: what follows the revision does not change the outcome of
    [parse_kernel_version], when it does not begin with a digit: a
    release name with a flavour is parsed as its version is, and has
    the key of its version when [int] accepts the four fields. *)
Theorem parse_ignores_suffix (s1 s2 s3 s4 rest : string) :
  digit_string s1 -> digit_string s2 -> digit_string s3 -> digit_string s4 ->
  no_digit_ahead rest = true ->
  parse_kernel_version (version_text s1 s2 s3 s4 ++ rest)
  = parse_kernel_version (version_text s1 s2 s3 s4)
  /\ (int_accepts s1 -> int_accepts s2 -> int_accepts s3 -> int_accepts s4 ->
      parse_kernel_version (version_text s1 s2 s3 s4 ++ rest)
      = Ok [number s1; number s2; number s3; number s4]).
Proof.
  intros H1 H2 H3 H4 Hr. split.
  - rewrite PatternFacts.parse_version_prefix_groups by assumption.
    now rewrite VersionFacts.parse_version_groups by assumption.
  - intros A1 A2 A3 A4. now apply PatternFacts.parse_version_prefix.
Qed.

Lemma parse_ignores_suffix_witness :
  parse_kernel_version "5.10.0-3-amd64" = parse_kernel_version "5.10.0-3"
  /\ parse_kernel_version "5.10.0-3-amd64" = Ok [5; 10; 0; 3]%N.
Proof.
  destruct (@parse_ignores_suffix "5" "10" "0" "3" "-amd64")
    as [Hsame Hkey]; try digits; try reflexivity.
  split; [exact Hsame|]. apply Hkey; accepted.
Defined.

(** X4: on a text that begins with major.minor.patch-revision,
    [parse_kernel_version] returns the four numbers of the fields it
    captures when [int] accepts them all, and raises the ValueError of
    [int] for a field of more than 4300 digits; on every other text it
    raises ValueError with the text in its message. *)
Theorem parse_kernel_version_cases (v : string) :
  (exists s1 s2 s3 s4 rest,
      digit_string s1 /\ digit_string s2 /\ digit_string s3
      /\ digit_string s4
      /\ v = version_text s1 s2 s3 s4 ++ rest
      /\ ((int_accepts s1 /\ int_accepts s2 /\ int_accepts s3
           /\ int_accepts s4
           /\ parse_kernel_version v
              = Ok [number s1; number s2; number s3; number s4])
          \/ (exists g,
                 In g [s1; s2; s3; s4] /\ ~ int_accepts g
                 /\ parse_kernel_version v
                    = Raise (ValueError (limit_message (String.length g))))))
  \/ (~ begins_with_version v
      /\ parse_kernel_version v
         = Raise (ValueError ("Format de version invalide: " ++ v))).
Proof.
  unfold parse_kernel_version.
  destruct (Re.rmatch version_re v) as [g|] eqn:E.
  - left. apply ReFacts.rmatch_sound in E as (m & rest & -> & Hm).
    apply VersionFacts.sem_version_re_inv in Hm
      as (s1 & s2 & s3 & s4 & H1 & H2 & H3 & H4 & -> & ->).
    exists s1, s2, s3, s4, rest. repeat (split; [assumption|]).
    split; [reflexivity|].
    destruct (@VersionFacts.ints_digit_groups [s1; s2; s3; s4])
      as [[Ha ->] | (g & Hin & Hl & ->)].
    + repeat (apply Forall_cons; [assumption|]). apply Forall_nil.
    + left. inversion Ha as [|? ? A1 Ha1]; subst.
      inversion Ha1 as [|? ? A2 Ha2]; subst.
      inversion Ha2 as [|? ? A3 Ha3]; subst.
      inversion Ha3 as [|? ? A4 _]; subst. auto.
    + right. exists g. split; [exact Hin|].
      split; [now apply VersionFacts.too_long_refused|].
      unfold PyStr.int_error. now rewrite Hl.
  - right. split; [|reflexivity].
    intros (s1 & s2 & s3 & s4 & rest & H1 & H2 & H3 & H4 & ->).
    destruct (@ReFacts.rmatch_complete _ _ rest _
                (@VersionFacts.sem_version_re _ _ _ _ H1 H2 H3 H4))
      as [g Hg].
    congruence.
Qed.

(** X5: the packages selected for a version are exactly the second
    fields of the installed lines that mention the version and name an
    image, a headers or a modules package. *)
Theorem kernel_packages_characterised (kernel_version out p : string) :
  In p (kernel_packages_of kernel_version out)
  <-> exists line,
        In line (PyStr.split_on "010" out)
        /\ kernel_package_line kernel_version line p.
Proof.
  unfold kernel_packages_of. rewrite PackageFacts.In_collect_packages.
  split.
  - intros [[] | (line & Hl & Hp)]. exists line.
    now rewrite <- PackageFacts.package_of_line_spec.
  - intros (line & Hl & Hp). right. exists line.
    now rewrite PackageFacts.package_of_line_spec.
Qed.

(** X6: the version is looked for as a piece of text, so the packages
    of every version whose text contains it are selected with it. *)
Theorem packages_of_longer_version_included
  (kernel_version longer out p : string) :
  PyStr.contains kernel_version longer = true ->
  In p (kernel_packages_of longer out) ->
  In p (kernel_packages_of kernel_version out).
Proof.
  intros Hsub. unfold kernel_packages_of.
  rewrite !PackageFacts.In_collect_packages.
  intros [[] | (line & Hl & Hp)]. right. exists line. split; [exact Hl|].
  apply PackageFacts.package_of_line_spec in Hp as (Hs & Hc & Hn & Hk).
  apply PackageFacts.package_of_line_spec. repeat split; try assumption.
  now apply SubstringFacts.contains_trans with longer.
Qed.

(** The packages of 5.4.0-10 are selected for 5.4.0-1. *)
Lemma packages_of_longer_version_included_witness :
  In "linux-image-5.4.0-10-amd64"
    (kernel_packages_of "5.4.0-1" overlapping_kernels)
  /\ kernel_packages_of "5.4.0-1" overlapping_kernels
     = ["linux-image-5.4.0-1-amd64"; "linux-image-5.4.0-10-amd64";
        "linux-headers-5.4.0-10-amd64"].
Proof.
  split; [|vm_compute; reflexivity].
  apply (@packages_of_longer_version_included "5.4.0-1" "5.4.0-10"
           overlapping_kernels "linux-image-5.4.0-10-amd64").
  - reflexivity.
  - vm_compute. tauto.
Defined.

(** ** The removal, step by step *)

Module RemovalFacts.
Import EffectFacts.

Ltac step_log_in E :=
  match type of E with
  | context [log ?s ?m ?l ?h ?n] =>
      let t := fresh "t" in
      let Hl := fresh "Hl" in
      let Ht := fresh "Ht" in
      destruct (log_run s m l h n) as (t & Hl & Ht);
      rewrite Hl in E; clear Hl
  end.

Ltac prints_run_nothing_all :=
  repeat match goal with
         | H : forallb is_print ?t = true |- _ =>
             let Hc := fresh "Hc" in
             let Hm := fresh "Hm" in
             destruct (prints_run_nothing _ H) as [Hc Hm]; clear H
         end.

Ltac trace_simpl :=
  unfold events_of, result_of; simpl;
  rewrite ?commands_run_app, ?existsb_app; simpl;
  rewrite ?commands_run_app, ?existsb_app; simpl;
  rewrite ?commands_run_app, ?existsb_app; simpl;
  repeat match goal with
         | H : commands_run ?t = [] |- _ => rewrite !H
         end;
  repeat match goal with
         | H : existsb mutating ?t = false |- _ => rewrite !H
         end;
  simpl.

Lemma get_kernel_packages_cases (kernel_version : string) (h : env)
  (n : nat) :
  (exists out err,
      run_reply h n ["dpkg"; "-l"] = Gives (Completed 0 out err)
      /\ get_kernel_packages kernel_version h n
         = (Ok (kernel_packages_of kernel_version out),
            [EvRun ["dpkg"; "-l"]], S n))
  \/ exists e,
       get_kernel_packages kernel_version h n
       = (Raise e, [EvRun ["dpkg"; "-l"]], S n).
Proof.
  unfold get_kernel_packages, try_except, bind, subprocess_run.
  destruct (run_reply h n ["dpkg"; "-l"]) as [[rc out err]|f] eqn:E.
  - simpl. destruct (rc =? 0)%Z eqn:Hrc; simpl.
    + apply Z.eqb_eq in Hrc. subst. left. eauto.
    + right. eauto.
  - right. destruct f; simpl; eauto.
Qed.

Lemma confirm_removal_fault (self : KernelCleaner) (kernel_version : string)
  (packages : list string) (h : env) (n : nat) (f : fault) :
  input_reply h n confirm_prompt = Faults f ->
  exists t,
    confirm_removal self kernel_version packages h n
    = (Raise (exn_of_fault f), (t ++ [EvInput confirm_prompt])%list, S n)
    /\ forallb is_print t = true.
Proof.
  intros H. unfold confirm_removal, bind. simpl.
  rewrite for_each_print. unfold input. rewrite H.
  eexists (_ :: _ :: _ :: _ :: map _ packages). split.
  - reflexivity.
  - simpl. apply forallb_is_print_map.
Qed.

(** [remove_kernel] up to the command of the purge, once the user has
    confirmed: [E] becomes the equation of what remains. *)
Ltac confirmed_prefix E H Hne Hin Hyes :=
  unfold remove_kernel, bind in E;
  rewrite (get_kernel_packages_ok _ _ _ H) in E;
  match type of Hne with
  | ?pk <> [] =>
      let p0 := fresh "p0" in
      let ps := fresh "ps" in
      destruct pk as [|p0 ps] eqn:Epk; [congruence|]
  end;
  cbv beta iota zeta in E; step_log_in E;
  unfold try_except, bind in E;
  match type of E with
  | context [confirm_removal ?s ?k ?pk ?h ?n] =>
      let t := fresh "t" in
      let Hc := fresh "Hc" in
      let Ht := fresh "Ht" in
      destruct (confirm_removal_answer s k pk h n Hin) as (t & Hc & Ht);
      rewrite Hc in E; clear Hc
  end;
  rewrite Hyes in E; cbn [negb] in E;
  cbv beta iota zeta in E; step_log_in E.

End RemovalFacts.

(** X7: a removal that the user confirms, whose purge and update of the
    boot loader both succeed, returns success having run the listing,
    the purge of exactly the packages of the kernel, and the update, in
    this order. *)
Theorem confirmed_removal_succeeds (self : KernelCleaner)
  (kernel_version : string) (h : env) (n : nat)
  (out err answer : string) (p q : CompletedProcess) :
  run_reply h n ["dpkg"; "-l"] = Gives (Completed 0 out err) ->
  kernel_packages_of kernel_version out <> [] ->
  input_reply h (S n) confirm_prompt = Gives answer ->
  affirmative answer = true ->
  run_reply h (S (S n)) (apt_remove_cmd (kernel_packages_of kernel_version out))
  = Gives p ->
  returncode p = 0%Z ->
  run_reply h (S (S (S n))) update_grub_cmd = Gives q ->
  returncode q = 0%Z ->
  result_of (remove_kernel self kernel_version false h n) = Ok true
  /\ commands_run (events_of (remove_kernel self kernel_version false h n))
     = [["dpkg"; "-l"];
        apt_remove_cmd (kernel_packages_of kernel_version out);
        update_grub_cmd].
Proof.
  intros H Hne Hin Hyes Hapt Hp Hgrub Hq.
  destruct (remove_kernel self kernel_version false h n) as [[r tr] n']
    eqn:E.
  RemovalFacts.confirmed_prefix E H Hne Hin Hyes.
  unfold subprocess_run in E. rewrite Hapt in E.
  cbn [andb negb] in E. cbv beta iota zeta in E.
  rewrite Hp in E. cbn [Z.eqb] in E. cbv beta iota zeta in E.
  do 2 RemovalFacts.step_log_in E.
  rewrite Hgrub, Hq in E. simpl in E.
  inversion E; subst; clear E.
  RemovalFacts.prints_run_nothing_all. RemovalFacts.trace_simpl. auto.
Qed.

Lemma confirmed_removal_succeeds_witness :
  result_of (remove_kernel cleaner_5_10 "5.4.0-1" false
               (example_env three_kernels "5.10.0-3" "Oui" 0 no_flags) 0)
  = Ok true
  /\ commands_run
       (events_of (remove_kernel cleaner_5_10 "5.4.0-1" false
                     (example_env three_kernels "5.10.0-3" "Oui" 0 no_flags)
                     0))
     = [["dpkg"; "-l"];
        ["sudo"; "apt-get"; "remove"; "--purge"; "-y";
         "linux-image-5.4.0-1-amd64"; "linux-headers-5.4.0-1-amd64"];
        ["sudo"; "update-grub"]].
Proof.
  apply (@confirmed_removal_succeeds cleaner_5_10 "5.4.0-1"
           (example_env three_kernels "5.10.0-3" "Oui" 0 no_flags) 0
           three_kernels "" "Oui"
           (Completed 0 "" "") (Completed 0 "" ""));
    try reflexivity.
  vm_compute. discriminate.
Defined.

(** X8: when the purge ends with a status that is not 0, [remove_kernel]
    returns failure, prints the error output of the purge whatever the
    verbosity, and does not update the boot loader. *)
Theorem failed_purge_skips_update (self : KernelCleaner)
  (kernel_version : string) (h : env) (n : nat)
  (out err answer : string) (p : CompletedProcess) :
  run_reply h n ["dpkg"; "-l"] = Gives (Completed 0 out err) ->
  kernel_packages_of kernel_version out <> [] ->
  input_reply h (S n) confirm_prompt = Gives answer ->
  affirmative answer = true ->
  run_reply h (S (S n)) (apt_remove_cmd (kernel_packages_of kernel_version out))
  = Gives p ->
  returncode p <> 0%Z ->
  result_of (remove_kernel self kernel_version false h n) = Ok false
  /\ commands_run (events_of (remove_kernel self kernel_version false h n))
     = [["dpkg"; "-l"];
        apt_remove_cmd (kernel_packages_of kernel_version out)]
  /\ In (EvPrint (removal_error_line (stderr p)))
       (events_of (remove_kernel self kernel_version false h n)).
Proof.
  intros H Hne Hin Hyes Hapt Hp.
  destruct (remove_kernel self kernel_version false h n) as [[r tr] n']
    eqn:E.
  RemovalFacts.confirmed_prefix E H Hne Hin Hyes.
  unfold subprocess_run in E. rewrite Hapt in E.
  cbn [andb negb] in E. cbv beta iota zeta in E.
  apply Z.eqb_neq in Hp. rewrite Hp in E. cbv beta iota zeta in E.
  unfold log in E. rewrite orb_true_r in E. simpl in E.
  inversion E; subst; clear E.
  split; [reflexivity|]. split.
  - RemovalFacts.prints_run_nothing_all. RemovalFacts.trace_simpl. auto.
  - unfold events_of. simpl. right.
    repeat (apply in_or_app; right). simpl. auto.
Qed.

Lemma failed_purge_skips_update_witness :
  result_of (remove_kernel cleaner_5_10 "5.4.0-1" false purge_fails 0)
  = Ok false
  /\ In (EvPrint "[ERROR] Erreur lors de la suppression: E: Could not get lock")
       (events_of (remove_kernel cleaner_5_10 "5.4.0-1" false purge_fails 0)).
Proof.
  destruct (@failed_purge_skips_update cleaner_5_10 "5.4.0-1" purge_fails 0
              three_kernels "" "oui"
              (Completed 100 "" "E: Could not get lock"))
    as (Hr & _ & Hin); try reflexivity.
  - vm_compute. discriminate.
  - discriminate.
  - split; [exact Hr | exact Hin].
Defined.

(** X9: when the purge succeeds and the update of the boot loader ends
    with a status that is not 0, [remove_kernel] returns failure and
    prints the error, the packages being purged already. *)
Theorem failed_update_after_purge (self : KernelCleaner)
  (kernel_version : string) (h : env) (n : nat)
  (out err answer : string) (p q : CompletedProcess) :
  run_reply h n ["dpkg"; "-l"] = Gives (Completed 0 out err) ->
  kernel_packages_of kernel_version out <> [] ->
  input_reply h (S n) confirm_prompt = Gives answer ->
  affirmative answer = true ->
  run_reply h (S (S n)) (apt_remove_cmd (kernel_packages_of kernel_version out))
  = Gives p ->
  returncode p = 0%Z ->
  run_reply h (S (S (S n))) update_grub_cmd = Gives q ->
  returncode q <> 0%Z ->
  result_of (remove_kernel self kernel_version false h n) = Ok false
  /\ commands_run (events_of (remove_kernel self kernel_version false h n))
     = [["dpkg"; "-l"];
        apt_remove_cmd (kernel_packages_of kernel_version out);
        update_grub_cmd]
  /\ In (EvPrint (removal_error_line
                    (cpe_text h update_grub_cmd (returncode q))))
       (events_of (remove_kernel self kernel_version false h n)).
Proof.
  intros H Hne Hin Hyes Hapt Hp Hgrub Hq.
  destruct (remove_kernel self kernel_version false h n) as [[r tr] n']
    eqn:E.
  RemovalFacts.confirmed_prefix E H Hne Hin Hyes.
  unfold subprocess_run in E. rewrite Hapt in E.
  cbn [andb negb] in E. cbv beta iota zeta in E.
  rewrite Hp in E. cbn [Z.eqb] in E. cbv beta iota zeta in E.
  do 2 RemovalFacts.step_log_in E.
  rewrite Hgrub in E. apply Z.eqb_neq in Hq. rewrite Hq in E.
  cbn [andb negb] in E. cbv beta iota zeta in E.
  unfold log in E. rewrite orb_true_r in E. simpl in E.
  inversion E; subst; clear E.
  split; [reflexivity|]. split.
  - RemovalFacts.prints_run_nothing_all. RemovalFacts.trace_simpl. auto.
  - unfold events_of. simpl. right.
    repeat (apply in_or_app; right). simpl. auto.
Qed.

Lemma failed_update_after_purge_witness :
  result_of (remove_kernel cleaner_5_10 "5.4.0-1" false grub_fails 0)
  = Ok false
  /\ commands_run
       (events_of (remove_kernel cleaner_5_10 "5.4.0-1" false grub_fails 0))
     = [["dpkg"; "-l"];
        apt_remove_cmd ["linux-image-5.4.0-1-amd64";
                        "linux-headers-5.4.0-1-amd64"];
        update_grub_cmd].
Proof.
  destruct (@failed_update_after_purge cleaner_5_10 "5.4.0-1" grub_fails 0
              three_kernels "" "oui"
              (Completed 0 "" "") (Completed 1 "" ""))
    as (Hr & Hc & _); try reflexivity.
  - vm_compute. discriminate.
  - discriminate.
  - split; [exact Hr | exact Hc].
Defined.

(** ** Where a change of the system can come from *)

Module ConsentFacts.
Import EffectFacts RemovalFacts.

Lemma mutating_app (t1 t2 : list event) :
  existsb mutating (t1 ++ t2) = true ->
  existsb mutating t1 = true \/ existsb mutating t2 = true.
Proof. rewrite existsb_app. apply orb_true_iff. Qed.

Lemma prints_do_not_mutate (t : list event) :
  forallb is_print t = true -> existsb mutating t = true -> False.
Proof.
  intros H. destruct (prints_run_nothing _ H) as [_ Hm]. congruence.
Qed.

(** [remove_kernel] changes the system only in a run that is not a dry
    run, when packages were found and the answer was affirmative. *)
Lemma remove_kernel_mutates (self : KernelCleaner) (kernel_version : string)
  (dry_run : bool) (h : env) (n : nat) :
  existsb mutating (events_of (remove_kernel self kernel_version dry_run h n))
  = true ->
  dry_run = false
  /\ exists out err answer,
       run_reply h n ["dpkg"; "-l"] = Gives (Completed 0 out err)
       /\ kernel_packages_of kernel_version out <> []
       /\ input_reply h (S n) confirm_prompt = Gives answer
       /\ affirmative answer = true.
Proof.
  destruct dry_run.
  - destruct (remove_kernel_dry_events self kernel_version h n)
      as (r & t & -> & Ht).
    unfold events_of. simpl. intros Hm.
    destruct (prints_do_not_mutate _ Ht Hm).
  - intros Hm. split; [reflexivity|].
    destruct (get_kernel_packages_cases kernel_version h n)
      as [(out & err & Hrun & Hpk) | (e & Hpk)].
    + destruct (kernel_packages_of kernel_version out) as [|p0 ps] eqn:Epk.
      * exfalso. revert Hm. unfold remove_kernel, bind. rewrite Hpk.
        unfold log. destruct (verbose self); simpl; discriminate.
      * destruct (input_reply h (S n) confirm_prompt) as [answer|f] eqn:Ein.
        -- destruct (affirmative answer) eqn:Hyes.
           ++ exists out, err, answer. rewrite Epk.
              repeat split; try assumption. discriminate.
           ++ exfalso.
              destruct (@remove_kernel_declined self kernel_version h n
                          out err answer Hrun) as (t & Heq & Ht);
                try assumption; [rewrite Epk; discriminate|].
              rewrite Heq in Hm. unfold events_of in Hm. simpl in Hm.
              apply mutating_app in Hm as [Hm | Hm];
                [now apply (prints_do_not_mutate _ Ht) | discriminate].
        -- exfalso. revert Hm. unfold remove_kernel, bind. rewrite Hpk.
           destruct (log_run self ("Packages à supprimer: "
                                   ++ PyStr.join ", " (p0 :: ps)) "INFO"
                       h (S n)) as (t0 & -> & Ht0).
           unfold try_except, bind.
           destruct (confirm_removal_fault self kernel_version (p0 :: ps)
                       _ _ Ein) as (t1 & -> & Ht1).
           destruct (prints_run_nothing _ Ht0) as [_ Hm0].
           destruct (prints_run_nothing _ Ht1) as [_ Hm1].
           destruct f; unfold events_of; simpl;
             rewrite !existsb_app, Hm0, Hm1; simpl; discriminate.
    + exfalso. revert Hm. unfold remove_kernel, bind. rewrite Hpk.
      discriminate.
Qed.

Lemma get_current_kernel_run (h : env) (n : nat) :
  exists r, get_current_kernel h n = (r, [EvRun ["uname"; "-r"]], S n).
Proof.
  unfold get_current_kernel, try_except, bind, subprocess_run.
  destruct (run_reply h n ["uname"; "-r"]) as [p|f].
  - destruct (returncode p =? 0)%Z; simpl; eexists; reflexivity.
  - destruct f; simpl; eexists; reflexivity.
Qed.

Ltac find_mutating Hm :=
  repeat match type of Hm with
         | existsb mutating (_ ++ _)%list = true =>
             apply mutating_app in Hm; destruct Hm as [Hm | Hm]
         | existsb mutating [] = true => discriminate Hm
         | false = true => discriminate Hm
         | existsb mutating (EvPrint _ :: _) = true =>
             cbn [existsb mutating orb] in Hm
         | existsb mutating (EvRun ["dpkg"; "-l"] :: _) = true =>
             change (existsb mutating (EvRun ["dpkg"; "-l"] :: ?t))
               with (existsb mutating t) in Hm
         | existsb mutating ?t = true =>
             match goal with
             | Hf : existsb mutating t = false |- _ =>
                 rewrite Hf in Hm; discriminate Hm
             end
         end.

(** [run] changes the system only when neither the status nor a dry run
    is asked for, and after an affirmative answer. *)
Lemma run_mutates (self : KernelCleaner) (dry_run show : bool) (h : env)
  (n : nat) :
  existsb mutating (events_of (run self dry_run show h n)) = true ->
  show = false /\ dry_run = false
  /\ exists answer,
       input_reply h (S (S n)) confirm_prompt = Gives answer
       /\ affirmative answer = true.
Proof.
  destruct (run self dry_run show h n) as [[r tr] n'] eqn:E.
  unfold run, bind in E. do 2 step_log_in E.
  destruct (prints_run_nothing _ Ht) as [_ Hm1].
  destruct (prints_run_nothing _ Ht0) as [_ Hm2].
  unfold events_of. simpl. intros Hm.
  destruct show.
  - destruct (StatusFacts.show_status_events self h n) as [_ Hs].
    destruct (show_status self h n) as [[r1 t1] n1].
    unfold events_of in Hs. simpl in Hs. inversion E; subst.
    find_mutating Hm.
  - destruct (SelectionFacts.find_oldest_events self h n)
      as (r1 & t1 & Hf & Hp1).
    rewrite Hf in E. destruct (prints_run_nothing _ Hp1) as [_ Hm3].
    destruct r1 as [candidate|e].
    + destruct (truthy candidate); cbn [negb] in E;
        unfold print, ret in E; cbv beta iota zeta in E.
      * destruct (remove_kernel self
                    match candidate with Some k => k | None => "None" end
                    dry_run h (S n)) as [[r2 t2] n2] eqn:Er.
        assert (Hrm : existsb mutating t2 = true ->
                      false = false /\ dry_run = false
                      /\ exists answer,
                           input_reply h (S (S n)) confirm_prompt
                           = Gives answer
                           /\ affirmative answer = true).
        { intros Hm'.
          destruct (@remove_kernel_mutates self
                      match candidate with Some k => k | None => "None" end
                      dry_run h (S n)) as (Hd & out & err & answer & H).
          - rewrite Er. exact Hm'.
          - split; [reflexivity|]. split; [exact Hd|].
            exists answer. tauto. }
        destruct r2 as [[|]|e]; [destruct dry_run| |];
          cbv beta iota zeta in E; cbn [negb] in E; cbv beta iota zeta in E;
          inversion E; subst; find_mutating Hm; auto.
      * inversion E; subst. find_mutating Hm.
    + inversion E; subst. find_mutating Hm.
Qed.

Lemma main_body_mutates (args : Namespace) (h : env) (n : nat) :
  existsb mutating (events_of (main_body args h n)) = true ->
  arg_status args = false /\ arg_dry_run args = false
  /\ exists answer,
       input_reply h (S (S (S n))) confirm_prompt = Gives answer
       /\ affirmative answer = true.
Proof.
  unfold main_body, KernelCleaner_init, bind.
  destruct (get_current_kernel_run h n) as (r & ->).
  destruct r as [k|e]; [|discriminate].
  simpl.
  destruct (run {| current_kernel := k; verbose := arg_verbose args |}
              (arg_dry_run args) (arg_status args) h (S n))
    as [[r tr] n'] eqn:E.
  unfold events_of. simpl. intros Hm.
  apply (@run_mutates {| current_kernel := k; verbose := arg_verbose args |}
           (arg_dry_run args) (arg_status args) h (S n)).
  rewrite E. exact Hm.
Qed.

End ConsentFacts.

(** X10: whatever the host answers, [remove_kernel] runs the purge or
    the update of the boot loader only when it is not a dry run, the
    listing has packages of the kernel, and the user's answer to the
    confirmation is affirmative. *)
Theorem mutation_requires_confirmation (self : KernelCleaner)
  (kernel_version : string) (dry_run : bool) (h : env) (n : nat) :
  existsb mutating (events_of (remove_kernel self kernel_version dry_run h n))
  = true ->
  dry_run = false
  /\ exists out err answer,
       run_reply h n ["dpkg"; "-l"] = Gives (Completed 0 out err)
       /\ kernel_packages_of kernel_version out <> []
       /\ input_reply h (S n) confirm_prompt = Gives answer
       /\ affirmative answer = true.
Proof. apply ConsentFacts.remove_kernel_mutates. Qed.

Lemma mutation_requires_confirmation_witness :
  exists answer,
    input_reply (example_env three_kernels "5.10.0-3" "y" 0 no_flags) 1
      confirm_prompt = Gives answer
    /\ affirmative answer = true.
Proof.
  destruct (@mutation_requires_confirmation cleaner_5_10 "5.4.0-1" false
              (example_env three_kernels "5.10.0-3" "y" 0 no_flags) 0)
    as (_ & out & err & answer & _ & _ & Hin & Hyes).
  - vm_compute. reflexivity.
  - now exists answer.
Defined.

(** X11: whatever the host answers, the program runs the purge or the
    update of the boot loader only when the command line asks for
    neither a dry run nor the status, the user is root, and the answer
    to the confirmation is affirmative. *)
Theorem program_mutates_only_as_root_and_confirmed (h : env) :
  existsb mutating (events_of (main h 0)) = true ->
  exists args answer,
    parse_args_reply h = Parsed args
    /\ arg_dry_run args = false
    /\ arg_status args = false
    /\ geteuid h = 0%Z
    /\ input_reply h 3 confirm_prompt = Gives answer
    /\ affirmative answer = true.
Proof.
  unfold main, bind, parse_args, os_geteuid.
  destruct (parse_args_reply h) as [args| |]; try discriminate.
  destruct (lacks_privileges args (geteuid h)) eqn:Hl; [discriminate|].
  unfold try_except.
  destruct (main_body args h 0) as [[r t] n1] eqn:E.
  intros Hm.
  assert (Ht : existsb mutating t = true).
  { destruct r as [[]|e]; unfold events_of in Hm; simpl in Hm.
    - exact Hm.
    - destruct e; simpl in Hm;
        apply ConsentFacts.mutating_app in Hm as [Hm | Hm];
        solve [exact Hm | discriminate Hm]. }
  destruct (@ConsentFacts.main_body_mutates args h 0)
    as (Hs & Hd & answer & Hin & Hyes).
  { rewrite E. exact Ht. }
  exists args, answer. repeat split; try assumption.
  unfold lacks_privileges in Hl. rewrite Hs, Hd in Hl. simpl in Hl.
  apply negb_false_iff in Hl. now apply Z.eqb_eq.
Qed.

Lemma program_mutates_only_as_root_and_confirmed_witness :
  exists args answer,
    parse_args_reply (example_env three_kernels "5.10.0-3" "yes" 0 no_flags)
    = Parsed args
    /\ arg_dry_run args = false
    /\ arg_status args = false
    /\ geteuid (example_env three_kernels "5.10.0-3" "yes" 0 no_flags) = 0%Z
    /\ input_reply (example_env three_kernels "5.10.0-3" "yes" 0 no_flags) 3
         confirm_prompt = Gives answer
    /\ affirmative answer = true.
Proof.
  apply (@program_mutates_only_as_root_and_confirmed
           (example_env three_kernels "5.10.0-3" "yes" 0 no_flags)).
  vm_compute. reflexivity.
Defined.

(** ** Runs that end early *)

Module EarlyEndFacts.
Import EffectFacts RemovalFacts.

Lemma prints_do_not_prompt (t : list event) :
  forallb is_print t = true -> existsb is_prompt t = false.
Proof.
  induction t as [|ev t IH]; simpl; [auto|].
  destruct ev; simpl; try discriminate. exact IH.
Qed.

Lemma get_current_kernel_ok (h : env) (n : nat) (out err : string) :
  run_reply h n ["uname"; "-r"] = Gives (Completed 0 out err) ->
  get_current_kernel h n
  = (Ok (PyStr.strip out), [EvRun ["uname"; "-r"]], S n).
Proof.
  intros H. unfold get_current_kernel, try_except, bind, subprocess_run.
  rewrite H. reflexivity.
Qed.

Lemma get_installed_kernels_fails (h : env) (n : nat) (p : CompletedProcess) :
  run_reply h n ["dpkg"; "-l"] = Gives p ->
  returncode p <> 0%Z ->
  get_installed_kernels h n
  = (Raise (RuntimeError "Impossible de lister les noyaux installés"),
     [EvRun ["dpkg"; "-l"]], S n).
Proof.
  intros H Hp. unfold get_installed_kernels, try_except, bind, subprocess_run.
  rewrite H. apply Z.eqb_neq in Hp. rewrite Hp. reflexivity.
Qed.

Lemma last_line_single (line : string) :
  exists lines, lines_printed [EvPrint line] = (lines ++ [line])%list.
Proof. now exists []. Qed.

Lemma last_line_app (t1 t2 : list event) (line : string) :
  (exists lines, lines_printed t2 = (lines ++ [line])%list) ->
  exists lines, lines_printed (t1 ++ t2) = (lines ++ [line])%list.
Proof.
  intros [lines H]. exists (lines_printed t1 ++ lines)%list.
  now rewrite lines_printed_app, H, app_assoc.
Qed.

Lemma last_line_cons (ev : event) (t : list event) (line : string) :
  (exists lines, lines_printed t = (lines ++ [line])%list) ->
  exists lines, lines_printed (ev :: t) = (lines ++ [line])%list.
Proof. apply (last_line_app [ev]). Qed.

Ltac last_line :=
  repeat first [ apply last_line_single
               | apply last_line_app
               | apply last_line_cons ].

(** [main] once the flags are parsed, the privileges are sufficient and
    the name of the running kernel is read: [E] becomes the equation of
    [run]. *)
Ltac main_prefix E Hparse Hl Huname :=
  unfold main, bind, parse_args, os_geteuid in E;
  rewrite Hparse, Hl in E;
  unfold try_except, main_body, KernelCleaner_init, bind in E;
  rewrite (get_current_kernel_ok _ _ Huname) in E;
  unfold ret in E; cbv beta iota zeta in E;
  cbn [current_kernel] in E;
  unfold run, bind in E; do 2 step_log_in E.

End EarlyEndFacts.

(** X12: when [uname -r] ends with a status that is not 0, the program
    runs nothing else, prints that the running kernel cannot be
    determined, and ends with status 1. *)
Theorem kernel_query_failure_ends_run (h : env) (args : Namespace)
  (p : CompletedProcess) :
  parse_args_reply h = Parsed args ->
  lacks_privileges args (geteuid h) = false ->
  run_reply h 0 ["uname"; "-r"] = Gives p ->
  returncode p <> 0%Z ->
  exit_status (result_of (main h 0)) = 1%Z
  /\ events_of (main h 0)
     = [EvRun ["uname"; "-r"];
        EvPrint "Erreur: Impossible de déterminer le noyau actuel"].
Proof.
  intros Hparse Hl Hrun Hp.
  unfold main, bind, parse_args, os_geteuid. rewrite Hparse, Hl.
  unfold try_except, main_body, KernelCleaner_init, get_current_kernel,
    try_except, bind, subprocess_run.
  rewrite Hrun. apply Z.eqb_neq in Hp. rewrite Hp. simpl. auto.
Qed.

Lemma kernel_query_failure_ends_run_witness :
  exit_status (result_of (main (uname_fails 1) 0)) = 1%Z
  /\ events_of (main (uname_fails 1) 0)
     = [EvRun ["uname"; "-r"];
        EvPrint "Erreur: Impossible de déterminer le noyau actuel"].
Proof.
  apply (@kernel_query_failure_ends_run (uname_fails 1) no_flags
           (Completed 1 "" "")); try reflexivity.
  discriminate.
Defined.

(** X13: when the listing of packages ends with a status that is not 0,
    in every mode, the program runs nothing after it, ends its output
    with the line that the installed kernels cannot be listed, and ends
    with status 1. *)
Theorem listing_failure_ends_run (h : env) (args : Namespace)
  (out err : string) (p : CompletedProcess) :
  parse_args_reply h = Parsed args ->
  lacks_privileges args (geteuid h) = false ->
  run_reply h 0 ["uname"; "-r"] = Gives (Completed 0 out err) ->
  run_reply h 1 ["dpkg"; "-l"] = Gives p ->
  returncode p <> 0%Z ->
  exit_status (result_of (main h 0)) = 1%Z
  /\ commands_run (events_of (main h 0))
     = [["uname"; "-r"]; ["dpkg"; "-l"]]
  /\ exists lines,
       lines_printed (events_of (main h 0))
       = (lines
          ++ ["Erreur: Impossible de lister les noyaux installés"])%list.
Proof.
  intros Hparse Hl Huname Hrun Hp.
  destruct (main h 0) as [[r tr] n'] eqn:E.
  EarlyEndFacts.main_prefix E Hparse Hl Huname.
  destruct (EffectFacts.prints_run_nothing _ Ht) as [Hc1 _].
  destruct (EffectFacts.prints_run_nothing _ Ht0) as [Hc2 _].
  destruct (arg_status args).
  - unfold show_status, bind, print in E. cbv beta iota zeta in E.
    rewrite (EarlyEndFacts.get_installed_kernels_fails _ _ Hrun Hp) in E.
    simpl in E. inversion E; subst; clear E.
    unfold result_of, events_of. simpl. split; [reflexivity|].
    rewrite !EffectFacts.commands_run_app, Hc1, Hc2. simpl.
    split; [reflexivity|].
    EarlyEndFacts.last_line.
  - unfold find_oldest_removable_kernel, bind in E.
    rewrite (EarlyEndFacts.get_installed_kernels_fails _ _ Hrun Hp) in E.
    simpl in E. inversion E; subst; clear E.
    unfold result_of, events_of. simpl. split; [reflexivity|].
    rewrite !EffectFacts.commands_run_app, Hc1, Hc2. simpl.
    split; [reflexivity|].
    EarlyEndFacts.last_line.
Qed.

Lemma listing_failure_ends_run_witness :
  exit_status (result_of (main (listing_fails no_flags) 0)) = 1%Z
  /\ commands_run (events_of (main (listing_fails no_flags) 0))
     = [["uname"; "-r"]; ["dpkg"; "-l"]].
Proof.
  destruct (@listing_failure_ends_run (listing_fails no_flags) no_flags
              "5.10.0-3" "" (Completed 2 "" ""))
    as (Hs & Hc & _); try reflexivity.
  - discriminate.
  - split; [exact Hs | exact Hc].
Defined.

(** X14: when fewer than two versions remain once the running kernel is
    set aside, a run that is not a status run asks nothing, runs nothing
    after the listing, ends its output with the line that there is no
    old kernel to remove, and ends with status 0. *)
Theorem run_without_spare_changes_nothing (h : env) (args : Namespace)
  (uname err0 out err : string) :
  parse_args_reply h = Parsed args ->
  arg_status args = false ->
  lacks_privileges args (geteuid h) = false ->
  run_reply h 0 ["uname"; "-r"] = Gives (Completed 0 uname err0) ->
  run_reply h 1 ["dpkg"; "-l"] = Gives (Completed 0 out err) ->
  (List.length
     (removable_kernels
        {| current_kernel := PyStr.strip uname; verbose := arg_verbose args |}
        (installed_kernels_of out)) < 2)%nat ->
  exit_status (result_of (main h 0)) = 0%Z
  /\ commands_run (events_of (main h 0))
     = [["uname"; "-r"]; ["dpkg"; "-l"]]
  /\ existsb is_prompt (events_of (main h 0)) = false
  /\ exists lines,
       lines_printed (events_of (main h 0))
       = (lines ++ ["Aucun noyau ancien à supprimer."])%list.
Proof.
  intros Hparse Hstatus Hl Huname Hrun Hlen.
  destruct (main h 0) as [[r tr] n'] eqn:E.
  EarlyEndFacts.main_prefix E Hparse Hl Huname.
  rewrite Hstatus in E.
  destruct (SelectionFacts.find_oldest_of_listing
              {| current_kernel := PyStr.strip uname;
                 verbose := arg_verbose args |} _ _ Hrun)
    as (r1 & t1 & Hf & Hp1 & _ & Hnone & _).
  rewrite Hf, (Hnone Hlen) in E. simpl in E.
  inversion E; subst; clear E.
  pose proof (EarlyEndFacts.prints_do_not_prompt _ Ht) as Hq1.
  pose proof (EarlyEndFacts.prints_do_not_prompt _ Ht0) as Hq2.
  pose proof (EarlyEndFacts.prints_do_not_prompt _ Hp1) as Hq3.
  destruct (EffectFacts.prints_run_nothing _ Ht) as [Hc1 _].
  destruct (EffectFacts.prints_run_nothing _ Ht0) as [Hc2 _].
  destruct (EffectFacts.prints_run_nothing _ Hp1) as [Hc3 _].
  unfold result_of, events_of. simpl. split; [reflexivity|].
  rewrite !EffectFacts.commands_run_app, !existsb_app, Hc1, Hc2, Hq1, Hq2.
  simpl.
  rewrite !EffectFacts.commands_run_app, !existsb_app, Hc3, Hq3. simpl.
  split; [reflexivity|]. split; [reflexivity|].
  EarlyEndFacts.last_line.
Qed.

Lemma run_without_spare_changes_nothing_witness :
  exit_status
    (result_of (main (example_env two_kernels "5.10.0-3" "oui" 0 no_flags) 0))
  = 0%Z
  /\ existsb is_prompt
       (events_of (main (example_env two_kernels "5.10.0-3" "oui" 0 no_flags)
                     0))
     = false.
Proof.
  destruct (@run_without_spare_changes_nothing
              (example_env two_kernels "5.10.0-3" "oui" 0 no_flags) no_flags
              "5.10.0-3" "" two_kernels "")
    as (Hs & _ & Hq & _); try reflexivity.
  - vm_compute. lia.
  - split; [exact Hs | exact Hq].
Defined.

(** ** From the version selected to the packages purged *)

Module ComposeFacts.
Import EffectFacts RemovalFacts.

(** A field of a line is a piece of the line. *)
Lemma split_ws_from_piece (s : string) :
  forall w field,
    In field (PyStr.split_ws_from w s) ->
    exists pre post, w ++ s = pre ++ field ++ post.
Proof.
  induction s as [|c s IH]; simpl; intros w field H.
  - destruct w; simpl in H; [tauto|]. destruct H as [<- | []].
    exists "", "". simpl. now rewrite !append_nil_r.
  - destruct (PyStr.is_space c).
    + destruct w as [|a w].
      * destruct (IH _ _ H) as (pre & post & E). simpl in E.
        exists (String c pre), post. simpl. now rewrite E.
      * destruct H as [<- | H].
        -- exists "", (String c s). reflexivity.
        -- destruct (IH _ _ H) as (pre & post & E). simpl in E.
           exists (String a w ++ String c pre), post.
           rewrite E. now rewrite !append_assoc.
    + destruct (IH _ _ H) as (pre & post & E).
      exists pre, post. rewrite <- E. now rewrite append_assoc.
Qed.

Lemma field_in_line (line field : string) (i : nat) :
  nth_error (PyStr.split_ws line) i = Some field ->
  PyStr.contains field line = true.
Proof.
  intros H. apply nth_error_In in H.
  apply split_ws_from_piece in H as (pre & post & E). simpl in E.
  apply SubstringFacts.contains_spec. eauto.
Qed.

(** The line that gives a version gives a package for it. *)
Lemma discovered_version_package (out v : string) :
  In v (installed_kernels_of out) ->
  exists package pre post,
    In package (kernel_packages_of v out)
    /\ package = pre ++ "linux-image-" ++ v ++ post.
Proof.
  intros H. apply DiscoveryFacts.installed_kernels_inv in H
    as (line & package & pre & post & Hl & (Hs & Hc & Hn) & _ & Hp).
  exists package, pre, post. split; [|exact Hp].
  unfold kernel_packages_of. apply PackageFacts.In_collect_packages.
  right. exists line. split; [exact Hl|].
  apply PackageFacts.package_of_line_spec. repeat split; try assumption.
  - apply SubstringFacts.contains_trans with package.
    + apply SubstringFacts.contains_spec.
      exists (pre ++ "linux-image-"), post. rewrite Hp.
      now rewrite !append_assoc.
    + now apply field_in_line with 1%nat.
  - left. apply SubstringFacts.contains_spec.
    exists pre, (v ++ post). exact Hp.
Qed.

Lemma cmd_in_cons (c : list string) (ev : event) (t : list event) :
  In c (commands_run t) -> In c (commands_run (ev :: t)).
Proof. destruct ev; simpl; auto. Qed.

Lemma cmd_in_app_l (c : list string) (t1 t2 : list event) :
  In c (commands_run t1) -> In c (commands_run (t1 ++ t2)).
Proof. rewrite commands_run_app. intros H. apply in_or_app. now left. Qed.

Lemma cmd_in_app_r (c : list string) (t1 t2 : list event) :
  In c (commands_run t2) -> In c (commands_run (t1 ++ t2)).
Proof. rewrite commands_run_app. intros H. apply in_or_app. now right. Qed.

Ltac find_command Hin :=
  first [ exact Hin
        | apply cmd_in_cons; find_command Hin
        | apply cmd_in_app_l; find_command Hin
        | apply cmd_in_app_r; find_command Hin ].

Lemma cmd_in_here (c : list string) (t : list event) :
  In c (commands_run (EvRun c :: t)).
Proof. simpl. now left. Qed.

Ltac find_run :=
  first [ apply cmd_in_here
        | apply cmd_in_cons; find_run
        | apply cmd_in_app_r; find_run
        | apply cmd_in_app_l; find_run ].

(** Once the user has confirmed, the purge is run, whatever follows. *)
Lemma remove_kernel_runs_purge (self : KernelCleaner) (kernel_version : string)
  (h : env) (n : nat) (out err answer : string) :
  run_reply h n ["dpkg"; "-l"] = Gives (Completed 0 out err) ->
  kernel_packages_of kernel_version out <> [] ->
  input_reply h (S n) confirm_prompt = Gives answer ->
  affirmative answer = true ->
  In (apt_remove_cmd (kernel_packages_of kernel_version out))
    (commands_run (events_of (remove_kernel self kernel_version false h n))).
Proof.
  intros H Hne Hin Hyes.
  destruct (remove_kernel self kernel_version false h n) as [[r tr] n']
    eqn:E.
  confirmed_prefix E H Hne Hin Hyes.
  unfold subprocess_run in E.
  destruct (run_reply h (S (S n)) (apt_remove_cmd (p0 :: ps))) as [p|f].
  - cbn [andb negb] in E. cbv beta iota zeta in E.
    destruct (returncode p =? 0)%Z; cbv beta iota zeta in E.
    + do 2 step_log_in E.
      destruct (run_reply h (S (S (S n))) update_grub_cmd) as [q|f].
      * destruct (returncode q =? 0)%Z; cbn [andb negb] in E;
          cbv beta iota zeta in E; unfold log in E;
          rewrite ?orb_true_r in E; simpl in E;
          inversion E; subst; unfold events_of; cbn [fst snd]; find_run.
      * destruct f; simpl in E; inversion E; subst; unfold events_of;
          cbn [fst snd]; find_run.
    + unfold log in E. rewrite orb_true_r in E. simpl in E.
      inversion E; subst. unfold events_of. cbn [fst snd]. find_run.
  - destruct f; simpl in E; inversion E; subst; unfold events_of;
      cbn [fst snd]; find_run.
Qed.

End ComposeFacts.

(** X15: every version that discovery returns has, in the same listing,
    at least one package selected for it: the [linux-image-] package it
    was read from. *)
Theorem discovered_version_has_packages (out v : string) :
  In v (installed_kernels_of out) ->
  exists package pre post,
    In package (kernel_packages_of v out)
    /\ package = pre ++ "linux-image-" ++ v ++ post.
Proof. apply ComposeFacts.discovered_version_package. Qed.

Lemma discovered_version_has_packages_witness :
  exists package pre post,
    In package (kernel_packages_of "5.8.0-2" three_kernels)
    /\ package = pre ++ "linux-image-" ++ "5.8.0-2" ++ post.
Proof.
  apply (@discovered_version_has_packages three_kernels "5.8.0-2").
  vm_compute. tauto.
Defined.

(** X16: in a run as root with no flag, when the listing has at least
    two versions besides the running one, [int] accepts the fields of
    each of them and the user confirms, the program runs the purge of
    the packages that the listing gives for one of these versions,
    which none of them precedes by its numbers. *)
Theorem program_purges_oldest (h : env) (args : Namespace)
  (uname err0 out err1 err2 answer : string) :
  parse_args_reply h = Parsed args ->
  arg_status args = false ->
  arg_dry_run args = false ->
  geteuid h = 0%Z ->
  run_reply h 0 ["uname"; "-r"] = Gives (Completed 0 uname err0) ->
  run_reply h 1 ["dpkg"; "-l"] = Gives (Completed 0 out err1) ->
  run_reply h 2 ["dpkg"; "-l"] = Gives (Completed 0 out err2) ->
  (exists k1 k2,
      k1 <> k2
      /\ other_kernel (PyStr.strip uname) (installed_kernels_of out) k1
      /\ other_kernel (PyStr.strip uname) (installed_kernels_of out) k2) ->
  (forall k, other_kernel (PyStr.strip uname) (installed_kernels_of out) k ->
             fields_accepted k) ->
  input_reply h 3 confirm_prompt = Gives answer ->
  affirmative answer = true ->
  exists k,
    other_kernel (PyStr.strip uname) (installed_kernels_of out) k
    /\ (forall k',
          other_kernel (PyStr.strip uname) (installed_kernels_of out) k' ->
          not_after k k')
    /\ kernel_packages_of k out <> []
    /\ In (apt_remove_cmd (kernel_packages_of k out))
         (commands_run (events_of (main h 0))).
Proof.
  intros Hparse Hstatus Hdry Heuid Huname Hrun1 Hrun2 Htwo Hacc Hin Hyes.
  assert (Hl : lacks_privileges args (geteuid h) = false).
  { unfold lacks_privileges. now rewrite Heuid, andb_false_r. }
  set (self := {| current_kernel := PyStr.strip uname;
                  verbose := arg_verbose args |}) in *.
  pose proof (@SelectionFacts.two_others_length self _ Htwo) as Hlen.
  destruct (SelectionFacts.find_oldest_of_listing self _ _ Hrun1)
    as (r1 & t1 & Hf & Hp1 & _ & _ & Hsome & _).
  destruct Hsome as (sorted & Hs & ->); [|exact Hlen|].
  { intros k Hk. apply Hacc.
    now apply (SelectionFacts.removable_kernels_spec self). }
  set (k := nth 0 sorted EmptyString) in *.
  destruct (@SelectionFacts.sorted_first_is_oldest self _ _ Hacc Hlen Hs)
    as [Hk Hold].
  fold k in Hk, Hold.
  assert (Hpk : kernel_packages_of k out <> []).
  { destruct Hk as [Hk _].
    apply ComposeFacts.discovered_version_package in Hk
      as (package & _ & _ & Hk & _).
    intros E. rewrite E in Hk. destruct Hk. }
  exists k. split; [exact Hk|]. split; [exact Hold|]. split; [exact Hpk|].
  pose proof (@ComposeFacts.remove_kernel_runs_purge self k h 2 out err2
                answer Hrun2 Hpk Hin Hyes) as Hpurge.
  pose proof (StatusFacts.candidate_truthy self out Hs Hlen) as Htruthy.
  fold k in Htruthy.
  destruct (main h 0) as [[r tr] n'] eqn:E.
  EarlyEndFacts.main_prefix E Hparse Hl Huname.
  fold self in E. rewrite Hstatus, Hdry in E.
  rewrite Hf, Htruthy in E. cbn [negb] in E.
  unfold print, ret in E. cbv beta iota zeta in E.
  destruct (remove_kernel self k false h 2) as [[r2 t2] n2].
  unfold events_of in Hpurge. cbn [fst snd] in Hpurge.
  destruct r2 as [[|]|e]; [| |destruct e]; simpl in E;
    inversion E; subst; unfold events_of; cbn [fst snd];
    ComposeFacts.find_command Hpurge.
Qed.

(** With 5.4.0-1, 5.8.0-2 and 5.10.0-3 installed, 5.10.0-3 running and
    the answer o, the packages of 5.4.0-1 are purged. *)
Lemma program_purges_oldest_witness :
  exists k,
    other_kernel (PyStr.strip "5.10.0-3") (installed_kernels_of three_kernels)
      k
    /\ (forall k',
          other_kernel (PyStr.strip "5.10.0-3")
            (installed_kernels_of three_kernels) k' ->
          not_after k k')
    /\ kernel_packages_of k three_kernels <> []
    /\ In (apt_remove_cmd (kernel_packages_of k three_kernels))
         (commands_run
            (events_of
               (main (example_env three_kernels "5.10.0-3" "o" 0 no_flags)
                  0))).
Proof.
  apply (@program_purges_oldest
           (example_env three_kernels "5.10.0-3" "o" 0 no_flags) no_flags
           "5.10.0-3" "" three_kernels "" "" "o"); try reflexivity.
  - exists "5.4.0-1", "5.8.0-2". split; [discriminate|].
    split; (split; [vm_compute; tauto | discriminate]).
  - intros k [Hin Hne]. vm_compute in Hin.
    destruct Hin as [<- | [<- | [<- | []]]].
    + accept_fields "5" "10" "0" "3".
    + accept_fields "5" "4" "0" "1".
    + accept_fields "5" "8" "0" "2".
Defined.

(** ** White space and case *)

Module TrimFacts.

Lemma lower_char_space (c : ascii) :
  PyStr.is_space c = true -> PyStr.lower_char c = c.
Proof.
  destruct c as [[] [] [] [] [] [] [] []]; intros H;
    solve [reflexivity | discriminate H].
Qed.

Lemma lower_char_idempotent (c : ascii) :
  PyStr.lower_char (PyStr.lower_char c) = PyStr.lower_char c.
Proof. destruct c as [[] [] [] [] [] [] [] []]; reflexivity. Qed.

Lemma lower_append (a b : string) :
  PyStr.lower (a ++ b) = PyStr.lower a ++ PyStr.lower b.
Proof. induction a; simpl; congruence. Qed.

Lemma lower_space (s : string) : all_space s = true -> PyStr.lower s = s.
Proof.
  induction s as [|c s IH]; simpl; [reflexivity|].
  intros H. apply andb_prop in H as [Hc Hs].
  now rewrite lower_char_space, IH.
Qed.

Lemma lower_idempotent (s : string) :
  PyStr.lower (PyStr.lower s) = PyStr.lower s.
Proof.
  induction s as [|c s IH]; simpl; [reflexivity|].
  now rewrite lower_char_idempotent, IH.
Qed.

Lemma lstrip_space (l s : string) :
  all_space l = true -> PyStr.lstrip (l ++ s) = PyStr.lstrip s.
Proof.
  induction l as [|c l IH]; simpl; [reflexivity|].
  intros H. apply andb_prop in H as [Hc Hl]. rewrite Hc. auto.
Qed.

Lemma rstrip_space (r : string) :
  all_space r = true -> PyStr.rstrip r = EmptyString.
Proof.
  induction r as [|c r IH]; simpl; [reflexivity|].
  intros H. apply andb_prop in H as [Hc Hr]. now rewrite IH, Hc.
Qed.

Lemma rstrip_append_space (s r : string) :
  all_space r = true -> PyStr.rstrip (s ++ r) = PyStr.rstrip s.
Proof.
  intros Hr. induction s as [|c s IH]; simpl.
  - now apply rstrip_space.
  - now rewrite IH.
Qed.

Lemma strip_append_space (s r : string) :
  all_space r = true -> PyStr.strip (s ++ r) = PyStr.strip s.
Proof.
  intros Hr. unfold PyStr.strip. induction s as [|c s IH]; simpl.
  - rewrite <- (append_nil_r r), (lstrip_space r EmptyString Hr).
    reflexivity.
  - destruct (PyStr.is_space c); [exact IH|].
    now apply (rstrip_append_space (String c s)).
Qed.

(** White space around a text does not change what [strip] returns. *)
Lemma strip_padding (l s r : string) :
  all_space l = true -> all_space r = true ->
  PyStr.strip (l ++ s ++ r) = PyStr.strip s.
Proof.
  intros Hl Hr. rewrite <- (strip_append_space s r Hr).
  unfold PyStr.strip. now rewrite lstrip_space.
Qed.

End TrimFacts.

(** X17: the answer to the confirmation is judged without regard to
    white space around it nor to the case of its letters. *)
Theorem affirmative_ignores_padding_and_case (l s r : string) :
  all_space l = true ->
  all_space r = true ->
  affirmative (l ++ s ++ r) = affirmative s
  /\ affirmative (PyStr.lower s) = affirmative s.
Proof.
  intros Hl Hr. unfold affirmative. cbv zeta. split.
  - rewrite !TrimFacts.lower_append, (TrimFacts.lower_space l Hl),
      (TrimFacts.lower_space r Hr).
    now rewrite TrimFacts.strip_padding.
  - now rewrite TrimFacts.lower_idempotent.
Qed.

Lemma affirmative_ignores_padding_and_case_witness :
  affirmative ("  " ++ "OUI" ++ " ") = true.
Proof.
  destruct (@affirmative_ignores_padding_and_case "  " "OUI" " "
              eq_refl eq_refl) as [H _].
  rewrite H. reflexivity.
Defined.

(** X18: [get_current_kernel] returns what [uname -r] prints without
    the white space around it, so without the end of line. *)
Theorem current_kernel_is_trimmed (h : env) (n : nat) (l v r err : string) :
  run_reply h n ["uname"; "-r"] = Gives (Completed 0 (l ++ v ++ r) err) ->
  all_space l = true ->
  all_space r = true ->
  PyStr.strip v = v ->
  result_of (get_current_kernel h n) = Ok v.
Proof.
  intros H Hl Hr Hv.
  rewrite (EarlyEndFacts.get_current_kernel_ok _ _ H).
  unfold result_of. simpl. now rewrite TrimFacts.strip_padding, Hv.
Qed.

Lemma current_kernel_is_trimmed_witness :
  result_of (get_current_kernel
               (example_env three_kernels ("5.10.0-3-amd64" ++ nl) "" 0
                  no_flags) 0)
  = Ok "5.10.0-3-amd64".
Proof.
  apply (@current_kernel_is_trimmed
           (example_env three_kernels ("5.10.0-3-amd64" ++ nl) "" 0 no_flags)
           0 "" "5.10.0-3-amd64" nl ""); reflexivity.
Defined.

(** ** Ties, quiet dry runs and a confirmation that fails *)

Module StableFacts.
Import PySort SortFacts.

(** The first element of a stable sort is, among the elements with the
    least key, the one that comes first. *)
Lemma stable_sort_first (R : list N * string -> list N * string -> Prop)
  (kl : list (list N * string)) :
  StronglySorted R kl ->
  forall x, hd_error (stable_sort kl) = Some x ->
  forall y, In y kl -> PyStr.tuple_ltb (fst x) (fst y) = false ->
  y = x \/ R x y.
Proof.
  induction 1 as [|a l Hs IH Ha]; simpl; intros x Hx y Hy Hxy; [tauto|].
  destruct (stable_sort l) as [|h s] eqn:E; simpl in Hx.
  - inversion Hx; subst x.
    pose proof (stable_sort_perm l) as Hp. rewrite E in Hp.
    apply Permutation_nil in Hp. subst l.
    destruct Hy as [-> | []]. now left.
  - destruct (PyStr.tuple_ltb (fst h) (fst a)) eqn:Hlt; simpl in Hx;
      inversion Hx; subst x.
    + destruct Hy as [<- | Hy]; [congruence|].
      now apply IH.
    + destruct Hy as [<- | Hy]; [now left|].
      right. rewrite Forall_forall in Ha. auto.
Qed.

Lemma strongly_sorted_filter (f : string -> bool) (l : list string) :
  StronglySorted string_lt l -> StronglySorted string_lt (filter f l).
Proof.
  induction 1 as [|a l Hs IH Ha]; simpl; [constructor|].
  destruct (f a); [|exact IH].
  constructor; [exact IH|].
  apply Forall_forall. intros y Hy. apply filter_In in Hy as [Hy _].
  rewrite Forall_forall in Ha. auto.
Qed.

Lemma strongly_sorted_names (kl : list (list N * string)) :
  StronglySorted string_lt (map snd kl) -> StronglySorted name_lt kl.
Proof.
  induction kl as [|a kl IH]; simpl; intros H; [constructor|].
  inversion H as [|? ? Hs Ha]; subst.
  constructor; [now apply IH|].
  apply Forall_forall. intros y Hy. rewrite Forall_forall in Ha.
  apply Ha. now apply in_map.
Qed.

Lemma hd_error_map_snd (kl : list (list N * string)) (x : list N * string) :
  hd_error kl = Some x -> nth 0 (map snd kl) EmptyString = snd x.
Proof. destruct kl; simpl; intros H; inversion H; reflexivity. Qed.

End StableFacts.

Module QuietFacts.
Import EffectFacts RemovalFacts.

(** With two candidates or more, whose fields [int] accepts, the
    selection prints nothing. *)
Lemma find_oldest_selected (self : KernelCleaner) (h : env) (n : nat)
  (out err : string) :
  run_reply h n ["dpkg"; "-l"] = Gives (Completed 0 out err) ->
  (2 <= List.length (removable_kernels self (installed_kernels_of out)))%nat ->
  (forall k, In k (removable_kernels self (installed_kernels_of out)) ->
             fields_accepted k) ->
  exists sorted,
    PySort.sort_by parse_kernel_version
      (removable_kernels self (installed_kernels_of out)) = Ok sorted
    /\ find_oldest_removable_kernel self h n
       = (Ok (Some (nth 0 sorted EmptyString)), [EvRun ["dpkg"; "-l"]], S n).
Proof.
  intros H Hlen Hacc.
  destruct (SelectionFacts.accepted_sort _ Hacc) as [sorted Hs].
  exists sorted. split; [exact Hs|].
  unfold find_oldest_removable_kernel, bind.
  rewrite (SelectionFacts.get_installed_kernels_ok _ _ H).
  destruct (removable_kernels self (installed_kernels_of out))
    as [|k1 [|k2 l]]; simpl in Hlen; try lia.
  cbv zeta. change (List.length (k1 :: k2 :: l) <=? 1)%nat with false.
  cbv iota. rewrite Hs. reflexivity.
Qed.

Lemma log_quiet (self : KernelCleaner) (message : string) :
  verbose self = false -> log self message "INFO" = ret tt.
Proof. intros H. unfold log. now rewrite H. Qed.

Lemma remove_kernel_dry_quiet (self : KernelCleaner) (kernel_version : string)
  (h : env) (n : nat) (out err : string) :
  verbose self = false ->
  run_reply h n ["dpkg"; "-l"] = Gives (Completed 0 out err) ->
  kernel_packages_of kernel_version out <> [] ->
  remove_kernel self kernel_version true h n
  = (Ok true, [EvRun ["dpkg"; "-l"]], S n).
Proof.
  intros Hv H Hne. unfold remove_kernel, bind.
  rewrite (get_kernel_packages_ok _ _ _ H).
  destruct (kernel_packages_of kernel_version out) as [|p ps];
    [congruence|].
  do 2 (rewrite (log_quiet _ _ Hv); unfold ret; cbv beta iota zeta).
  reflexivity.
Qed.

End QuietFacts.

(** X19: when at least two versions are left besides the running
    kernel and [int] accepts the fields of each, the version selected
    comes first in the order of strings among those that have the same
    four numbers as it has. *)
Theorem oldest_ties_go_to_least_name (self : KernelCleaner) (h : env)
  (n : nat) (out err : string) :
  run_reply h n ["dpkg"; "-l"] = Gives (Completed 0 out err) ->
  (exists k1 k2,
      k1 <> k2
      /\ other_kernel (current_kernel self) (installed_kernels_of out) k1
      /\ other_kernel (current_kernel self) (installed_kernels_of out) k2) ->
  (forall k, other_kernel (current_kernel self) (installed_kernels_of out) k ->
             fields_accepted k) ->
  exists k,
    result_of (find_oldest_removable_kernel self h n) = Ok (Some k)
    /\ forall k' t,
         other_kernel (current_kernel self) (installed_kernels_of out) k' ->
         is_version k t -> is_version k' t ->
         k' = k \/ string_lt k k'.
Proof.
  intros H Htwo Hacc.
  pose proof (@SelectionFacts.two_others_length self _ Htwo) as Hlen.
  assert (Hacc' : forall k,
             In k (removable_kernels self (installed_kernels_of out)) ->
             fields_accepted k).
  { intros k Hk. apply Hacc.
    now apply SelectionFacts.removable_kernels_spec. }
  destruct (QuietFacts.find_oldest_selected self _ _ H Hlen Hacc')
    as (sorted & Hs & Hf).
  exists (nth 0 sorted EmptyString). rewrite Hf. split; [reflexivity|].
  intros k' t Hother Hvk Hvk'.
  destruct (@SelectionFacts.sorted_first_is_oldest self _ _ Hacc Hlen Hs)
    as [Hfirst _].
  pose proof (VersionFacts.is_version_key (Hacc _ Hfirst) Hvk) as Hk.
  pose proof (VersionFacts.is_version_key (Hacc _ Hother) Hvk') as Hkey'.
  assert (Hk' : In k' (removable_kernels self (installed_kernels_of out)))
    by now apply SelectionFacts.removable_kernels_spec.
  clear Hfirst Hvk Hvk'. revert Hk Hkey'. generalize (key_of t) as key.
  intros key Hk Hkey'.
  unfold PySort.sort_by in Hs.
  destruct (PySort.with_keys parse_kernel_version
              (removable_kernels self (installed_kernels_of out)))
    as [kl|] eqn:Ekl; [|discriminate].
  inversion Hs; subst sorted; clear Hs.
  destruct (SortFacts.with_keys_spec _ _ Ekl) as [Hm Hkeys].
  assert (Hsorted : StronglySorted name_lt kl).
  { apply StableFacts.strongly_sorted_names. rewrite Hm.
    apply StableFacts.strongly_sorted_filter.
    apply OrderFacts.sorted_set_sorted. }
  destruct (PySort.stable_sort kl) as [|x s] eqn:Est.
  { pose proof (SortFacts.stable_sort_perm kl) as Hp. rewrite Est in Hp.
    apply Permutation_nil in Hp. subst kl. simpl in Hm.
    rewrite <- Hm in Hlen. simpl in Hlen. lia. }
  simpl in Hk |- *.
  assert (Hx : In x kl).
  { apply (Permutation_in _ (SortFacts.stable_sort_perm kl)).
    rewrite Est. now left. }
  rewrite Forall_forall in Hkeys.
  rewrite <- Hm in Hk'. apply in_map_iff in Hk' as (y & <- & Hy).
  assert (Hfx : fst x = key).
  { pose proof (Hkeys x Hx) as Hpx. rewrite Hk in Hpx. now inversion Hpx. }
  assert (Hfy : fst y = key).
  { pose proof (Hkeys y Hy) as Hpy. rewrite Hkey' in Hpy. now inversion Hpy. }
  destruct (@StableFacts.stable_sort_first name_lt kl Hsorted x) with (y := y)
    as [-> | Hlt]; try assumption.
  - now rewrite Est.
  - rewrite Hfx, Hfy. apply SortFacts.tuple_ltb_irrefl.
  - now left.
  - now right.
Qed.

(** 5.04.0-1 and 5.4.0-1 have the same numbers; the first is selected. *)
Lemma oldest_ties_go_to_least_name_witness :
  result_of (find_oldest_removable_kernel cleaner_5_10
               (example_env tied_kernels "5.10.0-3" "" 0 no_flags) 0)
  = Ok (Some "5.04.0-1")
  /\ string_lt "5.04.0-1" "5.4.0-1".
Proof.
  destruct (@oldest_ties_go_to_least_name cleaner_5_10
              (example_env tied_kernels "5.10.0-3" "" 0 no_flags) 0
              tied_kernels "" eq_refl) as (k & Hk & Hties).
  - exists "5.04.0-1", "5.4.0-1". split; [discriminate|].
    split; (split; [vm_compute; tauto | discriminate]).
  - intros k [Hin Hne]. vm_compute in Hin.
    destruct Hin as [<- | [<- | [<- | []]]].
    + accept_fields "5" "04" "0" "1".
    + accept_fields "5" "10" "0" "3".
    + accept_fields "5" "4" "0" "1".
  - assert (E : result_of (find_oldest_removable_kernel cleaner_5_10
                   (example_env tied_kernels "5.10.0-3" "" 0 no_flags) 0)
                = Ok (Some "5.04.0-1")) by (vm_compute; reflexivity).
    split; [exact E|].
    rewrite E in Hk. injection Hk as <-.
    destruct (Hties "5.4.0-1" (5, 4, 0, 1)%N) as [Heq | Hlt].
    + split; [vm_compute; tauto | discriminate].
    + exists "5", "04", "0", "1".
      repeat (split; [digits|]). split; reflexivity.
    + exists "5", "4", "0", "1".
      repeat (split; [digits|]). split; reflexivity.
    + discriminate Heq.
    + exact Hlt.
Defined.

(** X20: a dry run without the verbose flag, when at least two
    versions are left besides the running kernel and [int] accepts the
    fields of each, prints the version found, which none of them
    precedes by its numbers, and nothing else: the packages it would
    remove are printed only with the verbose flag. *)
Theorem quiet_dry_run_output (h : env) (args : Namespace)
  (uname err0 out err1 err2 : string) :
  parse_args_reply h = Parsed args ->
  arg_verbose args = false ->
  arg_dry_run args = true ->
  arg_status args = false ->
  run_reply h 0 ["uname"; "-r"] = Gives (Completed 0 uname err0) ->
  run_reply h 1 ["dpkg"; "-l"] = Gives (Completed 0 out err1) ->
  run_reply h 2 ["dpkg"; "-l"] = Gives (Completed 0 out err2) ->
  (exists k1 k2,
      k1 <> k2
      /\ other_kernel (PyStr.strip uname) (installed_kernels_of out) k1
      /\ other_kernel (PyStr.strip uname) (installed_kernels_of out) k2) ->
  (forall k, other_kernel (PyStr.strip uname) (installed_kernels_of out) k ->
             fields_accepted k) ->
  exists k,
    other_kernel (PyStr.strip uname) (installed_kernels_of out) k
    /\ (forall k',
          other_kernel (PyStr.strip uname) (installed_kernels_of out) k' ->
          not_after k k')
    /\ events_of (main h 0)
       = [EvRun ["uname"; "-r"]; EvRun ["dpkg"; "-l"];
          EvPrint ("Plus ancien noyau trouvé: " ++ k);
          EvRun ["dpkg"; "-l"]]
    /\ exit_status (result_of (main h 0)) = 0%Z.
Proof.
  intros Hparse Hverbose Hdry Hstatus Huname Hrun1 Hrun2 Htwo Hacc.
  assert (Hl : lacks_privileges args (geteuid h) = false).
  { unfold lacks_privileges. now rewrite Hdry. }
  set (self := {| current_kernel := PyStr.strip uname; verbose := false |})
    in *.
  pose proof (@SelectionFacts.two_others_length self _ Htwo) as Hlen.
  assert (Hacc' : forall k,
             In k (removable_kernels self (installed_kernels_of out)) ->
             fields_accepted k).
  { intros k Hk. apply Hacc.
    now apply (SelectionFacts.removable_kernels_spec self). }
  destruct (QuietFacts.find_oldest_selected self _ _ Hrun1 Hlen Hacc')
    as (sorted & Hs & Hf).
  set (k := nth 0 sorted EmptyString) in *.
  destruct (@SelectionFacts.sorted_first_is_oldest self _ _ Hacc Hlen Hs)
    as [Hk Hold].
  fold k in Hk, Hold.
  assert (Hpk : kernel_packages_of k out <> []).
  { destruct Hk as [Hk' _].
    apply ComposeFacts.discovered_version_package in Hk'
      as (package & _ & _ & Hk' & _).
    intros E. rewrite E in Hk'. destruct Hk'. }
  pose proof (StatusFacts.candidate_truthy self out Hs Hlen) as Htruthy.
  fold k in Htruthy.
  exists k. split; [exact Hk|]. split; [exact Hold|].
  unfold main, bind, parse_args, os_geteuid. rewrite Hparse, Hl.
  unfold try_except, main_body, KernelCleaner_init, bind.
  rewrite (EarlyEndFacts.get_current_kernel_ok _ _ Huname).
  unfold ret. cbv beta iota zeta. cbn [current_kernel].
  rewrite Hverbose, Hstatus, Hdry. fold self.
  unfold run, bind.
  do 2 (rewrite (QuietFacts.log_quiet self _ eq_refl); unfold ret;
        cbv beta iota zeta).
  rewrite Hf, Htruthy. cbn [negb]. unfold print. cbv beta iota zeta.
  rewrite (@QuietFacts.remove_kernel_dry_quiet self k h 2 out err2
             eq_refl Hrun2 Hpk).
  cbn [negb]. unfold ret. cbv beta iota zeta.
  unfold events_of, result_of. simpl. auto.
Qed.

Lemma quiet_dry_run_output_witness :
  events_of
    (main (example_env three_kernels "5.10.0-3" ""  1000
             {| arg_verbose := false; arg_dry_run := true;
                arg_status := false |}) 0)
  = [EvRun ["uname"; "-r"]; EvRun ["dpkg"; "-l"];
     EvPrint "Plus ancien noyau trouvé: 5.4.0-1";
     EvRun ["dpkg"; "-l"]].
Proof.
  destruct (@quiet_dry_run_output
              (example_env three_kernels "5.10.0-3" "" 1000
                 {| arg_verbose := false; arg_dry_run := true;
                    arg_status := false |})
              {| arg_verbose := false; arg_dry_run := true;
                 arg_status := false |}
              "5.10.0-3" "" three_kernels "" "")
    as (k & _ & _ & Hev & _); try reflexivity.
  - exists "5.4.0-1", "5.8.0-2". split; [discriminate|].
    split; (split; [vm_compute; tauto | discriminate]).
  - intros k [Hin Hne]. vm_compute in Hin.
    destruct Hin as [<- | [<- | [<- | []]]].
    + accept_fields "5" "10" "0" "3".
    + accept_fields "5" "4" "0" "1".
    + accept_fields "5" "8" "0" "2".
Defined.

Module FaultFacts.
Import EffectFacts RemovalFacts.

(** A confirmation that fails ends [remove_kernel] with the exception
    of the failure, nothing being run after the listing. *)
Lemma remove_kernel_fault (self : KernelCleaner) (kernel_version : string)
  (h : env) (n : nat) (out err : string) (f : fault) :
  run_reply h n ["dpkg"; "-l"] = Gives (Completed 0 out err) ->
  kernel_packages_of kernel_version out <> [] ->
  input_reply h (S n) confirm_prompt = Faults f ->
  exists t,
    remove_kernel self kernel_version false h n
    = (Raise (exn_of_fault f),
       (EvRun ["dpkg"; "-l"] :: t ++ [EvInput confirm_prompt])%list,
       S (S n))
    /\ forallb is_print t = true.
Proof.
  intros H Hne Hin. unfold remove_kernel, bind.
  rewrite (get_kernel_packages_ok _ _ _ H).
  destruct (kernel_packages_of kernel_version out) as [|p0 ps];
    [congruence|].
  destruct (log_run self ("Packages à supprimer: "
                          ++ PyStr.join ", " (p0 :: ps)) "INFO" h (S n))
    as (t0 & -> & Ht0).
  unfold try_except, bind.
  destruct (confirm_removal_fault self kernel_version (p0 :: ps) _ _ Hin)
    as (t1 & -> & Ht1).
  exists (t0 ++ t1)%list. split.
  - destruct f; simpl; now rewrite app_nil_r, <- app_assoc.
  - now rewrite forallb_app, Ht0, Ht1.
Qed.

End FaultFacts.

(** X21: in a run as root with no flag, when at least two versions are
    left besides the running kernel, [int] accepts the fields of each,
    and the confirmation is interrupted or fails to read an answer, the
    program purges nothing, ends its output with the line of the
    interruption or of the error, and ends with status 1. *)
Theorem failed_confirmation_ends_run (h : env) (args : Namespace)
  (uname err0 out err1 err2 : string) (f : fault) :
  parse_args_reply h = Parsed args ->
  arg_status args = false ->
  arg_dry_run args = false ->
  geteuid h = 0%Z ->
  run_reply h 0 ["uname"; "-r"] = Gives (Completed 0 uname err0) ->
  run_reply h 1 ["dpkg"; "-l"] = Gives (Completed 0 out err1) ->
  run_reply h 2 ["dpkg"; "-l"] = Gives (Completed 0 out err2) ->
  (exists k1 k2,
      k1 <> k2
      /\ other_kernel (PyStr.strip uname) (installed_kernels_of out) k1
      /\ other_kernel (PyStr.strip uname) (installed_kernels_of out) k2) ->
  (forall k, other_kernel (PyStr.strip uname) (installed_kernels_of out) k ->
             fields_accepted k) ->
  input_reply h 3 confirm_prompt = Faults f ->
  exit_status (result_of (main h 0)) = 1%Z
  /\ existsb mutating (events_of (main h 0)) = false
  /\ exists lines,
       lines_printed (events_of (main h 0)) = (lines ++ [fault_line f])%list.
Proof.
  intros Hparse Hstatus Hdry Heuid Huname Hrun1 Hrun2 Htwo Hacc Hin.
  assert (Hl : lacks_privileges args (geteuid h) = false).
  { unfold lacks_privileges. now rewrite Heuid, andb_false_r. }
  set (self := {| current_kernel := PyStr.strip uname;
                  verbose := arg_verbose args |}) in *.
  pose proof (@SelectionFacts.two_others_length self _ Htwo) as Hlen.
  assert (Hacc' : forall k,
             In k (removable_kernels self (installed_kernels_of out)) ->
             fields_accepted k).
  { intros k Hk. apply Hacc.
    now apply (SelectionFacts.removable_kernels_spec self). }
  destruct (QuietFacts.find_oldest_selected self _ _ Hrun1 Hlen Hacc')
    as (sorted & Hs & Hf).
  set (k := nth 0 sorted EmptyString) in *.
  assert (Hpk : kernel_packages_of k out <> []).
  { destruct (@SortFacts.sort_by_least _ _ _ _ "" Hs) as [Hk _].
    { intros E. rewrite E in Hlen. simpl in Hlen. lia. }
    apply SelectionFacts.removable_kernels_spec in Hk as [Hk _].
    apply ComposeFacts.discovered_version_package in Hk
      as (package & _ & _ & Hk & _).
    intros E. fold k in Hk. rewrite E in Hk. destruct Hk. }
  pose proof (StatusFacts.candidate_truthy self out Hs Hlen) as Htruthy.
  fold k in Htruthy.
  destruct (@FaultFacts.remove_kernel_fault self k h 2 out err2 f
              Hrun2 Hpk Hin) as (t2 & Hrm & Ht2).
  destruct (main h 0) as [[r tr] n'] eqn:E.
  EarlyEndFacts.main_prefix E Hparse Hl Huname.
  fold self in E. rewrite Hstatus, Hdry in E.
  rewrite Hf, Htruthy in E. cbn [negb] in E.
  unfold print, ret in E. cbv beta iota zeta in E.
  rewrite Hrm in E.
  destruct (EffectFacts.prints_run_nothing _ Ht) as [_ Hm1].
  destruct (EffectFacts.prints_run_nothing _ Ht0) as [_ Hm2].
  destruct (EffectFacts.prints_run_nothing _ Ht2) as [_ Hm3].
  destruct f; simpl in E; inversion E; subst; clear E;
    unfold result_of, events_of; cbn [fst snd exit_status];
    (split; [reflexivity|]); split.
  - cbn [existsb mutating is_purge is_update_grub orb].
    rewrite !existsb_app, Hm1, Hm2. simpl.
    rewrite !existsb_app, Hm3. reflexivity.
  - EarlyEndFacts.last_line.
  - cbn [existsb mutating is_purge is_update_grub orb].
    rewrite !existsb_app, Hm1, Hm2. simpl.
    rewrite !existsb_app, Hm3. reflexivity.
  - EarlyEndFacts.last_line.
Qed.

Lemma failed_confirmation_ends_run_witness :
  exit_status (result_of (main interrupted_at_confirmation 0)) = 1%Z
  /\ existsb mutating (events_of (main interrupted_at_confirmation 0))
     = false.
Proof.
  destruct (@failed_confirmation_ends_run interrupted_at_confirmation
              no_flags "5.10.0-3" "" three_kernels "" "" Interrupt)
    as (Hs & Hm & _); try reflexivity.
  - exists "5.4.0-1", "5.8.0-2". split; [discriminate|].
    split; (split; [vm_compute; tauto | discriminate]).
  - intros k [Hin Hne]. vm_compute in Hin.
    destruct Hin as [<- | [<- | [<- | []]]].
    + accept_fields "5" "10" "0" "3".
    + accept_fields "5" "4" "0" "1".
    + accept_fields "5" "8" "0" "2".
  - split; [exact Hs | exact Hm].
Defined.

(** ** The status report *)

Module ReportFacts.

Lemma strongly_sorted_weaken (A : Type) (R R' : A -> A -> Prop)
  (l : list A) :
  (forall a b, In a l -> In b l -> R a b -> R' a b) ->
  StronglySorted R l -> StronglySorted R' l.
Proof.
  intros Himp Hs. induction Hs as [|a l Hs IH Ha]; [constructor|].
  constructor.
  - apply IH. intros x y Hx Hy. apply Himp; now right.
  - apply Forall_forall. intros b Hb. rewrite Forall_forall in Ha.
    apply Himp; [now left | now right | auto].
Qed.

Lemma installed_kernels_nodup (out : string) :
  NoDup (installed_kernels_of out).
Proof.
  apply OrderFacts.strictly_sorted_nodup, OrderFacts.sorted_set_sorted.
Qed.

Lemma removable_kernels_nodup (self : KernelCleaner) (out : string) :
  NoDup (removable_kernels self (installed_kernels_of out)).
Proof. apply NoDup_filter, installed_kernels_nodup. Qed.

(** A list without repetition has two elements or more exactly when
    two of its elements differ. *)
Lemma two_distinct_iff (l : list string) :
  NoDup l ->
  ((2 <= List.length l)%nat
   <-> exists a b, a <> b /\ In a l /\ In b l).
Proof.
  intros Hnd. split.
  - destruct l as [|a [|b l]]; simpl; try lia. intros _.
    exists a, b. inversion Hnd as [|? ? Ha _]; subst.
    split; [|auto]. intros ->. apply Ha. now left.
  - intros (a & b & Hne & Ha & Hb).
    now apply (@SelectionFacts.two_distinct_length _ l a b).
Qed.

(** It has one element exactly when its elements are a single one. *)
Lemma single_iff (l : list string) :
  NoDup l ->
  (List.length l = 1%nat <-> exists k, forall k', In k' l <-> k' = k).
Proof.
  intros Hnd. split.
  - destruct l as [|a [|b l]]; simpl; try discriminate. intros _.
    exists a. intros k'. split; [intros [<- | []]; reflexivity | auto].
  - intros (k & Hk). destruct l as [|a [|b l]]; simpl.
    + exfalso. apply (proj2 (Hk k) eq_refl).
    + reflexivity.
    + exfalso. inversion Hnd as [|? ? Ha _]; subst. apply Ha.
      assert (Ea : a = k) by (apply Hk; now left).
      assert (Eb : b = k) by (apply Hk; right; now left).
      subst. now left.
Qed.

Lemma two_others_iff (self : KernelCleaner) (out : string) :
  (2 <= List.length (removable_kernels self (installed_kernels_of out)))%nat
  <-> exists k1 k2,
        k1 <> k2
        /\ other_kernel (current_kernel self) (installed_kernels_of out) k1
        /\ other_kernel (current_kernel self) (installed_kernels_of out) k2.
Proof.
  rewrite (two_distinct_iff (removable_kernels_nodup self out)).
  split; intros (a & b & Hne & Ha & Hb); exists a, b;
    (split; [exact Hne|]); split;
    now apply SelectionFacts.removable_kernels_spec.
Qed.

Lemma single_other_iff (self : KernelCleaner) (out : string) :
  List.length (removable_kernels self (installed_kernels_of out)) = 1%nat
  <-> exists k, forall k',
        other_kernel (current_kernel self) (installed_kernels_of out) k'
        <-> k' = k.
Proof.
  rewrite (single_iff (removable_kernels_nodup self out)).
  split; intros (k & Hk); exists k; intros k'; rewrite <- Hk;
    [symmetry|]; apply SelectionFacts.removable_kernels_spec.
Qed.

Lemma lines_printed_status (self : KernelCleaner) (l : list string) :
  lines_printed (map (fun k => EvPrint (status_line self k)) l)
  = map (status_line self) l.
Proof. induction l; simpl; congruence. Qed.

End ReportFacts.

(** C9, as the program has it: [show_status] runs no command but the
    listing of packages, whatever the host answers.  Once the two
    listings are read, when [int] accepts the fields of every installed
    version (at most 4300 digits each), it returns having printed the
    running kernel, a heading, every installed kernel, the most recent
    first by the numbers (major, minor, patch, revision), with the
    mark on the lines of the kernels equal to the running one and on
    no other, then the note of the selection, printed exactly when it
    is verbose and a single version is left besides the running
    kernel, and last the candidate: a version that none of those left
    besides the running kernel precedes, when there are two or more of
    them, and the notice that there is none otherwise. *)
Theorem show_status_reports (self : KernelCleaner) (h : env) (n : nat) :
  Forall (eq ["dpkg"; "-l"]) (commands_run (events_of (show_status self h n)))
  /\ existsb mutating (events_of (show_status self h n)) = false
  /\ forall out1 err1 out2 err2,
       run_reply h n ["dpkg"; "-l"] = Gives (Completed 0 out1 err1) ->
       run_reply h (S n) ["dpkg"; "-l"] = Gives (Completed 0 out2 err2) ->
       (forall k, In k (installed_kernels_of out1) -> fields_accepted k) ->
       (forall k, In k (installed_kernels_of out2) -> fields_accepted k) ->
       exists newest_first candidate notes,
         Permutation newest_first (installed_kernels_of out1)
         /\ StronglySorted (fun a b => not_after b a) newest_first
         /\ result_of (show_status self h n) = Ok tt
         /\ lines_printed (events_of (show_status self h n))
            = ("Noyau actuel: " ++ current_kernel self)
              :: "Noyaux installés:"
              :: (map (status_line self) newest_first
                  ++ notes ++ [candidate_line candidate])%list
         /\ (forall k,
               (k = current_kernel self ->
                status_line self k = "  - " ++ k ++ " (ACTUEL)")
               /\ (k <> current_kernel self ->
                   status_line self k = "  - " ++ k))
         /\ ((verbose self = true
              /\ exists k, forall k',
                   other_kernel (current_kernel self)
                     (installed_kernels_of out2) k' <-> k' = k) ->
             notes = [backup_note])
         /\ (~ (verbose self = true
                /\ exists k, forall k',
                     other_kernel (current_kernel self)
                       (installed_kernels_of out2) k' <-> k' = k) ->
             notes = [])
         /\ result_of (find_oldest_removable_kernel self h (S n))
            = Ok candidate
         /\ ((exists k1 k2,
                 k1 <> k2
                 /\ other_kernel (current_kernel self)
                      (installed_kernels_of out2) k1
                 /\ other_kernel (current_kernel self)
                      (installed_kernels_of out2) k2) ->
             exists k,
               candidate = Some k
               /\ other_kernel (current_kernel self)
                    (installed_kernels_of out2) k
               /\ forall k',
                    other_kernel (current_kernel self)
                      (installed_kernels_of out2) k' ->
                    not_after k k')
         /\ (~ (exists k1 k2,
                   k1 <> k2
                   /\ other_kernel (current_kernel self)
                        (installed_kernels_of out2) k1
                   /\ other_kernel (current_kernel self)
                        (installed_kernels_of out2) k2) ->
             candidate = None).
Proof.
  destruct (StatusFacts.show_status_events self h n) as [Hcmds Hmut].
  split; [exact Hcmds|]. split; [exact Hmut|].
  intros out1 err1 out2 err2 H1 H2 Hacc1 Hacc2.
  destruct (StatusFacts.show_status_run self _ _ H1 H2 Hacc1)
    as (newest & candidate & t & Hnew & Hfind & Ht & Hshow).
  destruct (@SortFacts.sort_by_reverse_spec _ parse_kernel_version
              (installed_kernels_of out1)) as (newest' & Hnew' & Hp & Hs).
  { intros k Hk. destruct (VersionFacts.accepted_parse (Hacc1 k Hk))
      as (tk & _ & ->). eauto. }
  rewrite Hnew in Hnew'. inversion Hnew'; subst newest'.
  assert (Hothers : forall k,
             other_kernel (current_kernel self) (installed_kernels_of out2) k
             -> fields_accepted k).
  { intros k [Hk _]. now apply Hacc2. }
  assert (Hrem : forall k,
             In k (removable_kernels self (installed_kernels_of out2)) ->
             fields_accepted k).
  { intros k Hk. apply SelectionFacts.removable_kernels_spec in Hk as [Hk _].
    now apply Hacc2. }
  destruct (SelectionFacts.find_oldest_of_listing self _ _ H2)
    as (r & t' & Hf & _ & Hnotes & Hnone & Hsome & _).
  rewrite Hf in Hfind. inversion Hfind; subst r t'. clear Hfind.
  specialize (Hnotes Hrem). specialize (Hsome Hrem).
  exists newest, candidate, (lines_printed t).
  split; [exact Hp|]. split.
  { apply (ReportFacts.strongly_sorted_weaken
             (R := fun a b => exists ka kb,
                       parse_kernel_version a = Ok ka
                       /\ parse_kernel_version b = Ok kb
                       /\ PyStr.tuple_ltb ka kb = false)); [|exact Hs].
    intros a b Ha Hb (ka & kb & Ka & Kb & Hlt).
    apply (@VersionFacts.key_order_not_after a b ka kb); auto;
      apply Hacc1; now apply (Permutation_in _ Hp). }
  rewrite Hshow, Hf. unfold events_of, result_of. cbn [fst snd].
  split; [reflexivity|]. split.
  { cbn [lines_printed app].
    rewrite EffectFacts.lines_printed_app, ReportFacts.lines_printed_status.
    cbn [lines_printed app].
    rewrite EffectFacts.lines_printed_app. reflexivity. }
  split.
  { intros k. split.
    - intros ->. unfold status_line. now rewrite String.eqb_refl.
    - intros Hk. unfold status_line.
      apply String.eqb_neq in Hk. rewrite Hk. now rewrite append_nil_r. }
  split.
  { intros [Hv Hone]. apply ReportFacts.single_other_iff in Hone.
    rewrite Hnotes, Hv, Hone. reflexivity. }
  split.
  { intros Hno. rewrite Hnotes.
    destruct (verbose self) eqn:Hv; [|reflexivity].
    destruct (List.length _ =? 1)%nat eqn:Hone; [|reflexivity].
    exfalso. apply Hno. split; [reflexivity|].
    apply ReportFacts.single_other_iff. now apply Nat.eqb_eq. }
  split; [reflexivity|]. split.
  - intros Htwo.
    pose proof (proj2 (ReportFacts.two_others_iff self out2) Htwo) as Hlen.
    destruct (Hsome Hlen) as (sorted & Hsort & ->).
    exists (nth 0 sorted ""). split; [reflexivity|].
    now apply SelectionFacts.sorted_first_is_oldest.
  - intros Hno. apply Hnone.
    destruct (Nat.lt_ge_cases
                (List.length (removable_kernels self
                                (installed_kernels_of out2))) 2)
      as [Hl | Hl]; [exact Hl|].
    exfalso. apply Hno. now apply ReportFacts.two_others_iff.
Qed.

(** With 5.4.0-1, 5.8.0-2 and 5.10.0-3 installed and 5.10.0-3
    running. *)
Lemma show_status_reports_witness :
  lines_printed
    (events_of (show_status cleaner_5_10
                  (example_env three_kernels "5.10.0-3" "non" 0 no_flags) 0))
  = ["Noyau actuel: 5.10.0-3"; "Noyaux installés:";
     "  - 5.10.0-3 (ACTUEL)"; "  - 5.8.0-2"; "  - 5.4.0-1";
     nl ++ "Plus ancien noyau supprimable: 5.4.0-1"]
  /\ existsb mutating
       (events_of (show_status cleaner_5_10
                     (example_env three_kernels "5.10.0-3" "non" 0 no_flags)
                     0))
     = false.
Proof.
  destruct (@show_status_reports cleaner_5_10
              (example_env three_kernels "5.10.0-3" "non" 0 no_flags) 0)
    as (_ & Hm & Hrep).
  assert (Hacc : forall k, In k (installed_kernels_of three_kernels) ->
                           fields_accepted k).
  { intros k Hin. vm_compute in Hin.
    destruct Hin as [<- | [<- | [<- | []]]].
    - accept_fields "5" "10" "0" "3".
    - accept_fields "5" "4" "0" "1".
    - accept_fields "5" "8" "0" "2". }
  destruct (Hrep three_kernels "" three_kernels "" eq_refl eq_refl Hacc Hacc)
    as (newest & candidate & notes & _).
  split; [vm_compute; reflexivity | exact Hm].
Defined.

(** With the version 5.8.0-[long_revision] installed, the sort of
    [show_status], which is in no try statement, raises the ValueError
    of [int]: the report stops after its heading and the listing, and
    [main] ends with status 1. *)
Lemma long_field_stops_status :
  In ("5.8.0-" ++ long_revision) (installed_kernels_of long_listing)
  /\ show_status cleaner_5_10
       (example_env long_listing "5.10.0-3" "non" 0 no_flags) 0
     = (Raise (ValueError long_revision_error),
        [EvPrint "Noyau actuel: 5.10.0-3"; EvPrint "Noyaux installés:";
         EvRun ["dpkg"; "-l"]], 1%nat)
  /\ exit_status
       (result_of
          (main (example_env long_listing "5.10.0-3" "non" 0
                   {| arg_verbose := false; arg_dry_run := false;
                      arg_status := true |}) 0))
     = 1%Z.
Proof.
  split; [vm_compute; tauto|]. split; vm_compute; reflexivity.
Qed.
